(* ===== verification/_CoqProject ===== *)
-Q . S2P
Prelude.v
Utf8.v
JsonString.v
JsonDecode.v
Store.v
GoFmt.v
HttpDate.v
CookieDate.v
Http.v
Codec.v
JsonUser.v
OAuth.v
Handlers.v
Session.v
SetCookie.v
Server.v
Browser.v
RedisServer.v
Startup.v
Pages.v
Scenario.v
