(* ===== verification/Prelude.v ===== *)
(** * A verification development for go-social-login

    The program (src/main.go, one file) is a web server that logs users
    in with Google OAuth2 and keeps their identity in a server-side
    session stored in Redis.  Its parts, and how they interact:

    - [main] (lines 35-76) loads the environment, connects to Redis,
      builds the OAuth2 configuration and registers four handlers.
    - [handleCallback] (96-139) receives the authorization code, lets
      the OAuth2 library exchange it and fetch the Google profile,
      decodes the profile as JSON into a [User], takes the current
      Unix time in nanoseconds printed with [%d] as the session id,
      stores the JSON encoding of the user in Redis under
      ["session:" + id] with a TTL of one hour, and sets the cookie
      [session=id].
    - [getUser] (154-174) reads the cookie [session], fetches
      ["session:" + value] from Redis and decodes the JSON; every error
      answers "not logged in".
    - [handleHome] (78-89) renders the welcome page for the user that
      [getUser] finds, or the login link.
    - [handleLogout] (141-152) deletes the Redis key of the cookie and
      clears the cookie.
    - [handleLogin] (91-94) redirects to Google's consent page.

    The session lifecycle (create in the callback, resolve in [getUser],
    destroy in the logout, expire by the Redis TTL) is the core of the
    program, and the development is organised around it.

    ** Files (in dependency order)

    - [Prelude] (this file): bytes as [Z] ([ord]/[chr]), the string,
      option and association-list lemmas, the [scan] combinator that
      models Go's index loops over a string (a step emits what the loop
      body appends and how far it advances; its fuel is the length of
      the string, enough since every step advances), the [slogin] hint
      and [slogin_rw] rewrite databases and the shared tactics.
    - [Utf8]: [utf8.DecodeRuneInString], [utf8.EncodeRune],
      [utf8.ValidString], [utf16.DecodeRune]; decoding what was encoded
      gives the rune back.
    - [JsonString]: encoding/json's [appendString] (with HTML escaping)
      and [unquoteBytes] (fast path and slow loop); the fast path
      agrees with the slow loop, unquoting inverts quoting on valid
      UTF-8, the output of [unquoteBytes] is valid UTF-8, and the
      encoding holds no [<], [>] or [&].
    - [JsonDecode]: the grammar of encoding/json's scanner as a
      recursive-descent parser with fuel; the fuel [2n+1] for an input
      of [n] bytes is always enough ([parse_json_total]: every call
      consumes a byte or stops).
    - [Store]: the interface [SessionStore] with its laws, and
      [RedisModel], Redis driven by go-redis (millisecond deadlines,
      lazy expiry [now > when], the [EX]/[PX] choice, availability),
      an instance of the laws.
    - [GoFmt]: [fmt.Sprintf("%d", n)] on an [int64]; fuel 20 digit steps
      covers every [uint64]; the numeral reads back as [n].
    - [HttpDate]: Go's [absDate], [absClock], [absWeekday] and
      [appendInt] behind [Time.AppendFormat(http.TimeFormat)]; the
      400/100/4/1-year cycle arithmetic and the month estimate are
      equivalent to a reference calendar stepped a year (fuel
      [d / 365 + 1], proved enough) and a month (fuel 12) at a time.
    - [CookieDate]: the IMF-fixdate a browser reads back; the printed
      date of a time reads back as that time in seconds.
    - [Http]: requests, responses, [Request.Cookie], [http.Error],
      [http.Redirect], [http.SetCookie].
    - [Codec]: the [User] struct (lines 21-25) and the interface
      [UserCodec] with its laws.
    - [JsonUser]: [json.Marshal], [json.MarshalIndent], [json.Unmarshal]
      and [Decoder.Decode] on [User]; the instance [json_codec] and its
      laws; the empty-identity and [null] answers of the decoder.
    - [OAuth]: the configuration of [main] and [AuthCodeURL].
    - [Handlers]: [getUser], the four handlers and the route table
      [serve], against the two interfaces.
    - [SetCookie]: [Cookie.String] and [http.SetCookie]: the exact
      [Set-Cookie] lines of a successful callback and of a logout.
    - [Session]: the lifecycle theorems for every lawful store and
      codec: resolve after create for the TTL, absent after expiry and
      after a successful destroy, other sessions untouched, fail
      closed; the handlers' outcomes, login then home, logout then
      home, the same-instant collision, the ignored OAuth2 state.
    - [Server]: the server as the step relation [reachable] from an
      empty store, the abstract session manager ([abs_sessions]) and
      the refinement [reachable_refines], by rule induction.
    - [Browser]: a browser's cookie jar (RFC 6265: parsing of
      [Set-Cookie], replacement by name, expiry, the [Cookie] line)
      composed with the server: a login is recognised until the
      cookie's expiry, and a logout's line makes the browser forget the
      session whatever Redis did.
    - [RedisServer]: on Redis and encoding/json, the invariant of every
      reachable keyspace (only [session:<id>] records with a one-hour
      deadline and a decodable value) and the logout that leaves the
      session alive when Redis is down.
    - [Startup]: [main] (lines 35-76): [godotenv.Load] under the
      process environment, the fatal [Ping], the configuration; a
      restart keeps the sessions.
    - [Pages]: the bytes [handleHome] writes; the welcome page carries
      the markup of the user's name and picture URL unescaped.
    - [Scenario]: the theorems applied at concrete clock readings,
      users, requests and Google answers on Redis and encoding/json,
      and the spec's end-to-end scenario, by [vm_compute].

    Clock readings are [Z] nanoseconds (Go's [time.Now().UnixNano()]),
    kept as they are; the session id needs them in [int64]
    ([in_int64]).  Every handler reads the clock as an argument, so an
    interleaving of requests is a sequence of [serve] steps with their
    readings.

    ** Not modelled

    The TCP/HTTP transport of [ListenAndServe], TLS, the path cleaning of
    relative redirects (the program redirects to [/] and to an absolute
    URL only), logging, and the Google endpoints themselves: the token
    exchange and the userinfo request are inputs of the callback (an
    oracle, [oauth_env]), since their behaviour is Google's, not the
    program's. *)

From stdpp Require Export base strings list option gmap.
From Stdlib Require Export ZArith Lia Ascii.

Declare Scope slogin_scope.
Delimit Scope slogin_scope with sl.
Open Scope Z_scope.

(** ** Bytes

    A Go string is a sequence of bytes.  Rocq's [string] is a list of
    8-bit [ascii] characters, so it is exactly that; [ord] reads a byte
    as an integer in [0, 256) and [chr] builds one. *)

Definition ord (c : ascii) : Z := Z.of_N (N_of_ascii c).
Definition chr (z : Z) : ascii := ascii_of_N (Z.to_N z).

(** [b[n]] is the byte with value [n]. *)
Notation "'b[' n ']'" := (chr n) (at level 0) : slogin_scope.
Open Scope slogin_scope.

Lemma ord_range c : 0 <= ord c < 256.
Proof. unfold ord. pose proof (N_ascii_bounded c). lia. Qed.

Lemma chr_ord c : chr (ord c) = c.
Proof. unfold chr, ord. rewrite N2Z.id. apply ascii_N_embedding. Qed.

Lemma ord_chr z : 0 <= z < 256 -> ord (chr z) = z.
Proof.
  intros H. unfold chr, ord. rewrite N_ascii_embedding; [lia|].
  apply N2Z.inj_lt. rewrite Z2N.id; lia.
Qed.

Lemma ord_inj c d : ord c = ord d -> c = d.
Proof. intros H. rewrite <- (chr_ord c), <- (chr_ord d), H. done. Qed.

(** The double-quote byte and the one-byte string made of it. *)
Definition dquote : ascii := chr 34.
Definition dq : string := String dquote "".

(** ** Strings

    stdpp makes [String.append] opaque to [simpl]; [sapp_cons] is its
    defining equation, used by the proofs below and by the components. *)

Lemma sapp_cons x (a b : string) : String x a +:+ b = String x (a +:+ b).
Proof. done. Qed.

Lemma sapp_nil_l (a : string) : "" +:+ a = a.
Proof. done. Qed.

Lemma sapp_assoc (a b c : string) : (a +:+ b) +:+ c = a +:+ (b +:+ c).
Proof. induction a as [|x a IH]; [done | by rewrite !sapp_cons, IH]. Qed.

Lemma sapp_nil_r (a : string) : a +:+ "" = a.
Proof. induction a as [|x a IH]; [done | by rewrite !sapp_cons, IH]. Qed.

Lemma sapp_inj_l (p a b : string) : p +:+ a = p +:+ b -> a = b.
Proof. apply String.app_inj. Qed.

Lemma slength_app (a b : string) :
  String.length (a +:+ b) = (String.length a + String.length b)%nat.
Proof. induction a as [|x a IH]; [done | rewrite sapp_cons; simpl; by rewrite IH]. Qed.

(** Two strings that begin with the same prefix differ exactly when
    their rests do. *)
Lemma sapp_prefix_iff (p a b : string) : p +:+ a = p +:+ b <-> a = b.
Proof. split; [apply sapp_inj_l | intros ->; done]. Qed.

(** [sforall p s]: every byte of [s] satisfies [p]. *)
Fixpoint sforall (p : ascii -> bool) (s : string) : bool :=
  match s with
  | EmptyString => true
  | String c s' => p c && sforall p s'
  end.

Lemma sforall_app p a b : sforall p (a +:+ b) = sforall p a && sforall p b.
Proof.
  induction a as [|c a IH]; [done|]. rewrite sapp_cons. simpl. by rewrite IH, andb_assoc.
Qed.

Lemma sforall_impl (p q : ascii -> bool) s :
  (forall c, p c = true -> q c = true) -> sforall p s = true -> sforall q s = true.
Proof.
  intros Hpq. induction s as [|c s IH]; [done|]. simpl.
  intros [Hc Hs]%andb_prop. by rewrite Hpq, IH.
Qed.

(** [sdrop n s] and [stake n s]: Go's [s[n:]] and [s[:n]] (clamped). *)
Fixpoint sdrop (n : nat) (s : string) : string :=
  match n, s with
  | O, _ => s
  | S n', String _ s' => sdrop n' s'
  | S _, EmptyString => EmptyString
  end.

Fixpoint stake (n : nat) (s : string) : string :=
  match n, s with
  | O, _ => EmptyString
  | S n', String c s' => String c (stake n' s')
  | S _, EmptyString => EmptyString
  end.

Lemma stake_sdrop n s : stake n s +:+ sdrop n s = s.
Proof.
  revert s. induction n as [|n IH]; intros [|c s]; try done.
  simpl. rewrite sapp_cons. by rewrite IH.
Qed.

Lemma sdrop_app n a b : String.length a = n -> sdrop n (a +:+ b) = b.
Proof.
  revert n. induction a as [|c a IH]; intros n Hn; simpl in Hn; subst; [done|].
  rewrite sapp_cons. simpl. by apply IH.
Qed.

Lemma stake_app n a b : String.length a = n -> stake n (a +:+ b) = a.
Proof.
  revert n. induction a as [|c a IH]; intros n Hn; simpl in Hn; subst; [done|].
  rewrite sapp_cons. simpl. by rewrite IH.
Qed.

Lemma stake_all n s : (String.length s <= n)%nat -> stake n s = s.
Proof.
  revert n. induction s as [|c s IH]; intros [|n] Hn; simpl in *; try done; [lia|].
  f_equal. apply IH. lia.
Qed.

Lemma slength_sdrop n s : String.length (sdrop n s) = (String.length s - n)%nat.
Proof. revert s. induction n as [|n IH]; intros [|c s]; simpl; try done; lia. Qed.

Lemma slength_stake n s : String.length (stake n s) = Nat.min n (String.length s).
Proof. revert s. induction n as [|n IH]; intros [|c s]; simpl; try done. by rewrite IH. Qed.

Lemma sdrop_add a b s : sdrop (a + b) s = sdrop b (sdrop a s).
Proof. revert s. induction a as [|a IH]; intros [|c s]; simpl; try done; by destruct b. Qed.

Lemma stake_add a b s : stake (a + b) s = stake a s +:+ stake b (sdrop a s).
Proof.
  revert s. induction a as [|a IH]; intros [|c s]; simpl; try done; [by destruct b|].
  rewrite sapp_cons. by rewrite IH.
Qed.

Lemma sdrop_all n s : (String.length s <= n)%nat -> sdrop n s = "".
Proof. revert s. induction n as [|n IH]; intros [|c s] Hn; simpl in *; try done; [lia|]. apply IH. lia. Qed.

Lemma fmap_sapp_nil (o : option string) : (fun t => "" +:+ t) <$> o = o.
Proof. by destruct o. Qed.

Lemma fmap_sapp_fuse (a b : string) (o : option string) :
  (fun r => a +:+ r) <$> ((fun r => b +:+ r) <$> o) = (fun r => (a +:+ b) +:+ r) <$> o.
Proof. destruct o; simpl; [by rewrite sapp_assoc|done]. Qed.

Lemma sget_snoc s c : String.get (String.length s) (s +:+ String c "") = Some c.
Proof. induction s as [|d s IH]; [done|]. rewrite sapp_cons. exact IH. Qed.

(** The value of the first pair with key [k] in an association list
    (Go's lookups in a header, a query or an environment, which keep the
    first occurrence). *)
Definition assoc_first {A} (k : string) (l : list (string * A)) : option A :=
  (fun p => p.2.2) <$> list_find (fun kv => kv.1 = k) l.

Lemma assoc_first_cons {A} k k' (v : A) l :
  assoc_first k ((k', v) :: l) = if decide (k' = k) then Some v else assoc_first k l.
Proof.
  unfold assoc_first. simpl. case_decide; [done|].
  by destruct (list_find _ l) as [[]|].
Qed.

Lemma assoc_first_app {A} k (l1 l2 : list (string * A)) :
  assoc_first k (l1 ++ l2) = match assoc_first k l1 with Some v => Some v | None => assoc_first k l2 end.
Proof.
  induction l1 as [|[k' v] l1 IH]; [done|]. simpl. rewrite !assoc_first_cons. by case_decide.
Qed.

(** ** Scans of a string chunk by chunk

    Go's string loops ([appendString] of encoding/json, the slow path of
    [unquoteBytes], [appendFoldedName]) walk a string left to right; at
    each position they look at the rest of the string, emit some bytes
    and advance by some count, or stop with a failure.  [scan step s]
    is that loop, with [step] the body: [Some (out, n)] emits [out] and
    advances by [n], [None] fails.  The fuel is the length of the string,
    which is enough as soon as every step advances (the hypothesis
    [step_progress] of Section [Scan]). *)
Fixpoint scan_go (step : string -> option (string * nat)) (fuel : nat) (s : string)
  : option string :=
  match fuel, s with
  | O, _ => Some ""
  | _, EmptyString => Some ""
  | S f, String _ _ =>
      match step s with
      | None => None
      | Some (out, n) => (fun r => out +:+ r) <$> scan_go step f (sdrop n s)
      end
  end.

Definition scan (step : string -> option (string * nat)) (s : string) : option string :=
  scan_go step (String.length s) s.

Section Scan.
Variable step : string -> option (string * nat).
Hypothesis step_progress : forall c t out n, step (String c t) = Some (out, n) -> (1 <= n)%nat.

Lemma scan_go_enough f s : (String.length s <= f)%nat -> scan_go step f s = scan step s.
Proof.
  unfold scan. remember (String.length s) as m eqn:Em.
  revert f s Em. induction m as [m IH] using lt_wf_ind. intros f s Em Hf.
  destruct s as [|c t]; [by destruct f, m|].
  destruct f as [|f]; [simpl in *; lia|]. destruct m as [|m]; [done|].
  cbn [scan_go]. destruct (step (String c t)) as [[out n]|] eqn:Es; [|done].
  apply step_progress in Es. f_equal.
  assert (String.length (sdrop n (String c t)) < S m)%nat.
  { rewrite slength_sdrop. cbn [String.length] in *. lia. }
  rewrite (IH _ H f _ eq_refl), (IH _ H m _ eq_refl); [done| |];
    rewrite slength_sdrop; cbn [String.length] in *; lia.
Qed.

Lemma scan_nil : scan step "" = Some "".
Proof. done. Qed.

Lemma scan_cons c t :
  scan step (String c t) =
    match step (String c t) with
    | None => None
    | Some (out, n) => (fun r => out +:+ r) <$> scan step (sdrop n (String c t))
    end.
Proof.
  unfold scan at 1. cbn [String.length scan_go].
  destruct (step (String c t)) as [[out n]|] eqn:Es; [|done].
  apply step_progress in Es. rewrite scan_go_enough; [done|].
  rewrite slength_sdrop. cbn [String.length]. lia.
Qed.

(** A step that consumes exactly the chunk [a] in front of [t]. *)
Lemma scan_app a t out :
  a <> "" -> step (a +:+ t) = Some (out, String.length a) ->
  scan step (a +:+ t) = (fun r => out +:+ r) <$> scan step t.
Proof.
  intros Ha Hs. destruct a as [|c a]; [done|]. rewrite sapp_cons in *.
  rewrite scan_cons, Hs, <- sapp_cons, sdrop_app; done.
Qed.

Lemma scan_app_fail a t :
  a <> "" -> step (a +:+ t) = None -> scan step (a +:+ t) = None.
Proof.
  intros Ha Hs. destruct a as [|c a]; [done|]. rewrite sapp_cons in *.
  by rewrite scan_cons, Hs.
Qed.
(** What holds of the empty string and of every step output put in front
    of it holds of the output of a scan. *)
Lemma scan_ind (P : string -> Prop) :
  P "" ->
  (forall c t out n rest, step (String c t) = Some (out, n) -> P rest -> P (out +:+ rest)) ->
  forall s x, scan step s = Some x -> P x.
Proof.
  intros H0 Hs s. remember (String.length s) as m eqn:Em. revert s Em.
  induction m as [m IH] using lt_wf_ind. intros [|c t] Em x Hx.
  { injection Hx as <-. done. }
  rewrite scan_cons in Hx. destruct (step (String c t)) as [[out n]|] eqn:E; [|done].
  destruct (scan step (sdrop n (String c t))) as [r|] eqn:Er; [|done].
  injection Hx as <-. apply (Hs c t out n); [done|].
  pose proof (step_progress _ _ _ _ E).
  eapply IH; [|reflexivity|exact Er]. rewrite slength_sdrop. simpl in *. lia.
Qed.
End Scan.

(** ** Bit operations as arithmetic

    Go's byte and rune code masks and shifts; on the ranges it uses them
    these are remainders, products and quotients, which [lia] handles. *)

Lemma land_mask x k : 0 <= k -> Z.land x (2 ^ k - 1) = x mod 2 ^ k.
Proof. intros Hk. rewrite <- Z.land_ones by done. f_equal. by rewrite Z.ones_equiv, Z.sub_1_r. Qed.

Lemma lor_disjoint a b k :
  0 <= k -> a mod 2 ^ k = 0 -> 0 <= b < 2 ^ k -> Z.lor a b = a + b.
Proof.
  intros Hk Ha Hb.
  assert (Hand : Z.land a b = 0).
  { rewrite <- (Z.mod_small b (2 ^ k)) by lia. rewrite <- Z.land_ones by done.
    rewrite (Z.land_comm b), Z.land_assoc, Z.land_ones, Ha by done. apply Z.land_0_l. }
  pose proof (Z.add_lor_land a b). lia.
Qed.

Lemma land_low x k m : m = 2 ^ k - 1 -> 0 <= k -> Z.land x m = x mod 2 ^ k.
Proof. intros -> Hk. by apply land_mask. Qed.

Lemma shiftl_mul x k : 0 <= k -> Z.shiftl x k = x * 2 ^ k.
Proof. apply Z.shiftl_mul_pow2. Qed.

Lemma shiftr_div x k : 0 <= k -> Z.shiftr x k = x / 2 ^ k.
Proof. apply Z.shiftr_div_pow2. Qed.

(** [lia_dm]: [lia] after naming the quotients and remainders by
    constants ([lia] alone treats [x mod 32] as an atom). *)
Ltac lia_dm := Z.div_mod_to_equations; lia.

(** [pow_consts]: evaluate the powers of two with literal exponents. *)
Ltac pow_consts :=
  repeat match goal with
  | |- context [(2 ^ ?k)%Z] =>
      let v := eval vm_compute in (2 ^ k)%Z in change (2 ^ k)%Z with v
  end.

Create HintDb slogin discriminated.
Create Rewrite HintDb slogin_rw.
#[export] Hint Rewrite sapp_cons sapp_nil_l sapp_assoc sapp_nil_r sforall_app : slogin_rw.
#[export] Hint Resolve ord_range chr_ord : slogin.

(** ** Tactics *)

(** [invc H]: invert, substitute, and drop [H]. *)
Ltac invc H := inversion H; subst; clear H.

(** [all_bytes c]: one goal per value of the byte [c], for facts about
    byte classes that are checked by computation. *)
Ltac all_bytes c := destruct c as [[] [] [] [] [] [] [] []].

(** [case_if] splits on the first boolean test of the goal and turns it
    into the proposition it decides (for [Z] and [string] tests). *)
Ltac case_if :=
  match goal with
  | |- context [if (?a =? ?b)%Z then _ else _] => destruct (Z.eqb_spec a b)
  | |- context [if (?a <? ?b)%Z then _ else _] => destruct (Z.ltb_spec a b)
  | |- context [if (?a <=? ?b)%Z then _ else _] => destruct (Z.leb_spec a b)
  | |- context [if negb (?a <? ?b)%Z then _ else _] => destruct (Z.ltb_spec a b)
  | |- context [if negb (?a =? ?b)%Z then _ else _] => destruct (Z.eqb_spec a b)
  | |- context [if (?a <? ?b)%nat then _ else _] => destruct (Nat.ltb_spec a b)
  | |- context [if (?a <=? ?b)%nat then _ else _] => destruct (Nat.leb_spec a b)
  | |- context [if (?a =? ?b)%nat then _ else _] => destruct (Nat.eqb_spec a b)
  | |- context [if decide ?P then _ else _] => destruct (decide P)
  | |- context [((?a <? ?b)%Z || _)%bool] => destruct (Z.ltb_spec a b); cbn [orb]
  | |- context [((?a <=? ?b)%Z || _)%bool] => destruct (Z.leb_spec a b); cbn [orb]
  | |- context [((?a =? ?b)%Z || _)%bool] => destruct (Z.eqb_spec a b); cbn [orb]
  | |- context [((?a <? ?b)%Z && _)%bool] => destruct (Z.ltb_spec a b); cbn [andb]
  | |- context [((?a <=? ?b)%Z && _)%bool] => destruct (Z.leb_spec a b); cbn [andb]
  | |- context [((?a =? ?b)%Z && _)%bool] => destruct (Z.eqb_spec a b); cbn [andb]
  | |- context [if ?b then _ else _] => destruct b eqn:?
  end.
