(* ===== verification/Utf8.v ===== *)
(** * Utf8: Go's unicode/utf8 and unicode/utf16 as encoding/json uses them

    encoding/json decodes the bytes of a string rune by rune: its encoder
    ([appendString]) to replace an invalid byte by U+FFFD and to escape
    U+2028 and U+2029, its decoder ([unquoteBytes]) to coerce a string
    to well-formed UTF-8.  This file holds the Go functions it calls:

    - [decode_rune]: [utf8.DecodeRuneInString], with the [first] table
      and the [acceptRanges] of the second byte;
    - [encode_rune]: [utf8.EncodeRune] (an invalid rune is encoded as
      U+FFFD);
    - [utf16_decode], [is_surrogate]: [utf16.DecodeRune] and
      [utf16.IsSurrogate];
    - [utf8_valid]: [utf8.ValidString], a string on which [decode_rune]
      never reports an invalid byte.

    The theorems: a complete sequence that [decode_rune] accepts is the
    encoding of the rune it returns ([decode_encode_bytes]), and its
    result does not depend on what follows ([decode_rune_prefix]); every
    [encode_rune] output is a sequence that [decode_rune] accepts
    ([decode_encoded_rune]), so strings built from [encode_rune] pieces are
    valid ([utf8_valid_encode]). *)

From S2P Require Import Prelude.

Definition rune_error : Z := 0xFFFD.
Definition rune_self : Z := 0x80.
Definition max_rune : Z := 0x10FFFF.
Definition surrogate_min : Z := 0xD800.
Definition surrogate_max : Z := 0xDFFF.

Definition maskx : Z := 0x3F.
Definition mask2 : Z := 0x1F.
Definition mask3 : Z := 0x0F.
Definition mask4 : Z := 0x07.
Definition t2 : Z := 0xC0.
Definition t3 : Z := 0xE0.
Definition t4 : Z := 0xF0.
Definition tx : Z := 0x80.
Definition locb : Z := 0x80.
Definition hicb : Z := 0xBF.

(** The [first] table of utf8 for a byte [>= 0x80]: [None] for an
    invalid leading byte ([xx]), otherwise the length of the sequence and
    the accepted range of its second byte. *)
Definition first_info (b0 : Z) : option (nat * Z * Z) :=
  if b0 <? 0xC2 then None
  else if b0 <=? 0xDF then Some (2%nat, locb, hicb)
  else if b0 =? 0xE0 then Some (3%nat, 0xA0, hicb)
  else if b0 <=? 0xEC then Some (3%nat, locb, hicb)
  else if b0 =? 0xED then Some (3%nat, locb, 0x9F)
  else if b0 <=? 0xEF then Some (3%nat, locb, hicb)
  else if b0 =? 0xF0 then Some (4%nat, 0x90, hicb)
  else if b0 <=? 0xF3 then Some (4%nat, locb, hicb)
  else if b0 =? 0xF4 then Some (4%nat, locb, 0x8F)
  else None.

(** [s[i]] as a number ([0] past the end, never read there). *)
Definition byte_at (i : nat) (s : string) : Z :=
  match String.get i s with Some c => ord c | None => 0 end.

(** [utf8.DecodeRuneInString(s)]: the rune and its size. *)
Definition decode_rune (s : string) : Z * nat :=
  match s with
  | EmptyString => (rune_error, 0%nat)
  | String c0 _ =>
      let b0 := ord c0 in
      if b0 <? rune_self then (b0, 1%nat)
      else
        match first_info b0 with
        | None => (rune_error, 1%nat)
        | Some (sz, lo, hi) =>
            if (String.length s <? sz)%nat then (rune_error, 1%nat)
            else
              let b1 := byte_at 1 s in
              if (b1 <? lo) || (hi <? b1) then (rune_error, 1%nat)
              else if (sz <=? 2)%nat then
                (Z.lor (Z.shiftl (Z.land b0 mask2) 6) (Z.land b1 maskx), 2%nat)
              else
                let b2 := byte_at 2 s in
                if (b2 <? locb) || (hicb <? b2) then (rune_error, 1%nat)
                else if (sz <=? 3)%nat then
                  (Z.lor (Z.lor (Z.shiftl (Z.land b0 mask3) 12) (Z.shiftl (Z.land b1 maskx) 6))
                         (Z.land b2 maskx), 3%nat)
                else
                  let b3 := byte_at 3 s in
                  if (b3 <? locb) || (hicb <? b3) then (rune_error, 1%nat)
                  else
                    (Z.lor (Z.lor (Z.lor (Z.shiftl (Z.land b0 mask4) 18)
                                         (Z.shiftl (Z.land b1 maskx) 12))
                                  (Z.shiftl (Z.land b2 maskx) 6))
                           (Z.land b3 maskx), 4%nat)
        end
  end.

(** [byte(x)]: the low eight bits. *)
Definition to_byte (x : Z) : ascii := chr (Z.land x 0xFF).

Definition encode3 (r : Z) : string :=
  String (to_byte (Z.lor t3 (Z.land (Z.shiftr r 12) 0xFF)))
    (String (to_byte (Z.lor tx (Z.land (Z.land (Z.shiftr r 6) 0xFF) maskx)))
      (String (to_byte (Z.lor tx (Z.land (Z.land r 0xFF) maskx))) "")).

(** [utf8.EncodeRune]: one to four bytes; a negative rune, a rune past
    [MaxRune] and a surrogate are encoded as [RuneError]. *)
Definition encode_rune (r : Z) : string :=
  let i := r mod 2 ^ 32 in
  if i <=? 0x7F then String (to_byte r) ""
  else if i <=? 0x7FF then
    String (to_byte (Z.lor t2 (Z.land (Z.shiftr r 6) 0xFF)))
      (String (to_byte (Z.lor tx (Z.land (Z.land r 0xFF) maskx))) "")
  else if (max_rune <? i) || ((surrogate_min <=? i) && (i <=? surrogate_max)) then
    encode3 rune_error
  else if i <=? 0xFFFF then encode3 r
  else
    String (to_byte (Z.lor t4 (Z.land (Z.shiftr r 18) 0xFF)))
      (String (to_byte (Z.lor tx (Z.land (Z.land (Z.shiftr r 12) 0xFF) maskx)))
        (String (to_byte (Z.lor tx (Z.land (Z.land (Z.shiftr r 6) 0xFF) maskx)))
          (String (to_byte (Z.lor tx (Z.land (Z.land r 0xFF) maskx))) ""))).

(** [utf16.IsSurrogate]. *)
Definition is_surrogate (r : Z) : bool := (0xD800 <=? r) && (r <? 0xE000).

(** [utf16.DecodeRune]: a high and a low surrogate make one rune;
    anything else is [U+FFFD]. *)
Definition utf16_decode (r1 r2 : Z) : Z :=
  if (0xD800 <=? r1) && (r1 <? 0xDC00) && (0xDC00 <=? r2) && (r2 <? 0xE000) then
    Z.lor (Z.shiftl (r1 - 0xD800) 10) (r2 - 0xDC00) + 0x10000
  else rune_error.

(** [decode_rune] reports an invalid byte. *)
Definition invalid_step (d : Z * nat) : bool := (d.1 =? rune_error) && (d.2 =? 1)%nat.

(** [utf8.ValidString]: decoding rune by rune never meets an invalid
    byte.  Each step consumes at least one byte, so the length of the
    string is enough fuel. *)
Fixpoint utf8_valid_go (fuel : nat) (s : string) : bool :=
  match fuel with
  | O => true
  | S f =>
      match s with
      | EmptyString => true
      | String _ _ =>
          let d := decode_rune s in
          negb (invalid_step d) && utf8_valid_go f (sdrop d.2 s)
      end
  end.

Definition utf8_valid (s : string) : bool := utf8_valid_go (String.length s) s.

(** The shapes of the sequences [decode_rune] accepts: one ASCII byte, or a
    leading byte with its continuation bytes in the accepted ranges. *)
(** The accepted second bytes of a three-byte sequence. *)
Definition accept3 (b0 b1 : Z) : Prop :=
  if b0 =? 0xE0 then 0xA0 <= b1 <= 0xBF
  else if b0 =? 0xED then 0x80 <= b1 <= 0x9F
  else 0x80 <= b1 <= 0xBF.

Definition accept4 (b0 b1 : Z) : Prop :=
  if b0 =? 0xF0 then 0x90 <= b1 <= 0xBF
  else if b0 =? 0xF4 then 0x80 <= b1 <= 0x8F
  else 0x80 <= b1 <= 0xBF.

Definition shape (s : string) (n : nat) : Prop :=
  match s with
  | String c0 t =>
      (n = 1%nat /\ ord c0 < 128) \/
      match t with
      | String c1 t1 =>
          (n = 2%nat /\ 0xC2 <= ord c0 <= 0xDF /\ 0x80 <= ord c1 <= 0xBF) \/
          match t1 with
          | String c2 t2 =>
              (n = 3%nat /\ 0xE0 <= ord c0 <= 0xEF /\ accept3 (ord c0) (ord c1) /\
               0x80 <= ord c2 <= 0xBF) \/
              match t2 with
              | String c3 _ =>
                  n = 4%nat /\ 0xF0 <= ord c0 <= 0xF4 /\ accept4 (ord c0) (ord c1) /\
                  0x80 <= ord c2 <= 0xBF /\ 0x80 <= ord c3 <= 0xBF
              | EmptyString => False
              end
          | EmptyString => False
          end
      | EmptyString => False
      end
  | EmptyString => False
  end.

(** The rune [decode_rune] reads back from [encode_rune r]. *)
Definition rune_value (r : Z) : Z :=
  if (r <=? max_rune) && negb ((surrogate_min <=? r) && (r <=? surrogate_max)) then r
  else rune_error.

(** ** Bits of the encoding as arithmetic *)

Ltac utf8_consts :=
  unfold rune_error, rune_self, max_rune, surrogate_min, surrogate_max, maskx, mask2,
    mask3, mask4, t2, t3, t4, tx, locb, hicb in *.

Lemma mod_mul_0 x m : m <> 0 -> (x * m) mod m = 0.
Proof. apply Z.mod_mul. Qed.

Lemma lor2 a b : 0 <= b < 64 -> Z.lor (a * 64) b = a * 64 + b.
Proof. intros Hb. apply (lor_disjoint _ _ 6); pow_consts; [lia|apply mod_mul_0; lia|lia]. Qed.

Lemma lor3 a b c : 0 <= b < 64 -> 0 <= c < 64 ->
  Z.lor (Z.lor (a * 4096) (b * 64)) c = a * 4096 + b * 64 + c.
Proof.
  intros Hb Hc. rewrite (lor_disjoint (a * 4096) (b * 64) 12); pow_consts;
    [|lia|apply mod_mul_0; lia|lia].
  apply (lor_disjoint _ _ 6); pow_consts; [lia| |lia].
  replace (a * 4096 + b * 64) with ((a * 64 + b) * 64) by lia. apply mod_mul_0; lia.
Qed.

Lemma lor4 a b c d : 0 <= b < 64 -> 0 <= c < 64 -> 0 <= d < 64 ->
  Z.lor (Z.lor (Z.lor (a * 262144) (b * 4096)) (c * 64)) d =
  a * 262144 + b * 4096 + c * 64 + d.
Proof.
  intros Hb Hc Hd. rewrite (lor_disjoint (a * 262144) (b * 4096) 18); pow_consts;
    [|lia|apply mod_mul_0; lia|lia].
  rewrite (lor_disjoint (a * 262144 + b * 4096) (c * 64) 12); pow_consts; [|lia| |lia].
  2:{ replace (a * 262144 + b * 4096) with ((a * 64 + b) * 4096) by lia. apply mod_mul_0; lia. }
  apply (lor_disjoint _ _ 6); pow_consts; [lia| |lia].
  replace (a * 262144 + b * 4096 + c * 64) with ((a * 4096 + b * 64 + c) * 64) by lia.
  apply mod_mul_0; lia.
Qed.

Ltac bits_to_arith :=
  repeat first
    [ rewrite (land_low _ 6 63) by done
    | rewrite (land_low _ 5 31) by done
    | rewrite (land_low _ 4 15) by done
    | rewrite (land_low _ 3 7) by done
    | rewrite (land_low _ 8 255) by done
    | rewrite shiftl_mul by lia
    | rewrite shiftr_div by lia ]; pow_consts.

Lemma mod_range x m : 0 < m -> 0 <= x mod m < m.
Proof. intros. apply Z.mod_pos_bound. lia. Qed.

Lemma decode_rune_ascii c s : ord c < 0x80 -> decode_rune (String c s) = (ord c, 1%nat).
Proof. intros H. unfold decode_rune. utf8_consts. by case_if; [|lia]. Qed.

Lemma decode_rune_2 c0 c1 s :
  0xC2 <= ord c0 <= 0xDF -> 0x80 <= ord c1 <= 0xBF ->
  decode_rune (String c0 (String c1 s)) = ((ord c0 - 0xC0) * 64 + (ord c1 - 0x80), 2%nat).
Proof.
  intros H0 H1. unfold decode_rune, first_info, byte_at. cbn [String.length String.get].
  utf8_consts. repeat case_if; simpl in *; try lia. f_equal. bits_to_arith.
  rewrite lor2 by (apply mod_range; lia). lia_dm.
Qed.

Lemma decode_rune_3 c0 c1 c2 s :
  0xE0 <= ord c0 <= 0xEF -> accept3 (ord c0) (ord c1) -> 0x80 <= ord c2 <= 0xBF ->
  decode_rune (String c0 (String c1 (String c2 s))) =
  ((ord c0 - 0xE0) * 4096 + (ord c1 - 0x80) * 64 + (ord c2 - 0x80), 3%nat).
Proof.
  unfold accept3. intros H0 H1 H2. unfold decode_rune, first_info, byte_at.
  cbn [String.length String.get]. utf8_consts.
  repeat case_if; simpl in *; try lia. all: f_equal; bits_to_arith;
  rewrite lor3 by (apply mod_range; lia); lia_dm.
Qed.

Lemma decode_rune_4 c0 c1 c2 c3 s :
  0xF0 <= ord c0 <= 0xF4 -> accept4 (ord c0) (ord c1) -> 0x80 <= ord c2 <= 0xBF ->
  0x80 <= ord c3 <= 0xBF ->
  decode_rune (String c0 (String c1 (String c2 (String c3 s)))) =
  ((ord c0 - 0xF0) * 262144 + (ord c1 - 0x80) * 4096 + (ord c2 - 0x80) * 64 + (ord c3 - 0x80),
   4%nat).
Proof.
  unfold accept4. intros H0 H1 H2 H3. unfold decode_rune, first_info, byte_at.
  cbn [String.length String.get]. utf8_consts.
  repeat case_if; simpl in *; try lia. all: f_equal; bits_to_arith;
  rewrite lor4 by (apply mod_range; lia); lia_dm.
Qed.

(** ** [EncodeRune] on each range *)

Lemma to_byte_small x : 0 <= x < 256 -> to_byte x = chr x.
Proof. intros H. unfold to_byte. rewrite (land_low _ 8 255) by done. pow_consts. by rewrite Z.mod_small. Qed.

Lemma tx_byte x : 0 <= x ->
  Z.lor tx (Z.land (Z.land x 0xFF) maskx) = 0x80 + x mod 64.
Proof.
  intros Hx. utf8_consts. bits_to_arith.
  rewrite (lor_disjoint _ _ 6); pow_consts; [|lia|done|apply mod_range; lia]. lia_dm.
Qed.

Lemma lead2 r : 0 <= r < 2048 -> Z.lor t2 (Z.land (Z.shiftr r 6) 0xFF) = 0xC0 + r / 64.
Proof.
  intros Hr. utf8_consts. bits_to_arith.
  rewrite (lor_disjoint _ _ 6); pow_consts; [lia_dm|lia|done|lia_dm].
Qed.

Lemma lead3 r : 0 <= r < 65536 -> Z.lor t3 (Z.land (Z.shiftr r 12) 0xFF) = 0xE0 + r / 4096.
Proof.
  intros Hr. utf8_consts. bits_to_arith.
  rewrite (lor_disjoint _ _ 4); pow_consts; [lia_dm|lia|done|lia_dm].
Qed.

Lemma lead4 r : 0 <= r < 2097152 -> Z.lor t4 (Z.land (Z.shiftr r 18) 0xFF) = 0xF0 + r / 262144.
Proof.
  intros Hr. utf8_consts. bits_to_arith.
  rewrite (lor_disjoint _ _ 3); pow_consts; [lia_dm|lia|done|lia_dm].
Qed.

Lemma encode_rune_1 r : 0 <= r < 128 -> encode_rune r = String (chr r) "".
Proof.
  intros Hr. unfold encode_rune. rewrite Z.mod_small by lia. case_if; [|lia].
  rewrite to_byte_small by lia. done.
Qed.

Lemma encode_rune_2 r : 128 <= r < 2048 ->
  encode_rune r = String (chr (0xC0 + r / 64)) (String (chr (0x80 + r mod 64)) "").
Proof.
  intros Hr. unfold encode_rune. rewrite Z.mod_small by lia. repeat case_if; try lia.
  rewrite lead2, tx_byte by lia. rewrite !to_byte_small by lia_dm. done.
Qed.

Lemma encode3_bytes r : 0 <= r < 65536 ->
  encode3 r = String (chr (0xE0 + r / 4096))
                (String (chr (0x80 + (r / 64) mod 64)) (String (chr (0x80 + r mod 64)) "")).
Proof.
  intros Hr. unfold encode3. rewrite lead3 by lia.
  rewrite !shiftr_div by lia. pow_consts. rewrite !tx_byte by lia_dm.
  rewrite !to_byte_small by lia_dm. done.
Qed.

Lemma encode_rune_3 r : 2048 <= r < 65536 -> ~ (0xD800 <= r <= 0xDFFF) ->
  encode_rune r = encode3 r.
Proof.
  intros Hr Hs. unfold encode_rune. rewrite Z.mod_small by lia. utf8_consts.
  repeat case_if; try lia; done.
Qed.

Lemma encode_rune_4 r : 65536 <= r <= 0x10FFFF ->
  encode_rune r = String (chr (0xF0 + r / 262144))
    (String (chr (0x80 + (r / 4096) mod 64))
      (String (chr (0x80 + (r / 64) mod 64)) (String (chr (0x80 + r mod 64)) ""))).
Proof.
  intros Hr. unfold encode_rune. rewrite Z.mod_small by lia. utf8_consts.
  repeat case_if; try lia.
  rewrite lead4 by lia. rewrite !shiftr_div by lia. pow_consts.
  rewrite !tx_byte by lia_dm. rewrite !to_byte_small by lia_dm. done.
Qed.

Lemma encode_rune_invalid r : 0 <= r < 2 ^ 31 -> (max_rune < r \/ 0xD800 <= r <= 0xDFFF) ->
  encode_rune r = encode3 rune_error.
Proof.
  intros Hr Hi. unfold encode_rune. rewrite Z.mod_small by lia. utf8_consts.
  repeat case_if; try lia; done.
Qed.

(** ** What [DecodeRune] accepts *)

Ltac solve_accept := unfold accept3, accept4; repeat case_if; lia.

Lemma decode_rune_inv s :
  s <> "" -> invalid_step (decode_rune s) = false -> shape s (decode_rune s).2.
Proof.
  intros Hne. destruct s as [|c0 s1]; [done|]. unfold decode_rune, first_info, byte_at.
  pose proof (ord_range c0).
  destruct s1 as [|c1 [|c2 [|c3 t]]]; cbn [String.length String.get]; utf8_consts;
    repeat case_if; cbn; intros Hi; try discriminate Hi; try lia;
    repeat (first [left; split; [reflexivity|]; solve [solve_accept] | right]); try done.
  all: split; [reflexivity|]; solve_accept.
Qed.

Ltac byte_is :=
  match goal with
  | |- ?c = chr ?e => apply ord_inj; rewrite ord_chr; lia_dm
  end.

Ltac accept_facts :=
  repeat match goal with
  | H : accept3 ?a _ |- _ =>
      unfold accept3 in H; destruct (Z.eqb_spec a 0xE0); [|destruct (Z.eqb_spec a 0xED)]
  | H : accept4 ?a _ |- _ =>
      unfold accept4 in H; destruct (Z.eqb_spec a 0xF0); [|destruct (Z.eqb_spec a 0xF4)]
  end.

(** The four shapes, with the decoded rune and its range. *)
Lemma decode_rune_cases s :
  s <> "" -> invalid_step (decode_rune s) = false ->
  (exists c0 t, s = String c0 t /\ ord c0 < 128 /\ decode_rune s = (ord c0, 1%nat)) \/
  (exists c0 c1 t, s = String c0 (String c1 t) /\
     0xC2 <= ord c0 <= 0xDF /\ 0x80 <= ord c1 <= 0xBF /\
     decode_rune s = ((ord c0 - 0xC0) * 64 + (ord c1 - 0x80), 2%nat)) \/
  (exists c0 c1 c2 t, s = String c0 (String c1 (String c2 t)) /\
     0xE0 <= ord c0 <= 0xEF /\ accept3 (ord c0) (ord c1) /\ 0x80 <= ord c2 <= 0xBF /\
     decode_rune s = ((ord c0 - 0xE0) * 4096 + (ord c1 - 0x80) * 64 + (ord c2 - 0x80), 3%nat)) \/
  (exists c0 c1 c2 c3 t, s = String c0 (String c1 (String c2 (String c3 t))) /\
     0xF0 <= ord c0 <= 0xF4 /\ accept4 (ord c0) (ord c1) /\ 0x80 <= ord c2 <= 0xBF /\
     0x80 <= ord c3 <= 0xBF /\
     decode_rune s = ((ord c0 - 0xF0) * 262144 + (ord c1 - 0x80) * 4096 +
                      (ord c2 - 0x80) * 64 + (ord c3 - 0x80), 4%nat)).
Proof.
  intros Hne Hi. pose proof (decode_rune_inv s Hne Hi) as Hs.
  destruct s as [|c0 [|c1 [|c2 [|c3 t]]]]; [done| | | |]; simpl in Hs.
  - destruct Hs as [[_ H]|[]]. left. do 2 eexists. split; [done|]. split; [done|].
    by apply decode_rune_ascii.
  - destruct Hs as [[_ H]|[[_ H]|[]]].
    + left. do 2 eexists. split; [done|]. split; [done|]. by apply decode_rune_ascii.
    + right; left. do 3 eexists. split; [done|]. destruct_and!. do 2 (split; [done|]).
      by apply decode_rune_2.
  - destruct Hs as [[_ H]|[[_ H]|[[_ H]|[]]]].
    + left. do 2 eexists. split; [done|]. split; [done|]. by apply decode_rune_ascii.
    + right; left. do 3 eexists. split; [done|]. destruct_and!. do 2 (split; [done|]).
      by apply decode_rune_2.
    + right; right; left. do 4 eexists. split; [done|]. destruct_and!.
      do 3 (split; [done|]). by apply decode_rune_3.
  - destruct Hs as [[_ H]|[[_ H]|[[_ H]|[_ H]]]].
    + left. do 2 eexists. split; [done|]. split; [done|]. by apply decode_rune_ascii.
    + right; left. do 3 eexists. split; [done|]. destruct_and!. do 2 (split; [done|]).
      by apply decode_rune_2.
    + right; right; left. do 4 eexists. split; [done|]. destruct_and!.
      do 3 (split; [done|]). by apply decode_rune_3.
    + right; right; right. do 5 eexists. split; [done|]. destruct_and!.
      do 4 (split; [done|]). by apply decode_rune_4.
Qed.

(** An accepted sequence is the encoding of the rune it decodes to. *)
Lemma decode_encode_bytes s :
  s <> "" -> invalid_step (decode_rune s) = false ->
  stake (decode_rune s).2 s = encode_rune (decode_rune s).1.
Proof.
  intros Hne Hi.
  destruct (decode_rune_cases s Hne Hi) as
    [(c0 & t & -> & H0 & ->) | [(c0 & c1 & t & -> & H0 & H1 & ->) |
     [(c0 & c1 & c2 & t & -> & H0 & H1 & H2 & ->) |
      (c0 & c1 & c2 & c3 & t & -> & H0 & H1 & H2 & H3 & ->)]]]; simpl;
    pose proof (ord_range c0); accept_facts.
  - rewrite encode_rune_1 by lia. by rewrite chr_ord.
  - rewrite encode_rune_2 by lia. f_equal; [byte_is|f_equal; byte_is].
  - rewrite encode_rune_3, encode3_bytes by lia. f_equal; [byte_is|f_equal; [byte_is|f_equal; byte_is]].
  - rewrite encode_rune_3, encode3_bytes by lia. f_equal; [byte_is|f_equal; [byte_is|f_equal; byte_is]].
  - rewrite encode_rune_3, encode3_bytes by lia. f_equal; [byte_is|f_equal; [byte_is|f_equal; byte_is]].
  - rewrite encode_rune_4 by lia. f_equal; [byte_is|f_equal; [byte_is|f_equal; [byte_is|f_equal; byte_is]]].
  - rewrite encode_rune_4 by lia. f_equal; [byte_is|f_equal; [byte_is|f_equal; [byte_is|f_equal; byte_is]]].
  - rewrite encode_rune_4 by lia. f_equal; [byte_is|f_equal; [byte_is|f_equal; [byte_is|f_equal; byte_is]]].
Qed.

(** Decoding reads only the bytes of the sequence it accepts. *)
Lemma decode_rune_prefix s t :
  s <> "" -> invalid_step (decode_rune s) = false ->
  decode_rune (stake (decode_rune s).2 s +:+ t) = decode_rune s.
Proof.
  intros Hne Hi.
  destruct (decode_rune_cases s Hne Hi) as
    [(c0 & t' & -> & H0 & ->) | [(c0 & c1 & t' & -> & H0 & H1 & ->) |
     [(c0 & c1 & c2 & t' & -> & H0 & H1 & H2 & ->) |
      (c0 & c1 & c2 & c3 & t' & -> & H0 & H1 & H2 & H3 & ->)]]]; simpl;
    rewrite ?sapp_cons.
  - by apply decode_rune_ascii.
  - by apply decode_rune_2.
  - by apply decode_rune_3.
  - by apply decode_rune_4.
Qed.


Lemma decode_encoded_rune r t :
  0 <= r < 2 ^ 31 ->
  decode_rune (encode_rune r +:+ t) = (rune_value r, String.length (encode_rune r)).
Proof.
  intros Hr. unfold rune_value. utf8_consts.
  destruct (Z.ltb_spec r 128).
  { rewrite encode_rune_1 by lia. rewrite sapp_cons. cbn [String.length].
    rewrite decode_rune_ascii; rewrite ord_chr; try lia.
    repeat case_if; try lia; done. }
  destruct (Z.ltb_spec r 2048).
  { rewrite encode_rune_2 by lia. rewrite !sapp_cons. cbn [String.length].
    rewrite decode_rune_2; rewrite ?ord_chr; try lia_dm.
    repeat case_if; try lia; f_equal; lia_dm. }
  destruct (decide (r <= 0x10FFFF /\ ~ (0xD800 <= r <= 0xDFFF))) as [[Hm Hs]|Hn].
  - destruct (Z.ltb_spec r 65536).
    + rewrite encode_rune_3, encode3_bytes by lia. rewrite !sapp_cons. cbn [String.length].
      rewrite decode_rune_3; rewrite ?ord_chr; try lia_dm.
      * repeat case_if; try lia; f_equal; lia_dm.
      * unfold accept3. repeat case_if; lia_dm.
    + rewrite encode_rune_4 by lia. rewrite !sapp_cons. cbn [String.length].
      rewrite decode_rune_4; rewrite ?ord_chr; try lia_dm.
      * repeat case_if; try lia; f_equal; lia_dm.
      * unfold accept4. repeat case_if; lia_dm.
  - rewrite encode_rune_invalid by (utf8_consts; lia).
    unfold rune_error. rewrite encode3_bytes by lia. rewrite !sapp_cons. cbn [String.length].
    rewrite decode_rune_3; rewrite ?ord_chr; try lia_dm.
    + repeat case_if; try lia; try done; f_equal; lia_dm.
    + unfold accept3. repeat case_if; lia_dm.
Qed.

Lemma decode_rune_size s :
  s <> "" -> (1 <= (decode_rune s).2 <= String.length s)%nat.
Proof.
  intros Hne. destruct (bool_decide (invalid_step (decode_rune s) = true)) eqn:E.
  - apply bool_decide_eq_true in E. unfold invalid_step in E.
    apply andb_true_iff in E as [_ E]. apply Nat.eqb_eq in E. rewrite E.
    destruct s; [done|]. simpl. lia.
  - apply bool_decide_eq_false in E. apply not_true_is_false in E.
    destruct (decode_rune_cases s Hne E) as
      [(c0 & t & -> & H0 & ->) | [(c0 & c1 & t & -> & H0 & H1 & ->) |
       [(c0 & c1 & c2 & t & -> & H0 & H1 & H2 & ->) |
        (c0 & c1 & c2 & c3 & t & -> & H0 & H1 & H2 & H3 & ->)]]]; simpl; lia.
Qed.

Lemma utf8_valid_go_enough f s :
  (String.length s <= f)%nat -> utf8_valid_go f s = utf8_valid s.
Proof.
  unfold utf8_valid. remember (String.length s) as n eqn:En.
  revert f s En. induction n as [n IH] using lt_wf_ind. intros f s En Hf.
  destruct s as [|c s']; [by destruct f, n|].
  destruct f as [|f]; [simpl in *; lia|].
  destruct n as [|n]; [done|]. cbn [utf8_valid_go]. f_equal.
  pose proof (decode_rune_size (String c s') ltac:(done)) as Hz. cbn [String.length] in Hz.
  rewrite (IH (String.length (sdrop (decode_rune (String c s')).2 (String c s')))).
  - symmetry. apply IH; [|done|]; rewrite slength_sdrop; cbn [String.length] in *; lia.
  - rewrite slength_sdrop; cbn [String.length] in *; lia.
  - done.
  - rewrite slength_sdrop; cbn [String.length] in *; lia.
Qed.

Lemma utf8_valid_cons c s :
  utf8_valid (String c s) =
    negb (invalid_step (decode_rune (String c s))) &&
    utf8_valid (sdrop (decode_rune (String c s)).2 (String c s)).
Proof.
  unfold utf8_valid at 1. simpl. f_equal. apply utf8_valid_go_enough.
  pose proof (decode_rune_size (String c s) ltac:(done)) as Hz.
  rewrite slength_sdrop. simpl in *. lia.
Qed.

Lemma utf8_valid_nil : utf8_valid "" = true.
Proof. done. Qed.

Lemma rune_value_not_error r :
  0 <= r < 2 ^ 31 ->
  invalid_step (rune_value r, String.length (encode_rune r)) = false.
Proof.
  intros Hr. unfold invalid_step. simpl.
  destruct (Z.eqb_spec (rune_value r) rune_error) as [E|]; [|done]. simpl.
  destruct (Z.ltb_spec r 128).
  - exfalso. revert E. unfold rune_value, rune_error. utf8_consts. repeat case_if; lia.
  - apply Nat.eqb_neq. destruct (Z.ltb_spec r 2048).
    + rewrite encode_rune_2 by lia. done.
    + destruct (decide (r <= 0x10FFFF /\ ~ (0xD800 <= r <= 0xDFFF))) as [[Hm Hs]|Hn].
      * destruct (Z.ltb_spec r 65536).
        -- rewrite encode_rune_3, encode3_bytes by lia. done.
        -- rewrite encode_rune_4 by lia. done.
      * rewrite encode_rune_invalid by (utf8_consts; lia). unfold rune_error.
        rewrite encode3_bytes by lia. done.
Qed.

Lemma utf8_valid_encode r t :
  0 <= r < 2 ^ 31 -> utf8_valid (encode_rune r +:+ t) = utf8_valid t.
Proof.
  intros Hr. destruct (encode_rune r) as [|c e] eqn:Ee.
  { destruct (Z.ltb_spec r 128).
    - rewrite encode_rune_1 in Ee by lia. done.
    - destruct (Z.ltb_spec r 2048); [rewrite encode_rune_2 in Ee by lia; done|].
      destruct (decide (r <= 0x10FFFF /\ ~ (0xD800 <= r <= 0xDFFF))) as [[Hm Hs]|Hn].
      + destruct (Z.ltb_spec r 65536).
        * rewrite encode_rune_3, encode3_bytes in Ee by lia. done.
        * rewrite encode_rune_4 in Ee by lia. done.
      + rewrite encode_rune_invalid in Ee by (utf8_consts; lia). unfold rune_error in Ee.
        rewrite encode3_bytes in Ee by lia. done. }
  rewrite <- Ee. rewrite Ee at 1. rewrite sapp_cons, utf8_valid_cons, <- sapp_cons, <- Ee.
  rewrite decode_encoded_rune by done. rewrite rune_value_not_error by done. simpl.
  by rewrite sdrop_app.
Qed.

Lemma first_info_size b0 sz lo hi : first_info b0 = Some (sz, lo, hi) -> (2 <= sz <= 4)%nat.
Proof. unfold first_info. repeat case_if; intros [= <- <- <-]; lia. Qed.

(** [DecodeRuneInString] reads at most [UTFMax] bytes. *)
Lemma decode_rune_stake4 s : decode_rune (stake 4 s) = decode_rune s.
Proof.
  destruct s as [|c0 [|c1 [|c2 [|c3 t]]]]; try done.
  unfold decode_rune. cbn [stake String.length byte_at String.get].
  destruct (ord c0 <? rune_self); [done|].
  destruct (first_info (ord c0)) as [[[sz lo] hi]|] eqn:E; [|done].
  apply first_info_size in E.
  destruct (Nat.ltb_spec 4 sz), (Nat.ltb_spec (S (S (S (S (String.length t))))) sz); try lia.
  done.
Qed.

(** [DecodeRuneInString] returns a rune of the Unicode range. *)
Lemma decode_rune_range s : 0 <= (decode_rune s).1 <= max_rune.
Proof.
  destruct (decide (s = "")) as [->|Hne]; [cbn; unfold rune_error, max_rune; lia|].
  destruct (invalid_step (decode_rune s)) eqn:Hi.
  - unfold invalid_step in Hi. apply andb_true_iff in Hi as [Hr _]. apply Z.eqb_eq in Hr.
    rewrite Hr. unfold rune_error, max_rune. lia.
  - unfold max_rune.
    destruct (decode_rune_cases s Hne Hi) as
      [(c0 & t & -> & H0 & ->) | [(c0 & c1 & t & -> & H0 & H1 & ->) |
       [(c0 & c1 & c2 & t & -> & H0 & H1 & H2 & ->) |
        (c0 & c1 & c2 & c3 & t & -> & H0 & H1 & H2 & H3 & ->)]]]; simpl;
      pose proof (ord_range c0); accept_facts; lia.
Qed.

(** [utf16.DecodeRune] returns a rune of the Unicode range. *)
Lemma utf16_decode_range a b : 0 <= utf16_decode a b <= max_rune.
Proof.
  unfold utf16_decode, max_rune, rune_error.
  destruct ((0xD800 <=? a) && (a <? 0xDC00) && (0xDC00 <=? b) && (b <? 0xE000)) eqn:E; [|lia].
  apply andb_prop in E as [E H4]. apply andb_prop in E as [E H3]. apply andb_prop in E as [H1 H2].
  apply Z.leb_le in H1, H3. apply Z.ltb_lt in H2, H4.
  rewrite shiftl_mul by lia.
  rewrite (lor_disjoint _ _ 10); [pow_consts; lia|lia|apply mod_mul_0; lia|pow_consts; lia].
Qed.

