(* ===== verification/JsonString.v ===== *)
(** * JsonString: how encoding/json writes and reads a JSON string

    - [append_string]: [appendString] of encoding/json's encode.go with
      [escapeHTML] set, as [json.Marshal] calls it: the bytes of
      [htmlSafeSet] are copied, the quote, the backslash, [\b], [\f],
      [\n], [\r] and [\t] get their short escapes, the other ASCII bytes (controls and
      [<], [>], [&]) are written [\u00XX] with lower-case hex, an invalid
      UTF-8 byte becomes [\ufffd], U+2028 and U+2029 become [\u2028] and
      [\u2029], and every other valid rune is copied.
    - [unquote_bytes]: [unquoteBytes] of decode.go, with its fast path
      ([unquote_prefix]: the longest prefix that needs no work) and its
      slow loop ([unquote_step]: escapes, [getu4], surrogate pairs by
      [utf16.DecodeRune], invalid UTF-8 coerced to U+FFFD).

    Go's loops are index loops over a byte slice with a [start] mark for
    the bytes copied in one piece; here each is a [scan] of the prelude,
    whose step emits what the loop body appends at that index and how
    far it advances.  Copying [src[start:i]] in one piece or byte by byte
    gives the same bytes.

    The theorems: the fast path of [unquoteBytes] is an optimisation of
    its slow loop ([unquote_bytes_slow]); unquoting the encoding of a
    valid UTF-8 string gives the string back ([unquote_escaped]);
    the encoding never holds [<], [>] or [&] ([append_string_no_markup]). *)

From S2P Require Import Prelude Utf8.

(** The ASCII bytes as numbers. *)
Definition b_quote : Z := 34.
Definition b_backslash : Z := 92.
Definition b_slash : Z := 47.

(** [hex[b]] of encode.go: ["0123456789abcdef"]. *)
Definition lower_hex (d : Z) : ascii :=
  if d <? 10 then chr (48 + d) else chr (87 + d).

(** [htmlSafeSet[b]] for an ASCII byte: printable, and neither the
    quote, the backslash, [<], [>] nor [&]. *)
Definition html_safe (b : Z) : bool :=
  (0x20 <=? b) && (b <? 0x80) &&
  negb ((b =? b_quote) || (b =? b_backslash) || (b =? 60) || (b =? 62) || (b =? 38)).

(** The bytes an HTML parser treats as markup: [<], [>], [&]. *)
Definition html_special (c : ascii) : bool := (ord c =? 60) || (ord c =? 62) || (ord c =? 38).

Definition backslash : ascii := chr b_backslash.

(** The escape [appendString] writes for an ASCII byte outside
    [htmlSafeSet]. *)
Definition escape_ascii (b : Z) : string :=
  if (b =? b_backslash) || (b =? b_quote) then String backslash (String (chr b) "")
  else if b =? 8 then String backslash "b"
  else if b =? 12 then String backslash "f"
  else if b =? 10 then String backslash "n"
  else if b =? 13 then String backslash "r"
  else if b =? 9 then String backslash "t"
  else String backslash ("u00" +:+ String (lower_hex (Z.shiftr b 4)) (String (lower_hex (Z.land b 0xF)) "")).

(** [utf8.UTFMax]. *)
Definition utf_max : nat := 4.

(** The body of the loop of [appendString] at index [i], [s] being
    [src[i:]]. *)
Definition append_string_step (s : string) : option (string * nat) :=
  match s with
  | EmptyString => None
  | String c _ =>
      let b := ord c in
      if b <? rune_self then
        if html_safe b then Some (String c "", 1%nat) else Some (escape_ascii b, 1%nat)
      else
        let '(r, size) := decode_rune (stake utf_max s) in
        if (r =? rune_error) && (size =? 1)%nat then
          Some (String backslash "ufffd", 1%nat)
        else if (r =? 0x2028) || (r =? 0x2029) then
          Some (String backslash ("u202" +:+ String (lower_hex (Z.land r 0xF)) ""), size)
        else Some (stake size s, size)
  end.

(** The escaped bytes of [src], between the quotes. *)
Definition escape_string (src : string) : string :=
  default "" (scan append_string_step src).

(** [appendString(nil, src, true)]. *)
Definition append_string (src : string) : string :=
  dq +:+ escape_string src +:+ dq.

(** ** Decoding *)

(** A hexadecimal digit of [getu4]; [-1] for another byte. *)
Definition hex_val (c : ascii) : Z :=
  let b := ord c in
  if (48 <=? b) && (b <=? 57) then b - 48
  else if (97 <=? b) && (b <=? 102) then b - 97 + 10
  else if (65 <=? b) && (b <=? 70) then b - 65 + 10
  else -1.

(** [getu4(s)]: the value of [\uXXXX] at the start of [s], or [-1]. *)
Definition getu4 (s : string) : Z :=
  match s with
  | String b (String u (String c1 (String c2 (String c3 (String c4 _))))) =>
      if (ord b =? b_backslash) && (ord u =? 117) then
        let h1 := hex_val c1 in let h2 := hex_val c2 in
        let h3 := hex_val c3 in let h4 := hex_val c4 in
        if (h1 <? 0) || (h2 <? 0) || (h3 <? 0) || (h4 <? 0) then -1
        else ((h1 * 16 + h2) * 16 + h3) * 16 + h4
      else -1
  | _ => -1
  end.

(** The first loop of [unquoteBytes]: how many bytes from the start need
    no unquoting (no quote, no backslash, no control byte, valid
    UTF-8). *)
Fixpoint unquote_prefix (fuel : nat) (s : string) : nat :=
  match fuel, s with
  | O, _ => 0
  | _, EmptyString => 0
  | S f, String c t =>
      let b := ord c in
      if (b =? b_backslash) || (b =? b_quote) || (b <? 0x20) then 0
      else if b <? rune_self then S (unquote_prefix f t)
      else
        let '(rr, size) := decode_rune s in
        if (rr =? rune_error) && (size =? 1)%nat then 0
        else (size + unquote_prefix f (sdrop size s))%nat
  end.

(** The body of the second loop of [unquoteBytes] at index [r], [s]
    being [s[r:]]. *)
Definition unquote_step (s : string) : option (string * nat) :=
  match s with
  | EmptyString => None
  | String c t =>
      let b := ord c in
      if b =? b_backslash then
        match t with
        | EmptyString => None
        | String e _ =>
            let x := ord e in
            if (x =? b_quote) || (x =? b_backslash) || (x =? b_slash) || (x =? 39) then
              Some (String e "", 2%nat)
            else if x =? 98 then Some (String (chr 8) "", 2%nat)
            else if x =? 102 then Some (String (chr 12) "", 2%nat)
            else if x =? 110 then Some (String (chr 10) "", 2%nat)
            else if x =? 114 then Some (String (chr 13) "", 2%nat)
            else if x =? 116 then Some (String (chr 9) "", 2%nat)
            else if x =? 117 then
              let rr := getu4 s in
              if rr <? 0 then None
              else if is_surrogate rr then
                let dec := utf16_decode rr (getu4 (sdrop 6 s)) in
                if negb (dec =? rune_error) then Some (encode_rune dec, 12%nat)
                else Some (encode_rune rune_error, 6%nat)
              else Some (encode_rune rr, 6%nat)
            else None
        end
      else if (b =? b_quote) || (b <? 0x20) then None
      else if b <? rune_self then Some (String c "", 1%nat)
      else let '(rr, size) := decode_rune s in Some (encode_rune rr, size)
  end.

(** The last byte of a string. *)
Definition last_char (s : string) : option ascii :=
  String.get (pred (String.length s)) s.

(** [unquoteBytes(s)]: [s] with its quotes. *)
Definition unquote_bytes (q : string) : option string :=
  match q with
  | String c0 _ =>
      if (String.length q <? 2)%nat || negb (ord c0 =? b_quote) ||
         negb (bool_decide (last_char q = Some dquote)) then None
      else
        let s := stake (String.length q - 2) (sdrop 1 q) in
        let r := unquote_prefix (String.length s) s in
        if (r =? String.length s)%nat then Some s
        else (fun t => stake r s +:+ t) <$> scan unquote_step (sdrop r s)
  | EmptyString => None
  end.

(** ** The encoder, step by step *)

Lemma decode_rune_size1 c t : (1 <= (decode_rune (String c t)).2)%nat.
Proof. pose proof (decode_rune_size (String c t) ltac:(done)). lia. Qed.

Lemma append_string_step_size c t out n :
  append_string_step (String c t) = Some (out, n) -> n = (decode_rune (String c t)).2.
Proof.
  unfold append_string_step. rewrite decode_rune_stake4.
  destruct (Z.ltb_spec (ord c) rune_self).
  - rewrite decode_rune_ascii by done. by repeat case_if; intros [= _ <-].
  - destruct (decode_rune (String c t)) as [r size] eqn:E. simpl.
    repeat case_if; intros [= _ <-]; done.
Qed.

Lemma append_string_step_progress c t out n :
  append_string_step (String c t) = Some (out, n) -> (1 <= n)%nat.
Proof. intros H. apply append_string_step_size in H as ->. apply decode_rune_size1. Qed.

Lemma append_string_step_some c t :
  exists out n, append_string_step (String c t) = Some (out, n).
Proof.
  unfold append_string_step. destruct (decode_rune (stake utf_max (String c t))).
  repeat case_if; eauto.
Qed.

Lemma escape_string_nil : escape_string "" = "".
Proof. done. Qed.

Lemma scan_append_string s : scan append_string_step s = Some (escape_string s).
Proof.
  unfold escape_string. remember (String.length s) as m eqn:Em.
  revert s Em. induction m as [m IH] using lt_wf_ind. intros [|c t] Em; [done|].
  rewrite scan_cons by apply append_string_step_progress.
  destruct (append_string_step_some c t) as (out & n & Hs). rewrite Hs.
  pose proof (append_string_step_progress c t out n Hs).
  rewrite (IH (String.length (sdrop n (String c t)))); [done| |done].
  rewrite slength_sdrop. cbn [String.length] in *. lia.
Qed.

Lemma escape_string_cons c t out n :
  append_string_step (String c t) = Some (out, n) ->
  escape_string (String c t) = out +:+ escape_string (sdrop n (String c t)).
Proof.
  intros Hs. pose proof (scan_append_string (String c t)) as E.
  rewrite scan_cons, Hs, scan_append_string in E by apply append_string_step_progress.
  simpl in E. by injection E as <-.
Qed.

Lemma unquote_ascii_step c t u out n :
  ord c < rune_self -> append_string_step (String c t) = Some (out, n) ->
  unquote_step (out +:+ u) = Some (String c "", String.length out) /\ n = 1%nat.
Proof.
  unfold append_string_step. intros Hc. destruct (Z.ltb_spec (ord c) rune_self); [|lia].
  intros Hs. assert (n = 1%nat) as -> by (destruct (html_safe (ord c)); congruence).
  split; [|done].
  assert (out = if html_safe (ord c) then String c "" else escape_ascii (ord c)) as ->
    by (destruct (html_safe (ord c)); congruence).
  clear Hs H. unfold rune_self in Hc.
  all_bytes c; vm_compute in Hc; first [discriminate | vm_compute; reflexivity].
Qed.

Lemma unquote_rune_step c t u out n :
  rune_self <= ord c -> invalid_step (decode_rune (String c t)) = false ->
  append_string_step (String c t) = Some (out, n) ->
  unquote_step (out +:+ u) = Some (stake n (String c t), String.length out).
Proof.
  intros Hc Hv. pose proof (decode_encode_bytes (String c t) ltac:(done) Hv) as Henc.
  pose proof (decode_rune_prefix (String c t) u ltac:(done) Hv) as Hpre.
  pose proof (decode_rune_size (String c t) ltac:(done)) as Hsz.
  unfold append_string_step. rewrite decode_rune_stake4.
  destruct (Z.ltb_spec (ord c) rune_self); [lia|].
  destruct (decode_rune (String c t)) as [r size] eqn:E. simpl in Henc, Hpre, Hsz, Hv.
  unfold invalid_step in Hv. simpl in Hv. rewrite Hv.
  destruct (Z.eqb_spec r 0x2028) as [->|]; [|destruct (Z.eqb_spec r 0x2029) as [->|]].
  - intros [= <- <-]. rewrite Henc. vm_compute. reflexivity.
  - intros [= <- <-]. rewrite Henc. vm_compute. reflexivity.
  - intros [= <- <-]. destruct size as [|k]; [lia|]. cbn [stake]. rewrite sapp_cons.
    unfold unquote_step. unfold rune_self in *.
    destruct (Z.eqb_spec (ord c) b_backslash); [unfold b_backslash in *; lia|].
    destruct (Z.eqb_spec (ord c) b_quote); [unfold b_quote in *; lia|].
    destruct (Z.ltb_spec (ord c) 0x20); [lia|]. destruct (Z.ltb_spec (ord c) 0x80); [lia|].
    cbn [orb]. rewrite <- sapp_cons.
    change (String c (stake k t)) with (stake (S k) (String c t)). rewrite Hpre, Henc.
    f_equal. f_equal. rewrite <- Henc, slength_stake. cbn [String.length] in *. lia.
Qed.

Lemma unquote_escape_step c t u out n :
  invalid_step (decode_rune (String c t)) = false ->
  append_string_step (String c t) = Some (out, n) ->
  unquote_step (out +:+ u) = Some (stake n (String c t), String.length out).
Proof.
  intros Hv Hs. destruct (Z.ltb_spec (ord c) rune_self).
  - destruct (unquote_ascii_step c t u out n) as [-> ->]; done.
  - apply unquote_rune_step; done.
Qed.

Lemma unquote_step_progress c t out n :
  unquote_step (String c t) = Some (out, n) -> (1 <= n)%nat.
Proof.
  unfold unquote_step. pose proof (decode_rune_size1 c t) as Hz.
  destruct (decode_rune (String c t)) as [rr sz] eqn:E. simpl in Hz.
  destruct t as [|e t']; repeat case_if; intros Hs; inversion Hs; subst; lia.
Qed.

Lemma unquote_escape_string s : utf8_valid s = true -> scan unquote_step (escape_string s) = Some s.
Proof.
  remember (String.length s) as m eqn:Em. revert s Em.
  induction m as [m IH] using lt_wf_ind. intros [|c t] Em Hv; [done|].
  destruct (append_string_step_some c t) as (out & n & Hs).
  rewrite utf8_valid_cons in Hv. apply andb_true_iff in Hv as [Hi Hv].
  apply negb_true_iff in Hi.
  pose proof (append_string_step_size _ _ _ _ Hs) as Hn. rewrite <- Hn in Hv.
  pose proof (append_string_step_progress _ _ _ _ Hs) as Hp.
  rewrite (escape_string_cons _ _ _ _ Hs).
  assert (out <> "") as Hne.
  { intros ->. pose proof (unquote_escape_step c t "" "" n Hi Hs). done. }
  rewrite (scan_app unquote_step unquote_step_progress out _ (stake n (String c t)));
    [|done|by apply unquote_escape_step].
  rewrite (IH (String.length (sdrop n (String c t)))); [|rewrite slength_sdrop; simpl in *; lia|done|done].
  simpl. by rewrite stake_sdrop.
Qed.

(** ** The fast path of [unquoteBytes] *)

Lemma last_char_snoc s c : last_char (s +:+ String c "") = Some c.
Proof.
  unfold last_char. rewrite slength_app. cbn [String.length].
  replace (pred (String.length s + 1)) with (String.length s) by lia. apply sget_snoc.
Qed.

Lemma unquote_step_plain c t :
  ord c <> b_backslash -> ord c <> b_quote -> 0x20 <= ord c < rune_self ->
  unquote_step (String c t) = Some (String c "", 1%nat).
Proof. intros. unfold unquote_step, rune_self in *. by repeat case_if; try lia. Qed.

Lemma unquote_step_high c t :
  rune_self <= ord c ->
  unquote_step (String c t) =
    Some (encode_rune (decode_rune (String c t)).1, (decode_rune (String c t)).2).
Proof.
  intros. unfold unquote_step, rune_self, b_backslash, b_quote in *.
  destruct (decode_rune (String c t)). by repeat case_if; try lia.
Qed.

Lemma unquote_prefix_spec f s :
  scan unquote_step s =
    (fun t => stake (unquote_prefix f s) s +:+ t) <$>
      scan unquote_step (sdrop (unquote_prefix f s) s).
Proof.
  revert s. induction f as [|f IH]; intros [|c t]; try by rewrite fmap_sapp_nil.
  cbn [unquote_prefix]. unfold rune_self.
  destruct (Z.eqb_spec (ord c) b_backslash); [by rewrite fmap_sapp_nil|].
  destruct (Z.eqb_spec (ord c) b_quote); [by rewrite fmap_sapp_nil|].
  destruct (Z.ltb_spec (ord c) 0x20); [by rewrite fmap_sapp_nil|]. cbn [orb].
  destruct (Z.ltb_spec (ord c) 0x80).
  - rewrite (scan_cons unquote_step unquote_step_progress).
    rewrite unquote_step_plain by (try assumption; unfold rune_self; lia).
    cbn [sdrop stake]. rewrite (IH t), fmap_sapp_fuse. done.
  - pose proof (decode_rune_size (String c t) ltac:(done)) as Hz.
    destruct (decode_rune (String c t)) as [rr sz] eqn:E.
    change ((rr =? rune_error) && (sz =? 1)%nat) with (invalid_step (rr, sz)).
    destruct (invalid_step (rr, sz)) eqn:Hb; [by rewrite fmap_sapp_nil|].
    rewrite <- E in Hb.
    pose proof (decode_encode_bytes (String c t) ltac:(done) Hb) as Henc.
    rewrite E in Henc. simpl in Henc, Hz.
    rewrite scan_cons, unquote_step_high, E by (try apply unquote_step_progress; unfold rune_self; lia).
    simpl. rewrite (IH (sdrop sz (String c t))), fmap_sapp_fuse, <- Henc, <- stake_add, <- sdrop_add.
    done.
Qed.

(** [unquoteBytes] on a quoted string. *)
Lemma unquote_bytes_quoted s :
  unquote_bytes (dq +:+ s +:+ dq) =
    let r := unquote_prefix (String.length s) s in
    if (r =? String.length s)%nat then Some s
    else (fun t => stake r s +:+ t) <$> scan unquote_step (sdrop r s).
Proof.
  unfold unquote_bytes, dq. rewrite sapp_cons, sapp_nil_l.
  assert (Hl : last_char (String dquote (s +:+ String dquote "")) = Some dquote)
    by (rewrite <- sapp_cons; apply last_char_snoc).
  rewrite Hl. cbn [String.length].
  rewrite slength_app. cbn [String.length sdrop].
  unfold dquote. rewrite ord_chr by lia. cbn -[String.length].
  replace (String.length s + 1 - 1)%nat with (String.length s) by lia.
  rewrite stake_app by done. rewrite bool_decide_true by done.
  destruct (Nat.leb_spec (String.length s + 1) 0); [lia|]. done.
Qed.

Lemma unquote_bytes_slow s : unquote_bytes (dq +:+ s +:+ dq) = scan unquote_step s.
Proof.
  rewrite unquote_bytes_quoted. cbn zeta.
  rewrite (unquote_prefix_spec (String.length s) s).
  destruct (Nat.eqb_spec (unquote_prefix (String.length s) s) (String.length s)) as [->|]; [|done].
  rewrite sdrop_all, stake_all by done. simpl. by rewrite sapp_nil_r.
Qed.

Lemma unquote_escaped s :
  utf8_valid s = true -> unquote_bytes (append_string s) = Some s.
Proof.
  intros Hv. unfold append_string. rewrite unquote_bytes_slow.
  by apply unquote_escape_string.
Qed.

(** ** What the encoding is made of *)

(** Every property of step outputs that survives concatenation holds of
    the encoding. *)
Lemma escape_string_ind (P : string -> Prop) :
  P "" ->
  (forall c t out n rest, append_string_step (String c t) = Some (out, n) -> P rest -> P (out +:+ rest)) ->
  forall s, P (escape_string s).
Proof.
  intros H0 Hs s. remember (String.length s) as m eqn:Em. revert s Em.
  induction m as [m IH] using lt_wf_ind. intros [|c t] Em; [done|].
  destruct (append_string_step_some c t) as (out & n & E).
  rewrite (escape_string_cons _ _ _ _ E). apply (Hs c t out n); [done|].
  pose proof (append_string_step_progress _ _ _ _ E).
  eapply IH; [|done]. rewrite slength_sdrop. simpl in *. lia.
Qed.

(** The bytes of an accepted multi-byte sequence are all non-ASCII. *)
Lemma decode_rune_high_bytes c t :
  rune_self <= ord c -> invalid_step (decode_rune (String c t)) = false ->
  sforall (fun d => rune_self <=? ord d) (stake (decode_rune (String c t)).2 (String c t)) = true.
Proof.
  intros Hc Hv. unfold rune_self in *.
  destruct (decode_rune_cases (String c t) ltac:(done) Hv) as
    [(c0 & t' & [= -> ->] & H0 & ->) | [(c0 & c1 & t' & [= -> ->] & H0 & H1 & ->) |
     [(c0 & c1 & c2 & t' & [= -> ->] & H0 & H1 & H2 & ->) |
      (c0 & c1 & c2 & c3 & t' & [= -> ->] & H0 & H1 & H2 & H3 & ->)]]]; simpl;
    accept_facts; repeat case_if; try lia; try done.
Qed.

Lemma append_string_step_html c t out n :
  append_string_step (String c t) = Some (out, n) ->
  sforall (fun d => negb (html_special d)) out = true.
Proof.
  destruct (Z.ltb_spec (ord c) rune_self) as [Hc|Hc].
  - unfold append_string_step. destruct (Z.ltb_spec (ord c) rune_self); [|lia].
    intros Hs. assert (out = if html_safe (ord c) then String c "" else escape_ascii (ord c)) as ->
      by (destruct (html_safe (ord c)); congruence).
    clear Hs H. unfold rune_self in Hc.
    all_bytes c; vm_compute in Hc; first [discriminate | vm_compute; reflexivity].
  - intros Hs. pose proof Hs as Hs'. unfold append_string_step in Hs.
    rewrite decode_rune_stake4 in Hs. destruct (Z.ltb_spec (ord c) rune_self); [lia|].
    destruct (bool_decide (invalid_step (decode_rune (String c t)) = true)) eqn:Hb.
    + apply bool_decide_eq_true in Hb. unfold invalid_step in Hb.
      destruct (decode_rune (String c t)) as [r size]. simpl in Hb. rewrite Hb in Hs.
      by injection Hs as <- <-.
    + apply bool_decide_eq_false, not_true_is_false in Hb.
      pose proof (decode_rune_high_bytes c t Hc Hb) as Hh.
      destruct (decode_rune (String c t)) as [r size]. unfold invalid_step in Hb.
      simpl in Hb, Hh. rewrite Hb in Hs.
      destruct (Z.eqb_spec r 0x2028) as [->|]; [by injection Hs as <- <-|].
      destruct (Z.eqb_spec r 0x2029) as [->|]; [by injection Hs as <- <-|].
      injection Hs as <- <-. eapply sforall_impl; [|exact Hh].
      intros d Hd%Z.leb_le. unfold html_special, rune_self in *. repeat case_if; simpl; try done; lia.
Qed.

Lemma append_string_no_markup s :
  sforall (fun d => negb (html_special d)) (append_string s) = true.
Proof.
  unfold append_string. rewrite !sforall_app. rewrite (escape_string_ind
    (fun x => sforall (fun d => negb (html_special d)) x = true)); [done|done|].
  intros c t out n rest Hs Hr. rewrite sforall_app, Hr, (append_string_step_html c t out n Hs).
  done.
Qed.

Lemma hex_val_range c : hex_val c = -1 \/ 0 <= hex_val c < 16.
Proof. unfold hex_val. repeat case_if; lia. Qed.

Lemma getu4_range s : getu4 s < 0 \/ 0 <= getu4 s < 65536.
Proof.
  unfold getu4. destruct s as [|b [|u [|c1 [|c2 [|c3 [|c4 t]]]]]]; try (left; reflexivity).
  destruct ((ord b =? b_backslash) && (ord u =? 117)); [|left; reflexivity].
  destruct (hex_val_range c1), (hex_val_range c2), (hex_val_range c3), (hex_val_range c4);
    repeat case_if; lia.
Qed.

(** Each step of the slow loop of [unquoteBytes] writes one rune. *)
Lemma unquote_step_rune c t out n :
  unquote_step (String c t) = Some (out, n) -> exists r, 0 <= r < 2 ^ 31 /\ out = encode_rune r.
Proof.
  assert (Hasc : forall d, ord d < 128 -> String d "" = encode_rune (ord d)).
  { intros d Hd. pose proof (ord_range d). rewrite encode_rune_1 by lia. by rewrite chr_ord. }
  assert (Hsmall : forall z, 0 <= z < 128 -> String (chr z) "" = encode_rune z).
  { intros z Hz. by rewrite encode_rune_1. }
  unfold unquote_step. pose proof (decode_rune_range (String c t)) as Hd.
  destruct (decode_rune (String c t)) as [rr sz]. simpl in Hd.
  destruct t as [|e t']; unfold rune_self, max_rune, b_quote, b_backslash, b_slash in *.
  - repeat case_if; try discriminate; intros [= <- _].
    + exists (ord c). split; [lia|]. apply Hasc. lia.
    + exists rr. split; [lia|done].
  - pose proof (getu4_range (String c (String e t'))) as Hg.
    pose proof (utf16_decode_range (getu4 (String c (String e t')))
                  (getu4 (sdrop 6 (String c (String e t'))))) as Hu.
    unfold max_rune in Hu.
    remember (getu4 (String c (String e t'))) as g eqn:Eg. clear Eg.
    remember (utf16_decode g (getu4 (sdrop 6 (String c (String e t'))))) as h eqn:Eh. clear Eh.
    repeat case_if; try discriminate; try lia; intros [= <- _].
    all: first [ exists (ord e); split; [lia | apply Hasc; lia]
               | exists (ord c); split; [lia | apply Hasc; lia]
               | eexists; split; [|apply Hsmall]; lia
               | eexists; split; [|reflexivity]; unfold rune_error; lia
               | exists rr; split; [lia|done] ].
Qed.

Lemma unquote_output_valid raw x :
  unquote_bytes (dq +:+ raw +:+ dq) = Some x -> utf8_valid x = true.
Proof.
  rewrite unquote_bytes_slow. revert x.
  apply (scan_ind unquote_step unquote_step_progress (fun x => utf8_valid x = true)); [done|].
  intros c t out n rest Hs Hr. destruct (unquote_step_rune c t out n Hs) as (r & Hr0 & ->).
  by rewrite utf8_valid_encode.
Qed.

