(* ===== verification/JsonDecode.v ===== *)
(** * JsonDecode: the JSON grammar of encoding/json's scanner

    encoding/json checks its input with a byte-at-a-time state machine
    (scanner.go) before it decodes anything.  The machine accepts one
    JSON value with white space around it, and refuses a value nested
    deeper than [maxNestingDepth] = 10000 containers.  This file holds
    the same language as a recursive-descent parser:

    - [skip_space]: [isSpace] bytes (space, tab, newline, return);
    - [scan_string]: the states after an opening quote ([stateInString],
      [stateInStringEsc], [stateInStringEscU...]): a closing quote ends
      the string, a control byte is an error, after a backslash one of
      the quote, backslash, slash or [b f n r t] or [u] and four hex
      digits; the bytes are returned as they are, for [unquoteBytes];
    - [scan_number]: [stateNeg], [state0], [state1], [stateDot],
      [stateDot0], [stateE], [stateESign], [stateE0];
    - [parse_value], [parse_members], [parse_elements]: the states of
      values, objects and arrays, with [depth] the length of the
      scanner's [parseState] stack.

    The parser answers [Parsed v rest] (the value and the bytes after
    it), [Invalid] (a syntax error), or [NoFuel].  The fuel is twice
    the length of the input plus one, which is always enough
    ([parse_json_total]).

    [unmarshal_value] is [json.Unmarshal]'s [checkValid] (one value, then
    only white space); [decode_value] is what [Decoder.Decode] reads (the
    first value; the bytes after it are left in the stream). *)

From S2P Require Import Prelude Utf8 JsonString.

(** A JSON value as the scanner delimits it: strings and object keys are
    kept as the raw bytes between their quotes, numbers as their
    literal. *)
#[warnings="-register-all"]
Inductive jvalue :=
| JNull
| JBool (b : bool)
| JNumber (lit : string)
| JString (raw : string)
| JArray (xs : list jvalue)
| JObject (ms : list (string * jvalue)).

Inductive parse_result :=
| Parsed (v : jvalue) (rest : string)
| Invalid
| NoFuel.

(** [maxNestingDepth]. *)
Definition max_nesting_depth : Z := 10000.

(** [isSpace]. *)
Definition is_space (c : ascii) : bool :=
  let b := ord c in (b =? 32) || (b =? 9) || (b =? 10) || (b =? 13).

Fixpoint skip_space (s : string) : string :=
  match s with
  | String c t => if is_space c then skip_space t else s
  | EmptyString => s
  end.

Definition is_hex (c : ascii) : bool := 0 <=? hex_val c.

Definition is_digit_byte (c : ascii) : bool := (48 <=? ord c) && (ord c <=? 57).

(** The short escapes the scanner accepts after a backslash. *)
Definition short_escape (e : ascii) : bool :=
  let x := ord e in
  (x =? b_quote) || (x =? b_backslash) || (x =? b_slash) || (x =? 98) || (x =? 102) ||
  (x =? 110) || (x =? 114) || (x =? 116).

(** The string states: the raw bytes up to the closing quote, and the
    bytes after it. *)
Fixpoint scan_string (s : string) : option (string * string) :=
  match s with
  | EmptyString => None
  | String c t =>
      let b := ord c in
      if b =? b_quote then Some ("", t)
      else if b =? b_backslash then
        match t with
        | String e t' =>
            if short_escape e then
              (fun p => (String c (String e p.1), p.2)) <$> scan_string t'
            else if ord e =? 117 then
              match t' with
              | String h1 (String h2 (String h3 (String h4 t''))) =>
                  if is_hex h1 && is_hex h2 && is_hex h3 && is_hex h4 then
                    (fun p => (String c (String e (String h1 (String h2 (String h3 (String h4 p.1))))), p.2))
                      <$> scan_string t''
                  else None
              | _ => None
              end
            else None
        | EmptyString => None
        end
      else if b <? 0x20 then None
      else (fun p => (String c p.1, p.2)) <$> scan_string t
  end.

(** A maximal run of decimal digits. *)
Fixpoint scan_digits (s : string) : string * string :=
  match s with
  | String c t =>
      if is_digit_byte c then let '(ds, r) := scan_digits t in (String c ds, r) else ("", s)
  | EmptyString => ("", "")
  end.

(** [-]? then [0] or a non-zero digit and digits. *)
Definition scan_int (s : string) : option (string * string) :=
  let '(sign, s1) :=
    match s with
    | String c t => if ord c =? 45 then ("-", t) else ("", s)
    | EmptyString => ("", s)
    end in
  match s1 with
  | String d t =>
      if ord d =? 48 then Some (sign +:+ "0", t)
      else if is_digit_byte d then
        let '(ds, r) := scan_digits t in Some (sign +:+ String d ds, r)
      else None
  | EmptyString => None
  end.

(** [.] and at least one digit, if a dot follows. *)
Definition scan_frac (s : string) : option (string * string) :=
  match s with
  | String c t =>
      if ord c =? 46 then
        let '(ds, r) := scan_digits t in
        if String.eqb ds "" then None else Some (String c ds, r)
      else Some ("", s)
  | EmptyString => Some ("", s)
  end.

(** [e] or [E], an optional sign, and at least one digit, if an [e]
    follows. *)
Definition scan_exp (s : string) : option (string * string) :=
  match s with
  | String c t =>
      if (ord c =? 101) || (ord c =? 69) then
        let '(sg, t1) :=
          match t with
          | String d t' => if (ord d =? 43) || (ord d =? 45) then (String d "", t') else ("", t)
          | EmptyString => ("", t)
          end in
        let '(ds, r) := scan_digits t1 in
        if String.eqb ds "" then None else Some (String c (sg +:+ ds), r)
      else Some ("", s)
  | EmptyString => Some ("", s)
  end.

Definition scan_number (s : string) : option (string * string) :=
  scan_int s ≫= fun '(i, s1) =>
  scan_frac s1 ≫= fun '(f, s2) =>
  scan_exp s2 ≫= fun '(e, s3) =>
  Some (i +:+ f +:+ e, s3).

(** A literal: the bytes after its first one. *)
Definition scan_literal (word : string) (s : string) : option string :=
  if String.prefix word s then Some (sdrop (String.length word) s) else None.

Definition b_lbrace : Z := 123.
Definition b_rbrace : Z := 125.
Definition b_lbracket : Z := 91.
Definition b_rbracket : Z := 93.
Definition b_comma : Z := 44.
Definition b_colon : Z := 58.

(** The byte after white space, if any. *)
Definition next_byte (s : string) : option (ascii * string) :=
  match skip_space s with
  | String c t => Some (c, t)
  | EmptyString => None
  end.

(** The value that starts with the byte [c] (white space skipped),
    followed by [t]: the scanner's [stateBeginValue]. *)
Fixpoint parse_value_at (fuel : nat) (depth : Z) (c : ascii) (t : string) {struct fuel}
  : parse_result :=
  match fuel with
  | O => NoFuel
  | S f =>
      let b := ord c in
      if b =? b_lbrace then
        if max_nesting_depth <=? depth then Invalid
        else
          match next_byte t with
          | Some (c', t') => if ord c' =? b_rbrace then Parsed (JObject []) t'
                             else parse_members f (depth + 1) [] t
          | None => Invalid
          end
      else if b =? b_lbracket then
        if max_nesting_depth <=? depth then Invalid
        else
          match next_byte t with
          | Some (c', t') => if ord c' =? b_rbracket then Parsed (JArray []) t'
                             else parse_elements f (depth + 1) [] t
          | None => Invalid
          end
      else if b =? b_quote then
        match scan_string t with
        | Some (raw, r) => Parsed (JString raw) r
        | None => Invalid
        end
      else if (b =? 45) || is_digit_byte c then
        match scan_number (String c t) with
        | Some (lit, r) => Parsed (JNumber lit) r
        | None => Invalid
        end
      else
        match scan_literal "true" (String c t) with
        | Some r => Parsed (JBool true) r
        | None =>
            match scan_literal "false" (String c t) with
            | Some r => Parsed (JBool false) r
            | None =>
                match scan_literal "null" (String c t) with
                | Some r => Parsed JNull r
                | None => Invalid
                end
            end
        end
  end
(** The members of an object after its opening brace (or after a
    comma): a key, a colon, a value, then a comma or the closing brace. *)
with parse_members (fuel : nat) (depth : Z) (acc : list (string * jvalue)) (s : string)
  {struct fuel} : parse_result :=
  match fuel with
  | O => NoFuel
  | S f =>
      match next_byte s with
      | Some (c, t) =>
          if ord c =? b_quote then
            match scan_string t with
            | Some (k, r) =>
                match next_byte r with
                | Some (c1, r1) =>
                    if ord c1 =? b_colon then
                      match next_byte r1 with
                      | Some (c2, r2) =>
                          match parse_value_at f depth c2 r2 with
                          | Parsed v r3 =>
                              match next_byte r3 with
                              | Some (c3, r4) =>
                                  if ord c3 =? b_comma then parse_members f depth (acc ++ [(k, v)]) r4
                                  else if ord c3 =? b_rbrace then Parsed (JObject (acc ++ [(k, v)])) r4
                                  else Invalid
                              | None => Invalid
                              end
                          | Invalid => Invalid
                          | NoFuel => NoFuel
                          end
                      | None => Invalid
                      end
                    else Invalid
                | None => Invalid
                end
            | None => Invalid
            end
          else Invalid
      | None => Invalid
      end
  end
(** The elements of an array after its opening bracket (or after a
    comma). *)
with parse_elements (fuel : nat) (depth : Z) (acc : list jvalue) (s : string)
  {struct fuel} : parse_result :=
  match fuel with
  | O => NoFuel
  | S f =>
      match next_byte s with
      | Some (c, t) =>
          match parse_value_at f depth c t with
          | Parsed v r =>
              match next_byte r with
              | Some (c1, r1) =>
                  if ord c1 =? b_comma then parse_elements f depth (acc ++ [v]) r1
                  else if ord c1 =? b_rbracket then Parsed (JArray (acc ++ [v])) r1
                  else Invalid
              | None => Invalid
              end
          | Invalid => Invalid
          | NoFuel => NoFuel
          end
      | None => Invalid
      end
  end.

(** A value after optional white space. *)
Definition parse_value (fuel : nat) (depth : Z) (s : string) : parse_result :=
  match next_byte s with
  | Some (c, t) => parse_value_at fuel depth c t
  | None => Invalid
  end.

(** The whole input as one value, with the fuel that is always enough:
    every call reads a byte, except that an array element is parsed from
    the byte its loop read, so twice the length, plus one. *)
Definition parse_json (s : string) : parse_result :=
  parse_value (S (2 * String.length s)) 0 s.

(** [checkValid] and the value [json.Unmarshal] decodes. *)
Definition unmarshal_value (s : string) : option jvalue :=
  match parse_json s with
  | Parsed v rest => if String.eqb (skip_space rest) "" then Some v else None
  | _ => None
  end.

(** The value [Decoder.Decode] reads from a stream holding [s]. *)
Definition decode_value (s : string) : option jvalue :=
  match parse_json s with
  | Parsed v _ => Some v
  | _ => None
  end.

(** ** Every scanning function consumes what it reads *)

Lemma skip_space_length s : (String.length (skip_space s) <= String.length s)%nat.
Proof. induction s as [|c s IH]; simpl; [lia|]. destruct (is_space c); simpl; lia. Qed.

Lemma next_byte_length s c t :
  next_byte s = Some (c, t) -> (String.length t < String.length s)%nat.
Proof.
  unfold next_byte. pose proof (skip_space_length s).
  destruct (skip_space s) as [|c' t']; [done|]. intros [= <- <-]. simpl in *. lia.
Qed.

Ltac scan_string_ih IH :=
  lazymatch goal with
  | |- (fun p => _) <$> scan_string ?x = Some _ -> _ =>
      destruct (scan_string x) as [[p1 p2]|] eqn:E; [|done]; intros [= _ <-];
      apply (IH (String.length x) ltac:(simpl; lia) x eq_refl) in E; simpl; lia
  end.

Lemma scan_string_length s raw r :
  scan_string s = Some (raw, r) -> (String.length r < String.length s)%nat.
Proof.
  remember (String.length s) as m eqn:Em. revert s Em raw r.
  induction m as [m IH] using lt_wf_ind. intros [|c t] Em raw r; [done|].
  cbn [scan_string]. subst m.
  destruct (Z.eqb_spec (ord c) b_quote); [intros [= _ <-]; simpl; lia|].
  destruct (Z.eqb_spec (ord c) b_backslash).
  - destruct t as [|x t']; [done|]. destruct (short_escape x); [scan_string_ih IH|].
    destruct (Z.eqb_spec (ord x) 117); [|done].
    destruct t' as [|h1 [|h2 [|h3 [|h4 t'']]]]; try done.
    destruct (is_hex h1 && is_hex h2 && is_hex h3 && is_hex h4); [scan_string_ih IH|done].
  - destruct (Z.ltb_spec (ord c) 0x20); [done|]. scan_string_ih IH.
Qed.

Lemma scan_digits_length s : (String.length (scan_digits s).2 <= String.length s)%nat.
Proof.
  induction s as [|c s IH]; simpl; [lia|].
  destruct (is_digit_byte c); [|simpl; lia]. destruct (scan_digits s). simpl in *. lia.
Qed.

Lemma scan_int_digits_length (sign : string) s1 i r :
  match s1 with
  | String d t =>
      if ord d =? 48 then Some (sign +:+ "0", t)
      else if is_digit_byte d then
        let '(ds, r) := scan_digits t in Some (sign +:+ String d ds, r)
      else None
  | EmptyString => None
  end = Some (i, r) -> (String.length r < String.length s1)%nat.
Proof.
  destruct s1 as [|d u]; [done|]. cbn [String.length].
  case_if; [intros [= _ <-]; lia|].
  destruct (is_digit_byte d); [|done]. pose proof (scan_digits_length u).
  destruct (scan_digits u). intros [= _ <-]. simpl in *. lia.
Qed.

Lemma scan_int_length s i r : scan_int s = Some (i, r) -> (String.length r < String.length s)%nat.
Proof.
  unfold scan_int. destruct s as [|c t]; [done|].
  case_if; intros H.
  - apply (scan_int_digits_length "-" t) in H. simpl. lia.
  - by apply (scan_int_digits_length "" (String c t)) in H.
Qed.

Lemma scan_frac_length s f r : scan_frac s = Some (f, r) -> (String.length r <= String.length s)%nat.
Proof.
  unfold scan_frac. destruct s as [|c t]; [intros H; inversion H; simpl; lia|].
  case_if; [|intros H; inversion H; simpl; lia]. pose proof (scan_digits_length t).
  destruct (scan_digits t). case_if; [done|]. intros [= _ <-]. simpl in *. lia.
Qed.

Lemma scan_exp_length s e r : scan_exp s = Some (e, r) -> (String.length r <= String.length s)%nat.
Proof.
  unfold scan_exp. destruct s as [|c t]; [intros H; inversion H; simpl; lia|].
  destruct ((ord c =? 101) || (ord c =? 69)); [|intros H; inversion H; simpl; lia].
  assert (exists sg t1, (match t with
     | String d t' => if (ord d =? 43) || (ord d =? 45) then (String d "", t') else ("", t)
     | EmptyString => ("", t) end) = (sg, t1) /\ (String.length t1 <= String.length t)%nat)
    as (sg & t1 & -> & Ht1).
  { destruct t as [|d t']; [by eexists _, _|]. destruct ((ord d =? 43) || (ord d =? 45)); eexists _, _; split; try done; simpl; lia. }
  pose proof (scan_digits_length t1).
  destruct (scan_digits t1). case_if; [done|]. intros [= _ <-]. simpl in *. lia.
Qed.

Lemma scan_number_length s lit r :
  scan_number s = Some (lit, r) -> (String.length r < String.length s)%nat.
Proof.
  unfold scan_number.
  destruct (scan_int s) as [[i s1]|] eqn:E1; [|done]. apply scan_int_length in E1. simpl.
  destruct (scan_frac s1) as [[f s2]|] eqn:E2; [|done]. apply scan_frac_length in E2. simpl.
  destruct (scan_exp s2) as [[e s3]|] eqn:E3; [|done]. apply scan_exp_length in E3. simpl.
  intros [= _ <-]. lia.
Qed.

Lemma prefix_length w s : String.prefix w s = true -> (String.length w <= String.length s)%nat.
Proof.
  revert s. induction w as [|a w IH]; intros [|b s]; simpl; try done; [lia|].
  destruct (ascii_dec a b); [|done]. intros H%IH. lia.
Qed.

Lemma scan_literal_length w s r :
  w <> "" -> scan_literal w s = Some r -> (String.length r < String.length s)%nat.
Proof.
  unfold scan_literal. destruct (String.prefix w s) eqn:E; [|done].
  intros Hw [= <-]. apply prefix_length in E. rewrite slength_sdrop.
  destruct w; [done|]. simpl in *. lia.
Qed.

(** ** The fuel is enough *)

(** The parser's answer is a real one, and what it leaves is shorter
    than [s]. *)
Definition consumes (r : parse_result) (s : string) : Prop :=
  match r with
  | NoFuel => False
  | Invalid => True
  | Parsed _ rest => (String.length rest < String.length s)%nat
  end.

Lemma consumes_weaken r s s' :
  consumes r s' -> (String.length s' <= String.length s)%nat -> consumes r s.
Proof. destruct r; simpl; lia. Qed.

Ltac consume_cases IHv IHm IHe :=
  repeat first
  [ progress cbn zeta
  | match goal with
    | |- context [match next_byte ?x with _ => _ end] =>
        let E := fresh "E" in destruct (next_byte x) as [[? ?]|] eqn:E; [apply next_byte_length in E|]
    | |- context [match scan_string ?x with _ => _ end] =>
        let E := fresh "E" in destruct (scan_string x) as [[? ?]|] eqn:E; [apply scan_string_length in E|]
    | |- context [match scan_number ?x with _ => _ end] =>
        let E := fresh "E" in destruct (scan_number x) as [[? ?]|] eqn:E; [apply scan_number_length in E|]
    | |- context [match scan_literal ?w ?x with _ => _ end] =>
        let E := fresh "E" in destruct (scan_literal w x) as [?|] eqn:E;
        [apply scan_literal_length in E; [|done]|]
    | |- context [match parse_value_at ?f ?d ?c ?x with _ => _ end] =>
        let H := fresh "H" in
        assert (H : consumes (parse_value_at f d c x) (String c x)) by (apply IHv; simpl in *; lia);
        destruct (parse_value_at f d c x); simpl in H; [| |contradiction]
    | |- context [if ?b then _ else _] => destruct b
    end ];
  simpl in *; try lia;
  try (eapply consumes_weaken; [first [apply IHm | apply IHe]; simpl in *; lia | simpl in *; lia]).

Lemma parse_fuel f :
  (forall d c t, (2 * S (String.length t) < f)%nat -> consumes (parse_value_at f d c t) (String c t)) /\
  (forall d acc s, (2 * String.length s + 1 < f)%nat -> consumes (parse_members f d acc s) s) /\
  (forall d acc s, (2 * String.length s + 1 < f)%nat -> consumes (parse_elements f d acc s) s).
Proof.
  induction f as [|f (IHv & IHm & IHe)]; [repeat split; intros; lia|].
  split; [|split]; intros d.
  - intros c t Hf. cbn [parse_value_at]. consume_cases IHv IHm IHe.
  - intros acc s Hf. cbn [parse_members]. consume_cases IHv IHm IHe.
  - intros acc s Hf. cbn [parse_elements]. consume_cases IHv IHm IHe.
Qed.

(** The parser of the scanner's grammar always gives an answer with
    the fuel [parse_json] gives it: a value or a syntax error, never
    the end of the fuel. *)
Theorem parse_json_total s : parse_json s <> NoFuel.
Proof.
  unfold parse_json, parse_value. destruct (next_byte s) as [[c t]|] eqn:E; [|done].
  apply next_byte_length in E.
  pose proof (proj1 (parse_fuel (S (2 * String.length s))) 0 c t ltac:(lia)) as H.
  by destruct (parse_value_at _ _ _ _).
Qed.

(** ** The scanner on the encoder's strings *)

Lemma scan_string_plain out x :
  sforall (fun c => (0x20 <=? ord c) && negb (ord c =? b_quote) && negb (ord c =? b_backslash)) out = true ->
  scan_string (out +:+ x) = (fun p => (out +:+ p.1, p.2)) <$> scan_string x.
Proof.
  induction out as [|c out IH]; simpl.
  { rewrite sapp_nil_l. destruct (scan_string x) as [[]|]; simpl; by rewrite ?sapp_nil_l. }
  intros [[[Hc1 Hc2]%andb_prop Hc3]%andb_prop Ho]%andb_prop.
  rewrite IH by done. apply Z.leb_le in Hc1. apply negb_true_iff, Z.eqb_neq in Hc2, Hc3.
  repeat case_if; try lia. destruct (scan_string x) as [[]|]; simpl; by rewrite ?sapp_cons.
Qed.

Lemma scan_string_short e x :
  short_escape e = true ->
  scan_string (String backslash (String e x)) =
    (fun p => (String backslash (String e p.1), p.2)) <$> scan_string x.
Proof. intros H. cbn [scan_string]. rewrite H. reflexivity. Qed.

Lemma scan_string_u c1 c2 c3 c4 x :
  is_hex c1 && is_hex c2 && is_hex c3 && is_hex c4 = true ->
  scan_string (String backslash (String "u" (String c1 (String c2 (String c3 (String c4 x)))))) =
    (fun p => (String backslash (String "u" (String c1 (String c2 (String c3 (String c4 p.1))))), p.2))
      <$> scan_string x.
Proof. intros H. cbn [scan_string]. rewrite H. reflexivity. Qed.

Lemma is_hex_lower_hex d : 0 <= d < 16 -> is_hex (lower_hex d) = true.
Proof.
  intros Hd. rewrite <- (Z2Nat.id d) by lia.
  assert (Hn : (Z.to_nat d < 16)%nat) by lia. revert Hn. generalize (Z.to_nat d) as n.
  intros n Hn. do 16 (destruct n as [|n]; [reflexivity|]). lia.
Qed.

(** The prefix of the escaped bytes survives the string states. *)
Definition scan_prefix_ok (out : string) : Prop :=
  forall x, scan_string (out +:+ x) = (fun p => (out +:+ p.1, p.2)) <$> scan_string x.

Lemma escape_ascii_scan b :
  0 <= b < 128 -> html_safe b = false -> scan_prefix_ok (escape_ascii b).
Proof.
  intros Hb Hs x. unfold escape_ascii.
  destruct (Z.eqb_spec b b_backslash) as [->|]; [cbn [orb]; rewrite sapp_cons, sapp_cons, sapp_nil_l;
    rewrite scan_string_short by reflexivity; by destruct (scan_string x) as [[]|]|].
  destruct (Z.eqb_spec b b_quote) as [->|]; [cbn [orb]; rewrite sapp_cons, sapp_cons, sapp_nil_l;
    rewrite scan_string_short by reflexivity; by destruct (scan_string x) as [[]|]|].
  cbn [orb].
  repeat (case_if; [rewrite sapp_cons, sapp_cons, sapp_nil_l; rewrite scan_string_short by reflexivity;
                    by destruct (scan_string x) as [[]|]|]).
  rewrite !sapp_cons, sapp_nil_l. change ("u00" +:+ ?y) with (String "u" (String "0" (String "0" y))).
  rewrite !sapp_cons, sapp_nil_l, scan_string_u.
  - by destruct (scan_string x) as [[]|].
  - rewrite !is_hex_lower_hex; [done| |]. 
    + rewrite (land_low b 4 15) by (reflexivity || lia). lia_dm.
    + rewrite Z.shiftr_div_pow2 by lia. lia_dm.
Qed.

Lemma plain_scan out :
  sforall (fun c => (0x20 <=? ord c) && negb (ord c =? b_quote) && negb (ord c =? b_backslash)) out = true ->
  scan_prefix_ok out.
Proof. intros H x. by apply scan_string_plain. Qed.

Lemma append_string_step_scan c t out n :
  append_string_step (String c t) = Some (out, n) -> scan_prefix_ok out.
Proof.
  intros Hs. pose proof Hs as Hs'. unfold append_string_step in Hs.
  destruct (Z.ltb_spec (ord c) rune_self) as [Hc|Hc].
  - destruct (html_safe (ord c)) eqn:Eh; injection Hs as <- <-.
    + apply plain_scan. unfold html_safe in Eh. simpl. rewrite andb_true_r.
      repeat (case_if; simpl in *; try done; try lia).
    + apply escape_ascii_scan; [pose proof (ord_range c); unfold rune_self in *; lia|done].
  - rewrite decode_rune_stake4 in Hs.
    destruct (bool_decide (invalid_step (decode_rune (String c t)) = true)) eqn:Hb.
    + apply bool_decide_eq_true in Hb. unfold invalid_step in Hb.
      destruct (decode_rune (String c t)) as [r size]. simpl in Hb. rewrite Hb in Hs.
      injection Hs as <- <-. intros x. autorewrite with slogin_rw; rewrite scan_string_u by reflexivity.
      by destruct (scan_string x) as [[]|].
    + apply bool_decide_eq_false, not_true_is_false in Hb.
      pose proof (decode_rune_high_bytes c t Hc Hb) as Hh.
      destruct (decode_rune (String c t)) as [r size]. unfold invalid_step in Hb.
      simpl in Hb, Hh. rewrite Hb in Hs.
      destruct (Z.eqb_spec r 0x2028) as [->|];
        [injection Hs as <- <-; intros x; autorewrite with slogin_rw; rewrite scan_string_u by reflexivity;
         by destruct (scan_string x) as [[]|]|].
      destruct (Z.eqb_spec r 0x2029) as [->|];
        [injection Hs as <- <-; intros x; autorewrite with slogin_rw; rewrite scan_string_u by reflexivity;
         by destruct (scan_string x) as [[]|]|].
      injection Hs as <- <-. apply plain_scan. eapply sforall_impl; [|exact Hh].
      intros d Hd%Z.leb_le. unfold rune_self, b_quote, b_backslash in *.
      repeat case_if; simpl; try done; lia.
Qed.

(** The string states read the encoding of a string back to its closing
    quote. *)
Lemma scan_string_escape s rest :
  scan_string (escape_string s +:+ dq +:+ rest) = Some (escape_string s, rest).
Proof.
  revert rest. apply (escape_string_ind (fun e => forall rest, scan_string (e +:+ dq +:+ rest) = Some (e, rest))).
  - intros rest. rewrite sapp_nil_l. unfold dq. rewrite sapp_cons, sapp_nil_l. cbn [scan_string].
    reflexivity.
  - intros c t out n r Hs IH rest. rewrite sapp_assoc, (append_string_step_scan c t out n Hs), IH.
    done.
Qed.
