(* ===== verification/Store.v ===== *)
(** * Store: the key-value store that holds the sessions

    The handlers talk to Redis through go-redis with three commands:
    [Set(ctx, key, value, ttl).Err()] in [handleCallback] (line 126),
    [Get(ctx, key).Result()] in [getUser] (line 160) and
    [Del(ctx, key)] in [handleLogout] (line 144).

    - [SessionStore] is the interface the handlers are written against:
      the three commands, each taking the clock (Unix nanoseconds, the
      value of Go's [time.Now().UnixNano()]).
    - [SessionStoreLaws] is what a store promises to the handlers; the
      theorems of [Session] use only these laws.
    - [RedisModel] is Redis driven by go-redis: the keyspace as a
      [gmap] from keys to a value and an optional deadline in
      milliseconds, lazy expiry by [now > when] (Redis' [keyIsExpired]),
      and an availability flag (a server that is down answers every
      command with a connection error).  It is an instance of the class
      and discharges the laws. *)

From S2P Require Import Prelude.

(** What [Get(...).Result()] gives back: a value, [redis.Nil], or
    another error. *)
Inductive get_reply :=
| GetOk (v : string)
| GetNil
| GetErr (e : string).

(** The error of a command whose value the handlers do not read
    ([.Err()]): [None] is Go's [nil]. *)
Abbreviation cmd_err := (option string).

Class SessionStore (S : Type) := {
  store_empty : S;
  store_get : Z -> string -> S -> get_reply;
  store_set : Z -> string -> string -> Z -> S -> cmd_err * S;
  store_del : Z -> string -> S -> cmd_err * S;
}.

(** One millisecond, the granularity of Redis' clock, in nanoseconds. *)
Definition millisecond : Z := 1000000.
Definition second : Z := 1000000000.

(** The laws.  A TTL [d] (nanoseconds, a whole number of milliseconds)
    set at time [t] keeps the key readable up to [t + d] and makes it
    unreadable from [t + d + 1ms] on; in between, Redis' millisecond
    clock decides. *)
Class SessionStoreLaws (S : Type) `{SessionStore S} := {
  get_empty t k : store_get t k store_empty = GetNil;
  set_get_hit t k v d s s' t' :
    store_set t k v d s = (None, s') -> 0 < d -> d mod millisecond = 0 ->
    t <= t' <= t + d -> store_get t' k s' = GetOk v;
  set_get_expired t k v d s s' t' :
    store_set t k v d s = (None, s') -> 0 < d -> d mod millisecond = 0 ->
    t + d + millisecond <= t' -> store_get t' k s' = GetNil;
  set_get_same t k v d s s' t' :
    store_set t k v d s = (None, s') ->
    store_get t' k s' = GetOk v \/ store_get t' k s' = GetNil;
  set_get_other t k v d s s' t' k' :
    store_set t k v d s = (None, s') -> k <> k' ->
    store_get t' k' s' = store_get t' k' s;
  set_err_keeps t k v d s e s' : store_set t k v d s = (Some e, s') -> s' = s;
  del_get t k s s' t' : store_del t k s = (None, s') -> store_get t' k s' = GetNil;
  del_get_other t k s s' t' k' :
    store_del t k s = (None, s') -> k <> k' ->
    store_get t' k' s' = store_get t' k' s;
  del_err_keeps t k s e s' : store_del t k s = (Some e, s') -> s' = s;
}.

Module RedisModel.

(** The keyspace: each key has its value and, when it has a TTL, the
    millisecond after which it is expired. *)
Record redis := mk_redis {
  rd_keys : gmap string (string * option Z);
  rd_up : bool;
}.

Definition conn_refused : string :=
  "dial tcp [::1]:6379: connect: connection refused".

(** Redis' [mstime()] read at the Go clock [t]. *)
Definition ms_of (t : Z) : Z := t `div` millisecond.

(** The expiry argument go-redis appends to SET ([cmdable.Set]). *)
Inductive set_expiry :=
| NoExpiry
| KeepTTL
| EX (sec : Z)
| PX (ms : Z).

(** go-redis' [KeepTTL] duration. *)
Definition keep_ttl : Z := -1.

Definition use_precise (d : Z) : bool :=
  (d <? second) || negb (d mod second =? 0).

Definition format_ms (d : Z) : Z :=
  if (0 <? d) && (d <? millisecond) then 1 else d `quot` millisecond.

Definition format_sec (d : Z) : Z :=
  if (0 <? d) && (d <? second) then 1 else d `quot` second.

Definition set_expiry_arg (d : Z) : set_expiry :=
  if 0 <? d then
    if use_precise d then PX (format_ms d) else EX (format_sec d)
  else if d =? keep_ttl then KeepTTL else NoExpiry.

(** [keyIsExpired]: a key with deadline [when] is expired when
    [now > when]. *)
Definition alive (now_ms : Z) (e : option Z) : bool :=
  match e with
  | None => true
  | Some w => negb (w <? now_ms)
  end.

Definition live_entry (now_ms : Z) (k : string) (m : gmap string (string * option Z))
  : option (string * option Z) :=
  match m !! k with
  | Some (v, e) => if alive now_ms e then Some (v, e) else None
  | None => None
  end.

Definition invalid_expire : string := "ERR invalid expire time in 'set' command".

(** SET key value [EX sec | PX ms | KEEPTTL] ([setGenericCommand]). *)
Definition set_command (now_ms : Z) (k v : string) (x : set_expiry)
    (m : gmap string (string * option Z)) : cmd_err * gmap string (string * option Z) :=
  match x with
  | NoExpiry => (None, <[k := (v, None)]> m)
  | KeepTTL =>
      let e := match live_entry now_ms k m with Some (_, e) => e | None => None end in
      (None, <[k := (v, e)]> m)
  | EX sec =>
      if sec <=? 0 then (Some invalid_expire, m)
      else (None, <[k := (v, Some (now_ms + sec * 1000))]> m)
  | PX ms =>
      if ms <=? 0 then (Some invalid_expire, m)
      else (None, <[k := (v, Some (now_ms + ms))]> m)
  end.

Definition redis_get (t : Z) (k : string) (r : redis) : get_reply :=
  if rd_up r then
    match live_entry (ms_of t) k (rd_keys r) with
    | Some (v, _) => GetOk v
    | None => GetNil
    end
  else GetErr conn_refused.

Definition redis_set (t : Z) (k v : string) (d : Z) (r : redis) : cmd_err * redis :=
  if rd_up r then
    let '(err, m) := set_command (ms_of t) k v (set_expiry_arg d) (rd_keys r) in
    (err, mk_redis m true)
  else (Some conn_refused, r).

Definition redis_del (t : Z) (k : string) (r : redis) : cmd_err * redis :=
  if rd_up r then (None, mk_redis (delete k (rd_keys r)) true)
  else (Some conn_refused, r).

Definition redis_empty : redis := mk_redis ∅ true.

#[export] Instance redis_store : SessionStore redis := {
  store_empty := redis_empty;
  store_get := redis_get;
  store_set := redis_set;
  store_del := redis_del;
}.

(** ** Arithmetic of the deadline *)

Lemma mod0_mul d m : m <> 0 -> d mod m = 0 -> d = (d / m) * m.
Proof. intros Hm H. rewrite (Z.div_mod d m Hm) at 1. rewrite H. lia. Qed.

Lemma ms_of_shift t d :
  d mod millisecond = 0 -> ms_of (t + d) = ms_of t + d / millisecond.
Proof.
  intros H. unfold ms_of. rewrite (Z.div_mod d millisecond) at 1 by done.
  rewrite H, Z.add_0_r, Z.mul_comm, Z.div_add by done. done.
Qed.

Lemma format_sec_ms d :
  0 < d -> d mod second = 0 -> (d `quot` second) * 1000 = d / millisecond.
Proof.
  unfold second, millisecond. intros. rewrite Z.quot_div_nonneg by lia.
  rewrite (mod0_mul d 1000000000) at 2 by done.
  replace (d / 1000000000 * 1000000000) with ((d / 1000000000 * 1000) * 1000000) by lia.
  rewrite Z.div_mul by done. done.
Qed.

Lemma format_ms_exact d :
  0 < d -> d mod millisecond = 0 -> format_ms d = d / millisecond /\ 0 < d / millisecond.
Proof.
  unfold format_ms. intros. rewrite Z.quot_div_nonneg by (unfold millisecond; lia).
  pose proof (mod0_mul d millisecond ltac:(done) H0). unfold millisecond in *.
  repeat case_if; simpl; lia.
Qed.

(** ** The three commands *)

(** A SET that succeeds writes the key, with some deadline, and leaves
    the server up. *)
Lemma redis_set_ok t k v d r r' :
  redis_set t k v d r = (None, r') ->
  exists e, r' = mk_redis (<[k := (v, e)]> (rd_keys r)) true.
Proof.
  unfold redis_set, set_command. destruct (rd_up r); [|done].
  destruct (set_expiry_arg d) as [| |sec|ms];
    try destruct (sec <=? 0); try destruct (ms <=? 0); intros Hs; invc Hs; eauto.
Qed.

(** With a positive whole-millisecond TTL [d] set at [t], the deadline
    is the millisecond of [t] plus [d] in milliseconds, whether
    go-redis sends [EX] or [PX]. *)
Lemma redis_set_deadline t k v d r r' :
  0 < d -> d mod millisecond = 0 -> redis_set t k v d r = (None, r') ->
  r' = mk_redis (<[k := (v, Some (ms_of t + d / millisecond))]> (rd_keys r)) true.
Proof.
  intros Hd Hm. unfold redis_set, set_command, set_expiry_arg.
  destruct (rd_up r); [|done]. destruct (Z.ltb_spec 0 d); [|lia].
  destruct (use_precise d) eqn:Hp.
  - destruct (format_ms_exact d Hd Hm) as [-> Hpos]. case_if; [lia|].
    intros Hs; by invc Hs.
  - unfold use_precise, format_sec in *.
    destruct (Z.ltb_spec d second); [done|].
    destruct (Z.eqb_spec (d mod second) 0); [|done].
    destruct (Z.ltb_spec d second); [lia|]. rewrite andb_false_r.
    assert (0 < d `quot` second).
    { rewrite Z.quot_div_nonneg by (unfold second; lia).
      apply Z.div_str_pos. unfold second in *; lia. }
    case_if; [lia|].
    rewrite format_sec_ms by (done || lia). intros Hs; by invc Hs.
Qed.

Lemma redis_get_insert_eq t k v e m :
  redis_get t k (mk_redis (<[k := (v, e)]> m) true) =
  if alive (ms_of t) e then GetOk v else GetNil.
Proof. unfold redis_get, live_entry. simpl. rewrite lookup_insert_eq. by case_if. Qed.

#[export] Instance redis_laws : SessionStoreLaws redis.
Proof.
  constructor.
  - done.
  - intros t k v d s s' t' Hs Hd Hm Ht.
    rewrite (redis_set_deadline _ _ _ _ _ _ Hd Hm Hs). simpl.
    rewrite redis_get_insert_eq. simpl.
    assert (ms_of t' <= ms_of (t + d)) by (apply Z.div_le_mono; [done|lia]).
    rewrite ms_of_shift in H by done. by case_if; [lia|].
  - intros t k v d s s' t' Hs Hd Hm Ht.
    rewrite (redis_set_deadline _ _ _ _ _ _ Hd Hm Hs). simpl.
    rewrite redis_get_insert_eq. simpl.
    assert (ms_of (t + d + millisecond) <= ms_of t') by (apply Z.div_le_mono; [done|lia]).
    rewrite !ms_of_shift in H by done. change (millisecond / millisecond) with 1 in H.
    by case_if; [|lia].
  - intros t k v d s s' t' Hs. destruct (redis_set_ok _ _ _ _ _ _ Hs) as [e ->].
    simpl. rewrite redis_get_insert_eq. case_if; auto.
  - intros t k v d s s' t' k' Hs Hne. simpl.
    destruct (redis_set_ok _ _ _ _ _ _ Hs) as [e ->].
    unfold redis_set in Hs. destruct s as [m up]. simpl in *.
    destruct up; [|done].
    unfold redis_get, live_entry. simpl. by rewrite lookup_insert_ne.
  - intros t k v d [m []] e s' Hs; simpl in Hs; unfold redis_set, set_command in Hs;
      simpl in Hs; [|by invc Hs].
    destruct (set_expiry_arg d) as [| |sec|ms];
      try destruct (sec <=? 0); try destruct (ms <=? 0); by invc Hs.
  - intros t k [m []] s' t' Hs; simpl in Hs; unfold redis_del in Hs; simpl in Hs;
      [|done]. invc Hs. simpl. unfold redis_get, live_entry. simpl.
    by rewrite lookup_delete_eq.
  - intros t k [m []] s' t' k' Hs Hne; simpl in Hs; unfold redis_del in Hs; simpl in Hs;
      [|done]. invc Hs. simpl. unfold redis_get, live_entry. simpl.
    by rewrite lookup_delete_ne.
  - intros t k [m []] e s' Hs; simpl in Hs; unfold redis_del in Hs; simpl in Hs;
      by invc Hs.
Qed.

(** A server that is down rejects every command and keeps its keys. *)
Lemma redis_down_get t k r : rd_up r = false -> redis_get t k r = GetErr conn_refused.
Proof. unfold redis_get. by intros ->. Qed.

Lemma redis_down_del t k r : rd_up r = false -> redis_del t k r = (Some conn_refused, r).
Proof. unfold redis_del. by intros ->. Qed.

Lemma redis_down_set t k v d r :
  rd_up r = false -> redis_set t k v d r = (Some conn_refused, r).
Proof. unfold redis_set. by intros ->. Qed.

End RedisModel.
