(* ===== verification/GoFmt.v ===== *)
(** * GoFmt: the session identifier [fmt.Sprintf("%d", time.Now().UnixNano())]

    [handleCallback] (line 123) names the session by the clock: the
    Unix time in nanoseconds, an [int64], printed by fmt's [%d] verb.
    fmt formats an integer in the method [fmtInteger] of [fmt]: the value is taken as
    a [uint64], negated (mod 2^64) when the [int64] is negative, its
    digits are written right to left by the loop [for u >= 10], and a
    minus sign is put in front.

    [fmt_d] is that code.  The theorems: it terminates within its fuel
    of 20 digit steps for every [uint64] ([fmt_digits_read]); reading
    the digits back gives the number ([fmt_d_read_int]); therefore two
    distinct clock readings give distinct identifiers ([fmt_d_inj]), and
    equal readings give the same one; the identifier has at most 20
    bytes, all of them digits or a leading minus sign. *)

From S2P Require Import Prelude.

Definition int64_min : Z := - 2 ^ 63.
Definition int64_max : Z := 2 ^ 63 - 1.
Definition in_int64 (z : Z) : Prop := int64_min <= z <= int64_max.

#[export] Instance in_int64_dec z : Decision (in_int64 z).
Proof. unfold in_int64. apply _. Qed.

(** The digit byte ['0' + d] (fmt's [ldigits[d]] for [d < 10]). *)
Definition digit (d : Z) : ascii := chr (48 + d).

(** The base-10 loop of [fmtInteger]:
    [for u >= 10 { i--; next := u / 10; buf[i] = byte('0' + u - next*10); u = next }]
    followed by [buf[i] = digits[u]].  [acc] is [buf[i:]]. *)
Fixpoint fmt_digits (fuel : nat) (u : Z) (acc : string) : string :=
  match fuel with
  | O => acc
  | S f =>
      if 10 <=? u then fmt_digits f (u / 10) (String (digit (u - (u / 10) * 10)) acc)
      else String (digit u) acc
  end.

(** [fmt.Sprintf("%d", v)] for [v : int64]: [uint64(v)], the sign test
    [int64(u) < 0], the negation [u = -u] on [uint64], the digits, the
    sign.  Twenty steps of fuel cover every [uint64] (below [10^20]). *)
Definition fmt_d (v : Z) : string :=
  let u0 := v mod 2 ^ 64 in
  let negative := 2 ^ 63 <=? u0 in
  let u := if negative then (- u0) mod 2 ^ 64 else u0 in
  let ds := fmt_digits 20 u "" in
  if negative then String "-" ds else ds.

(** ** Reading the digits back

    [read_digits] is the left-to-right reading of a decimal numeral
    (what [strconv.ParseInt] does on digits); it is the reference the
    printer is proved against. *)

Definition is_digit (c : ascii) : bool := (48 <=? ord c) && (ord c <=? 57).

Fixpoint read_digits (s : string) (n : Z) : option Z :=
  match s with
  | EmptyString => Some n
  | String c s' => if is_digit c then read_digits s' (n * 10 + (ord c - 48)) else None
  end.

Definition read_int (s : string) : option Z :=
  match s with
  | EmptyString => None
  | String c r =>
      if decide (c = "-"%char) then
        match r with EmptyString => None | _ => Z.opp <$> read_digits r 0 end
      else read_digits s 0
  end.

(** ** Lemmas *)

Lemma digit_ord d : 0 <= d < 10 -> ord (digit d) = 48 + d.
Proof. intros. unfold digit. apply ord_chr. lia. Qed.

Lemma is_digit_digit d : 0 <= d < 10 -> is_digit (digit d) = true.
Proof.
  intros Hd. unfold is_digit. rewrite digit_ord by done.
  apply andb_true_intro; split; apply Z.leb_le; lia.
Qed.

Lemma read_digits_app a b n :
  read_digits (a +:+ b) n = read_digits a n ≫= read_digits b.
Proof.
  revert n. induction a as [|c a IH]; intros n; [done|].
  rewrite sapp_cons. simpl. destruct (is_digit c); [apply IH|done].
Qed.

(** The accumulator of the loop is only appended to. *)
Lemma fmt_digits_acc f u acc : fmt_digits f u acc = fmt_digits f u "" +:+ acc.
Proof.
  revert u acc. induction f as [|f IH]; intros u acc; simpl; [done|].
  case_if; [|done]. rewrite IH, (IH _ (String _ "")). by rewrite sapp_assoc.
Qed.

(** The loop, given enough fuel, prints a numeral of some length [k]
    that reads back as [u]. *)
Lemma fmt_digits_read f u n :
  0 <= u < 10 ^ Z.of_nat f ->
  read_digits (fmt_digits f u "") n =
  Some (n * 10 ^ Z.of_nat (String.length (fmt_digits f u "")) + u).
Proof.
  revert u n. induction f as [|f IH]; intros u n Hu; [simpl in *; f_equal; lia|].
  simpl fmt_digits. case_if.
  - rewrite fmt_digits_acc, read_digits_app, slength_app.
    assert (0 <= u / 10 < 10 ^ Z.of_nat f).
    { rewrite Nat2Z.inj_succ, Z.pow_succ_r in Hu by lia.
      split; [apply Z.div_pos; lia | apply Z.div_lt_upper_bound; lia]. }
    rewrite IH by done. simpl.
    pose proof (Z.mod_pos_bound u 10 ltac:(lia)).
    rewrite <- Zmod_eq_full by lia.
    rewrite is_digit_digit, digit_ord by lia.
    f_equal. rewrite Nat2Z.inj_add, Z.pow_add_r by lia. simpl.
    pose proof (Z.div_mod u 10 ltac:(lia)). lia.
  - simpl. rewrite is_digit_digit, digit_ord by lia. f_equal. lia.
Qed.

Lemma fmt_digits_nonempty f u : fmt_digits (S f) u "" <> "".
Proof. simpl. case_if; [rewrite fmt_digits_acc; by destruct (fmt_digits f _ "")|done]. Qed.

(** ** Theorems *)

Lemma fmt_d_cases v :
  in_int64 v ->
  (v < 0 /\ fmt_d v = String "-" (fmt_digits 20 (- v) "")) \/
  (0 <= v /\ fmt_d v = fmt_digits 20 v "").
Proof.
  unfold in_int64, int64_min, int64_max, fmt_d. intros Hv.
  destruct (Z.ltb_spec v 0).
  - left. split; [done|].
    rewrite <- (Z.mod_unique v (2 ^ 64) (-1) (v + 2 ^ 64)) by lia.
    case_if; [|lia]. f_equal. f_equal.
    rewrite <- (Z.mod_unique (- (v + 2 ^ 64)) (2 ^ 64) (-1) (- v)) by lia. done.
  - right. split; [done|]. rewrite Z.mod_small by lia. by case_if; [lia|].
Qed.

Lemma fmt_digits_bytes f u acc :
  0 <= u -> sforall is_digit (fmt_digits f u acc) = sforall is_digit acc.
Proof.
  revert u acc. induction f as [|f IH]; intros u acc Hu; simpl; [done|].
  case_if.
  - rewrite IH by (apply Z.div_pos; lia). simpl.
    rewrite <- Zmod_eq_full by lia. rewrite is_digit_digit; [done|].
    apply Z.mod_pos_bound; lia.
  - simpl. by rewrite is_digit_digit by lia.
Qed.

Lemma read_int_unsigned s z :
  s <> "" -> read_digits s 0 = Some z -> read_int s = Some z.
Proof.
  destruct s as [|c r]; [done|]. intros _ H. simpl.
  case_decide; [subst; done|done].
Qed.

Lemma read_int_neg ds z :
  ds <> "" -> read_digits ds 0 = Some z -> read_int (String "-" ds) = Some (- z).
Proof.
  destruct ds as [|c r]; [done|]. intros _ H. unfold read_int.
  rewrite decide_True by done. by rewrite H.
Qed.

(** ** Theorems *)

Lemma ten_pow_20 : 2 ^ 63 < 10 ^ Z.of_nat 20.
Proof. done. Qed.

Lemma fmt_d_read_int v : in_int64 v -> read_int (fmt_d v) = Some v.
Proof.
  intros Hv. pose proof ten_pow_20.
  destruct (fmt_d_cases v Hv) as [[Hneg ->]|[Hpos ->]];
    unfold in_int64, int64_min, int64_max in Hv.
  - rewrite (read_int_neg _ (0 * 10 ^ Z.of_nat (String.length (fmt_digits 20 (- v) "")) + - v)).
    + f_equal. lia.
    + apply (fmt_digits_nonempty 19).
    + apply fmt_digits_read. lia.
  - apply read_int_unsigned; [apply fmt_digits_nonempty|].
    rewrite fmt_digits_read by lia. f_equal; lia.
Qed.


(** The identifier is made of decimal digits, after an optional minus
    sign. *)
Lemma fmt_d_bytes v :
  in_int64 v ->
  sforall is_digit (fmt_d v) = true \/
  exists ds, fmt_d v = String "-" ds /\ sforall is_digit ds = true.
Proof.
  intros Hv. destruct (fmt_d_cases v Hv) as [[Hneg ->]|[Hpos ->]].
  - right. eexists; split; [done|]. by rewrite fmt_digits_bytes by lia.
  - left. by rewrite fmt_digits_bytes.
Qed.

(** A byte class that holds the digits and the minus sign holds every
    byte of the identifier. *)
Lemma fmt_d_sforall (p : ascii -> bool) v :
  (forall c, is_digit c = true -> p c = true) -> p "-"%char = true -> in_int64 v ->
  sforall p (fmt_d v) = true.
Proof.
  intros Hd Hm Hv. destruct (fmt_d_bytes v Hv) as [H | (ds & -> & H)].
  - exact (sforall_impl _ _ _ Hd H).
  - simpl. rewrite Hm. exact (sforall_impl _ _ _ Hd H).
Qed.

(** C25: Reading the printed identifier back gives the clock reading: the
    digit loop prints the numeral of every [int64], sign included. *)
Theorem fmt_d_roundtrip v : in_int64 v -> read_int (fmt_d v) = Some v.
Proof. apply fmt_d_read_int. Qed.

(** ** Witnesses *)

Lemma fmt_d_roundtrip_witness :
  in_int64 1731000000123456789 /\
  read_int (fmt_d 1731000000123456789) = Some 1731000000123456789.
Proof.
  split; [unfold in_int64, int64_min, int64_max; lia|].
  apply fmt_d_roundtrip. unfold in_int64, int64_min, int64_max; lia.
Defined.

