(* ===== verification/HttpDate.v ===== *)
(** * HttpDate: the [Expires] date of a cookie, as Go's time package prints it

    [http.SetCookie] writes the [Expires] attribute with
    [c.Expires.UTC().AppendFormat(buf, http.TimeFormat)], the layout
    [Mon, 02 Jan 2006 15:04:05 GMT].  The date comes from Go's
    [absDate] (time.go): the days since the absolute epoch are cut
    into 400-year, 100-year, 4-year and 1-year cycles (a division and
    a correction [n - n >> 2] for the longer last cycle), then the
    month is estimated as [day / 31] and corrected with the table
    [daysBefore], after the leap day is taken out.  The clock is
    [absClock], the weekday [absWeekday], the numbers [appendInt].

    Go counts days from an absolute zero year [-292277022399], which is
    [1 mod 400]; here days are counted from 0001-01-01, a whole number
    of 400-year cycles later, so the cycle arithmetic and the weekday
    (both epochs are Mondays) are the same for every time from year 1
    on, and [unix_abs_days] is [719162], the days from 0001-01-01 to
    1970-01-01.

    The reference is the calendar stepped a year and a month at a time
    ([year_ref], [month_ref]), with fuel [d / 365 + 1] years and twelve
    months, which is enough ([year_ref_spec]).  The theorems: Go's
    cycle arithmetic finds the year of every day
    ([abs_year_spec], [abs_year_ref]), its month estimate agrees with
    the reference on every day of both kinds of year ([abs_month_ref],
    checked by reflection over the 731 cases), and so [http_date]
    equals the reference printer [http_date_ref] from year 1 on. *)

From S2P Require Import Prelude GoFmt.

(** ** Calendar *)

Definition is_leap (y : Z) : bool :=
  (y mod 4 =? 0) && (negb (y mod 100 =? 0) || (y mod 400 =? 0)).

Definition year_len (y : Z) : Z := if is_leap y then 366 else 365.

Definition days_per_400 : Z := 146097.
Definition days_per_100 : Z := 36524.
Definition days_per_4 : Z := 1461.

(** The year part of [absDate]: the year and the day within it. *)
Definition abs_year (d : Z) : Z * Z :=
  let n := d / days_per_400 in
  let y := 400 * n in
  let d := d - days_per_400 * n in
  let n := d / days_per_100 in
  let n := n - Z.shiftr n 2 in
  let y := y + 100 * n in
  let d := d - days_per_100 * n in
  let n := d / days_per_4 in
  let y := y + 4 * n in
  let d := d - days_per_4 * n in
  let n := d / 365 in
  let n := n - Z.shiftr n 2 in
  let y := y + n in
  let d := d - 365 * n in
  (y + 1, d).

(** [daysBefore[m]]: the days before month [m] (0-based) in a year
    that is not leap. *)
Definition days_before (m : Z) : Z :=
  nth (Z.to_nat m) [0; 31; 59; 90; 120; 151; 181; 212; 243; 273; 304; 334; 365] 0.

(** The month part of [absDate]: month (1-12) and day of month. *)
Definition abs_month_day (leap : bool) (yday : Z) : Z * Z :=
  let '(feb29, day) :=
    if leap then
      if 31 + 29 - 1 <? yday then (false, yday - 1)
      else if yday =? 31 + 29 - 1 then (true, yday)
      else (false, yday)
    else (false, yday) in
  if feb29 then (2, 29)
  else
    let month := day / 31 in
    let end_ := days_before (month + 1) in
    let '(month, begin) :=
      if end_ <=? day then (month + 1, end_) else (month, days_before month) in
    (month + 1, day - begin + 1).

(** ** The reference calendar *)

Fixpoint year_ref (fuel : nat) (y d : Z) : Z * Z :=
  match fuel with
  | O => (y, d)
  | S f => if d <? year_len y then (y, d) else year_ref f (y + 1) (d - year_len y)
  end.

Definition month_len (leap : bool) (m : Z) : Z :=
  nth (Z.to_nat (m - 1)) [31; if leap then 29 else 28; 31; 30; 31; 30; 31; 31; 30; 31; 30; 31] 0.

Fixpoint month_ref (fuel : nat) (leap : bool) (m d : Z) : Z * Z :=
  match fuel with
  | O => (m, d + 1)
  | S f => if d <? month_len leap m then (m, d + 1) else month_ref f leap (m + 1) (d - month_len leap m)
  end.

Definition year_fuel (d : Z) : nat := S (Z.to_nat (d / 365)).

(** Days from 0001-01-01 to the first of January of [y]. *)
Definition days_before_year (y : Z) : Z :=
  365 * (y - 1) + (y - 1) / 4 - (y - 1) / 100 + (y - 1) / 400.

(** ** Printing *)

Definition unix_abs_days : Z := 719162.
Definition seconds_per_day : Z := 86400.

(** The absolute day and the second of the day of a time in Unix
    nanoseconds ([Time.UTC], [abs], [absClock]). *)
Definition abs_days (t : Z) : Z := t / 1000000000 / seconds_per_day + unix_abs_days.
Definition day_second (t : Z) : Z := t / 1000000000 mod seconds_per_day.

Definition short_day_names : list string := ["Sun"; "Mon"; "Tue"; "Wed"; "Thu"; "Fri"; "Sat"].
Definition short_month_names : list string :=
  ["Jan"; "Feb"; "Mar"; "Apr"; "May"; "Jun"; "Jul"; "Aug"; "Sep"; "Oct"; "Nov"; "Dec"].

(** [absWeekday]: 0001-01-01 is a Monday. *)
Definition weekday (days : Z) : Z := (days + 1) mod 7.

(** [appendInt(b, x, width)]: the sign, then the fast paths for two and
    four digits, then the digits padded with zeros to [width]. *)
Definition append_int (x width : Z) : string :=
  let sign := if x <? 0 then "-" else "" in
  let u := Z.abs x in
  sign +:+
  (if (width =? 2) && (u <? 100) then String (digit (u / 10)) (String (digit (u mod 10)) "")
   else if (width =? 4) && (u <? 10000) then
     String (digit (u / 1000)) (String (digit (u / 100 mod 10))
       (String (digit (u / 10 mod 10)) (String (digit (u mod 10)) "")))
   else
     let ds := fmt_digits 20 u "" in
     String.concat "" (repeat "0" (Z.to_nat (width - Z.of_nat (String.length ds)))) +:+ ds).

(** [AppendFormat(buf, TimeFormat)] of a date and clock. *)
Definition format_time_fields (wd y m d hh mm ss : Z) : string :=
  default "" (short_day_names !! Z.to_nat wd) +:+ ", " +:+ append_int d 2 +:+ " " +:+
  default "" (short_month_names !! Z.to_nat (m - 1)) +:+ " " +:+ append_int y 4 +:+ " " +:+
  append_int hh 2 +:+ ":" +:+ append_int mm 2 +:+ ":" +:+ append_int ss 2 +:+ " GMT".

(** [t.UTC().AppendFormat(buf, http.TimeFormat)] for [t] in Unix
    nanoseconds. *)
Definition http_date (t : Z) : string :=
  let days := abs_days t in
  let sec := day_second t in
  let '(y, yday) := abs_year days in
  let '(m, d) := abs_month_day (is_leap y) yday in
  format_time_fields (weekday days) y m d (sec / 3600) (sec mod 3600 / 60) (sec mod 60).

(** The same date from the reference calendar. *)
Definition http_date_ref (t : Z) : string :=
  let days := abs_days t in
  let sec := day_second t in
  let '(y, yday) := year_ref (year_fuel days) 1 days in
  let '(m, d) := month_ref 12 (is_leap y) 1 yday in
  format_time_fields (weekday days) y m d (sec / 3600) (sec mod 3600 / 60) (sec mod 60).

(** [t.Year()]. *)
Definition time_year (t : Z) : Z := (abs_year (abs_days t)).1.

(** ** Lemmas *)

Lemma days_before_year_succ y : days_before_year (y + 1) = days_before_year y + year_len y.
Proof.
  unfold days_before_year, year_len, is_leap.
  replace (y + 1 - 1) with y by lia.
  destruct (Z.eqb_spec (y mod 4) 0); destruct (Z.eqb_spec (y mod 100) 0);
  destruct (Z.eqb_spec (y mod 400) 0); simpl; lia_dm.
Qed.

Lemma shiftr2 n : Z.shiftr n 2 = n / 4.
Proof. rewrite Z.shiftr_div_pow2 by lia. done. Qed.

Lemma abs_year_spec d : 0 <= d ->
  let '(y, r) := abs_year d in 1 <= y /\ 0 <= r < year_len y /\ days_before_year y + r = d.
Proof.
  intros Hd. unfold abs_year. rewrite !shiftr2.
  unfold days_per_400, days_per_100, days_per_4.
  set (n1 := d / 146097). set (r1 := d - 146097 * n1).
  assert (0 <= n1 /\ 0 <= r1 < 146097) by (subst n1 r1; lia_dm).
  set (n2 := r1 / 36524 - r1 / 36524 / 4).
  assert (0 <= n2 <= 3 /\ 0 <= r1 - 36524 * n2 /\ (n2 < 3 -> r1 - 36524 * n2 < 36524) /\ r1 - 36524 * n2 <= 36524) by (subst n2; lia_dm).
  set (r2 := r1 - 36524 * n2).
  set (n3 := r2 / 1461). set (r3 := r2 - 1461 * n3).
  assert (0 <= n3 <= 24 /\ 0 <= r3 < 1461) by (subst n3 r3; lia_dm).
  set (n4 := r3 / 365 - r3 / 365 / 4).
  assert (0 <= n4 <= 3 /\ 0 <= r3 - 365 * n4 /\ (n4 < 3 -> r3 - 365 * n4 < 365) /\ r3 - 365 * n4 <= 365) by (subst n4; lia_dm).
  set (r4 := r3 - 365 * n4).
  assert (Hr2 : r2 = 1461 * n3 + r3) by (subst r3; lia).
  assert (Hr1 : r1 = 36524 * n2 + r2) by (subst r2; lia).
  assert (Hr3 : r3 = 365 * n4 + r4) by (subst r4; lia).
  assert (Hd' : d = 146097 * n1 + r1) by (subst r1; lia).
  clearbody n1 r1 n2 r2 n3 r3 n4 r4.
  replace (400 * n1 + 100 * n2 + 4 * n3 + n4 + 1 - 1) with (400 * n1 + 100 * n2 + 4 * n3 + n4) by lia.
  unfold days_before_year, year_len, is_leap.
  set (y := 400 * n1 + 100 * n2 + 4 * n3 + n4 + 1).
  replace (y - 1) with (400 * n1 + 100 * n2 + 4 * n3 + n4) by (subst y; lia).
  assert (E4 : (400 * n1 + 100 * n2 + 4 * n3 + n4) / 4 = 100 * n1 + 25 * n2 + n3) by lia_dm.
  assert (E100 : (400 * n1 + 100 * n2 + 4 * n3 + n4) / 100 = 4 * n1 + n2) by lia_dm.
  assert (E400 : (400 * n1 + 100 * n2 + 4 * n3 + n4) / 400 = n1) by lia_dm.
  rewrite E4, E100, E400.
  split; [subst y; lia|]. split; [|lia].
  destruct (Z.eqb_spec (y mod 4) 0); destruct (Z.eqb_spec (y mod 100) 0);
    destruct (Z.eqb_spec (y mod 400) 0); simpl; subst y; try lia_dm.
Qed.

Lemma year_len_range y : 365 <= year_len y <= 366.
Proof. unfold year_len. destruct (is_leap y); lia. Qed.

Lemma days_before_year_mono a b : a <= b -> days_before_year a <= days_before_year b.
Proof. unfold days_before_year. intros. lia_dm. Qed.

Lemma year_unique y1 r1 y2 r2 :
  0 <= r1 < year_len y1 -> 0 <= r2 < year_len y2 ->
  days_before_year y1 + r1 = days_before_year y2 + r2 -> y1 = y2 /\ r1 = r2.
Proof.
  intros H1 H2 E.
  destruct (Z.lt_trichotomy y1 y2) as [Hl|[->|Hl]]; [exfalso| lia |exfalso].
  - pose proof (days_before_year_mono (y1 + 1) y2 ltac:(lia)). rewrite days_before_year_succ in H. lia.
  - pose proof (days_before_year_mono (y2 + 1) y1 ltac:(lia)). rewrite days_before_year_succ in H. lia.
Qed.

(** The reference loop, given [k] steps with [d < 365 k], stops on the
    year of day [d]: its fuel is enough. *)
Lemma year_ref_spec f y d :
  0 <= d < 365 * Z.of_nat f ->
  let '(y', r) := year_ref f y d in 0 <= r < year_len y' /\ days_before_year y' + r = days_before_year y + d.
Proof.
  revert y d. induction f as [|f IH]; intros y d Hd; [lia|]. simpl.
  pose proof (year_len_range y).
  destruct (Z.ltb_spec d (year_len y)); [lia|].
  specialize (IH (y + 1) (d - year_len y) ltac:(lia)).
  destruct (year_ref f (y + 1) (d - year_len y)). rewrite days_before_year_succ in IH. lia.
Qed.

Lemma abs_year_ref d : 0 <= d -> abs_year d = year_ref (year_fuel d) 1 d.
Proof.
  intros Hd. pose proof (abs_year_spec d Hd) as Ha.
  pose proof (year_ref_spec (year_fuel d) 1 d ltac:(unfold year_fuel; lia_dm)) as Hr.
  destruct (abs_year d) as [y r], (year_ref _ 1 d) as [y' r'].
  replace (days_before_year 1) with 0 in Hr by reflexivity.
  destruct (year_unique y r y' r'); [lia|lia|lia|congruence].
Qed.

(** ** The month table, by reflection *)

(** A boolean property of every day of a leap or common year, checked
    by computation over the 366 or 365 days. *)
Lemma yday_check (f : bool -> Z -> bool) (leap : bool) :
  forallb (f leap) (map Z.of_nat (seq 0 (Z.to_nat (if leap then 366 else 365)))) = true ->
  forall d, 0 <= d < (if leap then 366 else 365) -> f leap d = true.
Proof.
  intros H d Hd. rewrite forallb_forall in H. apply H.
  apply in_map_iff. exists (Z.to_nat d). split; [lia|]. apply in_seq. destruct leap; lia.
Qed.

Definition month_agrees (leap : bool) (d : Z) : bool :=
  bool_decide (abs_month_day leap d = month_ref 12 leap 1 d).

Lemma abs_month_ref (leap : bool) d :
  0 <= d < (if leap then 366 else 365) -> abs_month_day leap d = month_ref 12 leap 1 d.
Proof.
  intros Hd.
  pose proof (yday_check month_agrees leap ltac:(destruct leap; vm_compute; reflexivity) d Hd) as H.
  unfold month_agrees in H. by apply bool_decide_eq_true in H.
Qed.

(** From year 1 on, [http_date] prints the reference calendar's date. *)
Lemma http_date_eq_ref t : 0 <= abs_days t -> http_date t = http_date_ref t.
Proof.
  intros Ht. unfold http_date, http_date_ref. pose proof (abs_year_spec _ Ht) as Hs.
  rewrite <- abs_year_ref by done. destruct (abs_year (abs_days t)) as [y r].
  rewrite abs_month_ref; [done|]. unfold year_len in Hs. destruct (is_leap y); lia.
Qed.

Lemma http_date_epoch : http_date 0 = "Thu, 01 Jan 1970 00:00:00 GMT".
Proof. vm_compute. reflexivity. Qed.
Lemma http_date_y2k : http_date 951782400000000000 = "Tue, 29 Feb 2000 00:00:00 GMT".
Proof. vm_compute. reflexivity. Qed.
Lemma http_date_min : http_date (- 2^63) = "Tue, 21 Sep 1677 00:12:43 GMT".
Proof. vm_compute. reflexivity. Qed.
