(* ===== verification/CookieDate.v ===== *)
(** * CookieDate: how a browser reads the [Expires] date back

    A browser reads the [Expires] attribute of a [Set-Cookie] line as
    a date (RFC 6265, section 5.1.1).  The dates Go writes are in the
    fixed IMF-fixdate form of [http.TimeFormat]; [parse_http_date]
    reads exactly that form: a three-letter weekday (not checked), the
    day, the month name, the four-digit year and the clock, in GMT,
    and gives the Unix time in seconds.  The day count is the inverse
    of [absDate]: [days_before_year] plus [days_before_month] plus the
    day of the month.

    The theorem [parse_http_date_roundtrip]: the date Go prints for a
    time [t] of years 1 to 9999 reads back as [t] in whole seconds
    ([t / 10^9]), the precision the format keeps.  Its parts: each
    field of [appendInt] reads back ([take_two_digits],
    [take_four_digits]); the month and day that [absDate] computes
    are a month of the year and a day of that month whose day count is
    the day of the year ([abs_month_fields], checked by reflection over
    every day of a leap and a common year); the year stays below
    10000 ([year_below_10000]). *)

From S2P Require Import Prelude GoFmt HttpDate.

(** ** Parsing *)

Fixpoint take_digits (n : nat) (s : string) (acc : Z) : option (Z * string) :=
  match n with
  | O => Some (acc, s)
  | S n' =>
      match s with
      | String c t => if is_digit c then take_digits n' t (acc * 10 + (ord c - 48)) else None
      | EmptyString => None
      end
  end.

Fixpoint expect (lit s : string) : option string :=
  match lit, s with
  | EmptyString, _ => Some s
  | String a l, String b t => if Ascii.eqb a b then expect l t else None
  | _, _ => None
  end.

Definition skip3 (s : string) : option string :=
  match s with String _ (String _ (String _ t)) => Some t | _ => None end.

Fixpoint take_name (names : list string) (i : Z) (s : string) : option (Z * string) :=
  match names with
  | [] => None
  | n :: ns => match expect n s with Some t => Some (i, t) | None => take_name ns (i + 1) s end
  end.

Definition days_before_month (leap : bool) (m : Z) : Z :=
  days_before (m - 1) + (if leap && (2 <? m) then 1 else 0).

Definition parse_http_date (s : string) : option Z :=
  t ← skip3 s; t ← expect ", " t;
  '(d, t) ← take_digits 2 t 0; t ← expect " " t;
  '(m, t) ← take_name short_month_names 1 t; t ← expect " " t;
  '(y, t) ← take_digits 4 t 0; t ← expect " " t;
  '(hh, t) ← take_digits 2 t 0; t ← expect ":" t;
  '(mi, t) ← take_digits 2 t 0; t ← expect ":" t;
  '(ss, t) ← take_digits 2 t 0; t ← expect " GMT" t;
  if String.eqb t "" then
    Some ((days_before_year y + days_before_month (is_leap y) m + d - 1 - unix_abs_days) * seconds_per_day
          + hh * 3600 + mi * 60 + ss)
  else None.

(** ** Lemmas *)

Lemma expect_app lit rest : expect lit (lit +:+ rest) = Some rest.
Proof. induction lit as [|a l IH]; [done|]. rewrite sapp_cons. simpl. by rewrite Ascii.eqb_refl. Qed.

Lemma append_int_2 x : 0 <= x < 100 -> append_int x 2 = String (digit (x / 10)) (String (digit (x mod 10)) "").
Proof.
  intros Hx. unfold append_int. destruct (Z.ltb_spec x 0); [lia|]. rewrite Z.abs_eq by lia.
  destruct (Z.ltb_spec x 100); [done|lia].
Qed.

Lemma append_int_4 x : 0 <= x < 10000 ->
  append_int x 4 = String (digit (x / 1000)) (String (digit (x / 100 mod 10))
                     (String (digit (x / 10 mod 10)) (String (digit (x mod 10)) ""))).
Proof.
  intros Hx. unfold append_int. destruct (Z.ltb_spec x 0); [lia|]. rewrite Z.abs_eq by lia.
  destruct (Z.ltb_spec x 10000); [done|lia].
Qed.

Lemma take_two_digits x acc rest :
  0 <= x < 100 -> take_digits 2 (append_int x 2 +:+ rest) acc = Some (acc * 100 + x, rest).
Proof.
  intros Hx. rewrite append_int_2 by done. rewrite !sapp_cons. simpl.
  rewrite !is_digit_digit, !digit_ord by lia_dm. f_equal. f_equal. lia_dm.
Qed.

Lemma take_four_digits x acc rest :
  0 <= x < 10000 -> take_digits 4 (append_int x 4 +:+ rest) acc = Some (acc * 10000 + x, rest).
Proof.
  intros Hx. rewrite append_int_4 by done. rewrite !sapp_cons. simpl.
  rewrite !is_digit_digit, !digit_ord by lia_dm. f_equal. f_equal. lia_dm.
Qed.

Lemma take_month_name m rest :
  1 <= m <= 12 ->
  take_name short_month_names 1 (default "" (short_month_names !! Z.to_nat (m - 1)) +:+ rest) = Some (m, rest).
Proof.
  intros Hm.
  assert (m = 1 \/ m = 2 \/ m = 3 \/ m = 4 \/ m = 5 \/ m = 6 \/ m = 7 \/ m = 8 \/ m = 9 \/
          m = 10 \/ m = 11 \/ m = 12) as Hc by lia.
  repeat destruct Hc as [-> | Hc]; subst; reflexivity.
Qed.

Lemma skip_day_name wd rest :
  0 <= wd < 7 -> skip3 (default "" (short_day_names !! Z.to_nat wd) +:+ rest) = Some rest.
Proof.
  intros Hw. assert (wd = 0 \/ wd = 1 \/ wd = 2 \/ wd = 3 \/ wd = 4 \/ wd = 5 \/ wd = 6) as Hc by lia.
  repeat destruct Hc as [-> | Hc]; subst; reflexivity.
Qed.

Definition month_fields_ok (leap : bool) (yd : Z) : bool :=
  let '(m, d) := abs_month_day leap yd in
  (1 <=? m) && (m <=? 12) && (1 <=? d) && (d <=? 31) && (days_before_month leap m + d - 1 =? yd).

Lemma abs_month_fields (leap : bool) yd :
  0 <= yd < (if leap then 366 else 365) ->
  let '(m, d) := abs_month_day leap yd in
  1 <= m <= 12 /\ 1 <= d <= 31 /\ days_before_month leap m + d - 1 = yd.
Proof.
  intros Hd. pose proof (yday_check month_fields_ok leap ltac:(destruct leap; vm_compute; reflexivity) yd Hd) as H.
  unfold month_fields_ok in H. destruct (abs_month_day leap yd) as [m d].
  repeat match goal with H : (_ && _) = true |- _ => apply andb_prop in H as [? ?] end.
  rewrite Z.eqb_eq in *. rewrite !Z.leb_le in *. lia.
Qed.

Ltac parse_step H := rewrite H by lia; cbn [mbind option_bind].

Lemma parse_format wd y m d hh mi ss :
  0 <= wd < 7 -> 0 <= y < 10000 -> 1 <= m <= 12 -> 0 <= d < 100 ->
  0 <= hh < 100 -> 0 <= mi < 100 -> 0 <= ss < 100 ->
  parse_http_date (format_time_fields wd y m d hh mi ss) =
  Some ((days_before_year y + days_before_month (is_leap y) m + d - 1 - unix_abs_days) * seconds_per_day
        + hh * 3600 + mi * 60 + ss).
Proof.
  intros. unfold parse_http_date, format_time_fields.
  parse_step skip_day_name.
  parse_step expect_app. parse_step take_two_digits.
  parse_step expect_app. parse_step take_month_name.
  parse_step expect_app. parse_step take_four_digits.
  parse_step expect_app. parse_step take_two_digits.
  parse_step expect_app. parse_step take_two_digits.
  parse_step expect_app. parse_step take_two_digits.
  rewrite <- (sapp_nil_r " GMT"). parse_step expect_app. simpl. f_equal; lia.
Qed.

Lemma year_below_10000 d : 0 <= d < 3652059 -> (abs_year d).1 < 10000.
Proof.
  intros Hd. pose proof (abs_year_spec d (proj1 Hd)) as Hs. destruct (abs_year d) as [y r]. simpl.
  destruct (Z.lt_ge_cases y 10000) as [|Hy]; [done|].
  pose proof (days_before_year_mono 10000 y Hy). assert (days_before_year 10000 = 3652059) by reflexivity.
  lia.
Qed.

Lemma parse_http_date_roundtrip t :
  0 <= abs_days t < 3652059 -> parse_http_date (http_date t) = Some (t / 1000000000).
Proof.
  intros Ht. pose proof (year_below_10000 _ Ht) as Hy.
  unfold http_date. pose proof (abs_year_spec _ (proj1 Ht)) as Hs.
  destruct (abs_year (abs_days t)) as [y yd]. simpl in Hy.
  pose proof (abs_month_fields (is_leap y) yd ltac:(unfold year_len in Hs; destruct (is_leap y); lia)) as Hm.
  destruct (abs_month_day (is_leap y) yd) as [m d].
  assert (0 <= day_second t < seconds_per_day) by (unfold day_second, seconds_per_day; lia_dm).
  rewrite parse_format; unfold weekday, seconds_per_day in *; try lia_dm.
  f_equal. unfold abs_days, day_second, unix_abs_days, seconds_per_day in *. lia_dm.
Qed.
