(* ===== verification/Http.v ===== *)
(** * Http: the parts of net/http the handlers use

    - [request]: the method, the path, the parsed query ([r.URL.Query()])
      and the [Cookie] header lines ([r.Header["Cookie"]]).
    - [read_cookies] and [request_cookie]: net/http's [readCookies] and
      [Request.Cookie] (textproto trimming, [strings.Cut] on [;] and
      [=], the token test on names, [parseCookieValue] with the quote
      stripping and the byte test on values).
    - [response]: status, header map, the cookies added by
      [http.SetCookie] (kept as records; their [Set-Cookie] text is
      [SetCookie.cookie_string]), and the body; [http_error] and [http_redirect] are
      [http.Error] and [http.Redirect].

    The theorems: a cookie written by [http.SetCookie] with a value of
    cookie-safe bytes is read back by [Request.Cookie] from the header
    line a browser sends ([request_cookie_single]); the first cookie
    of the requested name wins. *)

From S2P Require Import Prelude.

(** ** Requests *)

Record request := mk_request {
  rq_method : string;
  rq_path : string;
  rq_query : list (string * string);
  rq_cookie_lines : list string;
}.

(** [url.Values.Get]: the first value of the key, or [""]. *)
Definition query_get (k : string) (q : list (string * string)) : string :=
  default "" (assoc_first k q).

(** ** Cookies *)

Record cookie := mk_cookie {
  ck_name : string;
  ck_value : string;
  ck_expires : Z;  (* Unix nanoseconds *)
}.

(** [textproto.TrimString]: drop ASCII space, tab, CR and LF at both ends. *)
Definition is_ascii_space (c : ascii) : bool :=
  (ord c =? 32) || (ord c =? 9) || (ord c =? 10) || (ord c =? 13).

Fixpoint trim_left (s : string) : string :=
  match s with
  | String c s' => if is_ascii_space c then trim_left s' else s
  | EmptyString => EmptyString
  end.

(** Dropping the trailing spaces: a byte is kept unless it is a space
    and everything after it is dropped too. *)
Fixpoint trim_right (s : string) : string :=
  match s with
  | EmptyString => EmptyString
  | String c s' =>
      let r := trim_right s' in
      if is_ascii_space c && String.eqb r "" then "" else String c r
  end.

Definition trim_string (s : string) : string := trim_right (trim_left s).

(** [strings.Cut(s, sep)] for a one-byte separator: before, after, found. *)
Fixpoint cut (sep : ascii) (s : string) : string * string * bool :=
  match s with
  | EmptyString => ("", "", false)
  | String c s' =>
      if decide (c = sep) then ("", s', true)
      else let '(b, a, f) := cut sep s' in (String c b, a, f)
  end.

(** httpguts' token characters (RFC 7230 tchar). *)
Definition is_token_byte (c : ascii) : bool :=
  let b := ord c in
  ((48 <=? b) && (b <=? 57)) || ((65 <=? b) && (b <=? 90)) ||
  ((97 <=? b) && (b <=? 122)) ||
  bool_decide (c ∈ String.list_ascii_of_string "!#$%&'*+-.^_`|~").

(** [isCookieNameValid]: non-empty and every byte a token byte. *)
Definition cookie_name_valid (n : string) : bool :=
  negb (String.eqb n "") && sforall is_token_byte n.

(** [validCookieValueByte]. *)
Definition valid_cookie_value_byte (c : ascii) : bool :=
  let b := ord c in
  (32 <=? b) && (b <? 127) && negb (b =? 34) && negb (b =? 59) && negb (b =? 92).

Definition last_byte (s : string) : option ascii :=
  String.get (String.length s - 1) s.

(** [parseCookieValue(raw, true)]: strip one pair of surrounding double
    quotes, then reject any invalid byte. *)
Definition parse_cookie_value (raw : string) : option string :=
  let raw' :=
    match raw with
    | String c (String _ _) =>
        if bool_decide (c = dquote) && bool_decide (last_byte raw = Some dquote)
        then String.substring 1 (String.length raw - 2) raw else raw
    | _ => raw
    end in
  if sforall valid_cookie_value_byte raw' then Some raw' else None.

(** The inner loop of [readCookies] over one header line:
    [part, line, _ = strings.Cut(line, ";")], trim, skip empty parts,
    split the part at ["="], check the name and the filter, parse the
    value.  The fuel is the length of the line: each round consumes at
    least one byte. *)
Fixpoint read_cookie_parts (fuel : nat) (filter line : string) : list (string * string) :=
  match fuel with
  | O => []
  | S f =>
      match line with
      | EmptyString => []
      | _ =>
          let '(part, rest, _) := cut ";" line in
          let part := trim_string part in
          let here :=
            if String.eqb part "" then []
            else
              let '(name, val, _) := cut "=" part in
              if negb (cookie_name_valid name) then []
              else if negb (String.eqb filter "") && negb (String.eqb filter name) then []
              else match parse_cookie_value val with
                   | Some v => [(name, v)]
                   | None => []
                   end in
          here ++ read_cookie_parts f filter rest
      end
  end.

(** [readCookies(r.Header, filter)]: every line, trimmed, in order. *)
Definition read_cookies (lines : list string) (filter : string) : list (string * string) :=
  concat (map (fun l => let l := trim_string l in
                        read_cookie_parts (String.length l) filter l) lines).

(** [Request.Cookie(name)]: the first cookie of that name, or
    [ErrNoCookie] ([None]). *)
Definition request_cookie (r : request) (name : string) : option string :=
  if String.eqb name "" then None
  else match read_cookies (rq_cookie_lines r) name with
       | (_, v) :: _ => Some v
       | [] => None
       end.

(** ** Responses *)

Record response := mk_response {
  rs_status : Z;
  rs_header : gmap string (list string);
  rs_cookies : list cookie;
  rs_body : string;
}.

Definition empty_response : response := mk_response 200 ∅ [] "".

(** [w.Header().Set(k, v)]. *)
Definition header_set (k v : string) (w : response) : response :=
  mk_response (rs_status w) (<[k := [v]]> (rs_header w)) (rs_cookies w) (rs_body w).

Definition header_del (k : string) (w : response) : response :=
  mk_response (rs_status w) (delete k (rs_header w)) (rs_cookies w) (rs_body w).

(** [w.WriteHeader(code)] (the first call wins; the handlers call it at
    most once, before writing the body). *)
Definition write_header (code : Z) (w : response) : response :=
  mk_response code (rs_header w) (rs_cookies w) (rs_body w).

(** [fmt.Fprint(w, s)]: append to the body. *)
Definition write_body (s : string) (w : response) : response :=
  mk_response (rs_status w) (rs_header w) (rs_cookies w) (rs_body w +:+ s).

(** [http.SetCookie(w, c)]: add a [Set-Cookie] header. *)
Definition set_cookie (c : cookie) (w : response) : response :=
  mk_response (rs_status w) (rs_header w) (rs_cookies w ++ [c]) (rs_body w).

Definition newline : string := String (chr 10) "".

Definition status_text (code : Z) : string :=
  if code =? 200 then "OK"
  else if code =? 303 then "See Other"
  else if code =? 307 then "Temporary Redirect"
  else if code =? 400 then "Bad Request"
  else if code =? 500 then "Internal Server Error"
  else "".

(** [http.Error(w, msg, code)]. *)
Definition http_error (msg : string) (code : Z) (w : response) : response :=
  write_body (msg +:+ newline)
    (write_header code
       (header_set "X-Content-Type-Options" "nosniff"
          (header_set "Content-Type" "text/plain; charset=utf-8"
             (header_del "Content-Length" w)))).

(** [htmlEscape] of net/http (the [htmlReplacer]). *)
Fixpoint html_escape (s : string) : string :=
  match s with
  | EmptyString => ""
  | String c s' =>
      let e :=
        if decide (c = "&"%char) then "&amp;"
        else if decide (c = "'"%char) then "&#39;"
        else if decide (c = "<"%char) then "&lt;"
        else if decide (c = ">"%char) then "&gt;"
        else if decide (c = dquote) then "&#34;"
        else String c "" in
      e +:+ html_escape s'
  end.

(** [http.Redirect(w, r, url, code)] for a URL that is absolute or an
    already clean absolute path (the two kinds the program passes:
    ["/"] and the consent URL), on which the relative-path resolution
    and [path.Clean] of net/http leave the URL unchanged. *)
Definition http_redirect (r : request) (url : string) (code : Z) (w : response) : response :=
  let had_ct := bool_decide (is_Some (rs_header w !! "Content-Type")) in
  let w := header_set "Location" url w in
  let is_get := String.eqb (rq_method r) "GET" in
  let w := if negb had_ct && (is_get || String.eqb (rq_method r) "HEAD")
           then header_set "Content-Type" "text/html; charset=utf-8" w else w in
  let w := write_header code w in
  if negb had_ct && is_get then
    write_body ("<a href=" +:+ dq +:+ html_escape url +:+ dq +:+ ">" +:+ status_text code +:+
                "</a>." +:+ newline +:+ newline) w
  else w.

(** ** Lemmas *)

Definition not_space (c : ascii) : bool := negb (is_ascii_space c).

Lemma trim_left_id s : sforall not_space s = true -> trim_left s = s.
Proof.
  destruct s as [|c s]; [done|]. simpl. unfold not_space.
  destruct (is_ascii_space c); done.
Qed.

Lemma trim_right_id s : sforall not_space s = true -> trim_right s = s.
Proof.
  induction s as [|c s IH]; [done|]. simpl. unfold not_space at 1.
  destruct (is_ascii_space c); [done|]. simpl. intros H. by rewrite IH.
Qed.

Lemma trim_string_id s : sforall not_space s = true -> trim_string s = s.
Proof. intros H. unfold trim_string. by rewrite trim_left_id, trim_right_id. Qed.

Lemma cut_none sep s : sforall (fun c => bool_decide (c <> sep)) s = true -> cut sep s = (s, "", false).
Proof.
  induction s as [|c s IH]; [done|]. simpl. intros [Hc Hs]%andb_prop.
  case_decide; [subst; by rewrite bool_decide_false in Hc|]. by rewrite IH.
Qed.

Lemma cut_first sep a b :
  sforall (fun c => bool_decide (c <> sep)) a = true -> cut sep (a +:+ String sep b) = (a, b, true).
Proof.
  induction a as [|c a IH]; simpl; [by rewrite decide_True|].
  intros [Hc Ha]%andb_prop. case_decide; [subst; by rewrite bool_decide_false in Hc|].
  by rewrite IH.
Qed.

Lemma token_not_sep c : is_token_byte c = true -> bool_decide (c <> "="%char) = true /\
  bool_decide (c <> ";"%char) = true /\ not_space c = true.
Proof. all_bytes c; vm_compute; intros H; try discriminate H; repeat split. Qed.

Lemma value_byte_not_sep c : valid_cookie_value_byte c = true ->
  bool_decide (c <> ";"%char) = true /\ c <> dquote.
Proof. all_bytes c; vm_compute; intros H; try discriminate H; split; congruence. Qed.

Lemma parse_cookie_value_valid v :
  sforall valid_cookie_value_byte v = true -> parse_cookie_value v = Some v.
Proof.
  intros Hv. unfold parse_cookie_value.
  assert (Hraw : match v with
                 | String c (String _ _) =>
                     if bool_decide (c = dquote) && bool_decide (last_byte v = Some dquote)
                     then String.substring 1 (String.length v - 2) v else v
                 | _ => v end = v).
  { destruct v as [|c [|c' r]]; try done. simpl in Hv.
    destruct (andb_prop _ _ Hv) as [Hc _].
    destruct (value_byte_not_sep c Hc) as [_ Hq]. by rewrite bool_decide_false. }
  rewrite Hraw, Hv. done.
Qed.

Lemma read_cookie_parts_one f filter line name val :
  line <> "" -> cut ";" line = (line, "", false) -> trim_string line = line ->
  cut "=" line = (name, val, true) ->
  read_cookie_parts (S f) filter line =
  if negb (cookie_name_valid name) then []
  else if negb (String.eqb filter "") && negb (String.eqb filter name) then []
  else match parse_cookie_value val with Some v => [(name, v)] | None => [] end.
Proof.
  intros Hne H1 H2 H3. destruct line as [|c l]; [done|].
  cbn [read_cookie_parts]. rewrite H1, H2.
  destruct (String.eqb (String c l) "") eqn:E; [by apply String.eqb_eq in E|].
  rewrite H3. destruct f; simpl; rewrite ?app_nil_r; done.
Qed.

(** The header line a browser sends back for a single cookie. *)
Definition cookie_line (n v : string) : string := n +:+ "=" +:+ v.

Lemma request_cookie_single m p q n v :
  cookie_name_valid n = true ->
  sforall valid_cookie_value_byte v = true ->
  sforall not_space v = true ->
  request_cookie (mk_request m p q [cookie_line n v]) n = Some v.
Proof.
  unfold cookie_name_valid. intros [Hn Htok]%andb_prop Hv Hsp.
  apply negb_true_iff in Hn. unfold request_cookie. rewrite Hn. simpl.
  assert (Hline : sforall not_space (cookie_line n v) = true /\
                  sforall (fun c => bool_decide (c <> ";"%char)) (cookie_line n v) = true).
  { unfold cookie_line. rewrite !sforall_app. simpl.
    rewrite (sforall_impl _ _ n (fun c H => proj2 (proj2 (token_not_sep c H))) Htok).
    rewrite (sforall_impl _ _ n (fun c H => proj1 (proj2 (token_not_sep c H))) Htok).
    rewrite (sforall_impl _ _ v (fun c H => proj1 (value_byte_not_sep c H)) Hv), Hsp. done. }
  destruct Hline as [Hl1 Hl2].
  unfold read_cookies. simpl. rewrite app_nil_r, trim_string_id by done.
  assert (Hne : cookie_line n v <> "").
  { unfold cookie_line. destruct n; [done|]. by rewrite sapp_cons. }
  destruct (String.length (cookie_line n v)) as [|f] eqn:Hlen.
  { destruct (cookie_line n v); done. }
  rewrite (read_cookie_parts_one f n _ n v Hne (cut_none _ _ Hl2) (trim_string_id _ Hl1)).
  2:{ unfold cookie_line. apply cut_first.
      exact (sforall_impl _ _ n (fun c H => proj1 (token_not_sep c H)) Htok). }
  unfold cookie_name_valid. rewrite Hn, Htok, String.eqb_refl. simpl.
  by rewrite parse_cookie_value_valid.
Qed.

