(* ===== verification/Codec.v ===== *)
(** * Codec: the [User] struct and what the handlers need from encoding/json

    [User] is the struct of lines 20-25, with the JSON names given by its
    tags ([email], [name], [picture]).  The handlers use encoding/json in
    four places: [json.NewDecoder(resp.Body).Decode(&user)] on Google's
    answer (line 118), [json.Marshal(user)] for the value stored in
    Redis (line 125), [json.Unmarshal([]byte(val), &user)] on the value
    read back (line 169) and [json.MarshalIndent(user, "", "  ")] for
    the page (line 87).

    [UserCodec] collects the four operations; [UserCodecLaws] states the
    two facts the session lifecycle rests on: what the decoder accepts
    is a valid user ([decode_valid]), and a valid user survives a
    [Marshal] followed by an [Unmarshal] ([unmarshal_marshal]).  The JSON
    model of encoding/json is the instance of this class. *)

From S2P Require Import Prelude.

Record User := mk_user {
  Email : string;
  Name : string;
  Pic : string;
}.

(** [User{}], the zero value. *)
Definition zero_user : User := mk_user "" "" "".

#[export] Instance User_eq_dec : EqDecision User.
Proof. solve_decision. Defined.

Class UserCodec := {
  (** [json.Marshal(user)]; its error is ignored by the code (line 125). *)
  user_marshal : User -> string;
  (** [json.MarshalIndent(user, "", "  ")]; error ignored (line 87). *)
  user_marshal_indent : User -> string;
  (** [json.Unmarshal(data, &user)] into a fresh [var user User]. *)
  user_unmarshal : string -> option User;
  (** [json.NewDecoder(body).Decode(&user)] into a fresh [var user User]. *)
  user_decode : string -> option User;
  (** The users the encoder reproduces exactly. *)
  user_valid : User -> Prop;
}.

Class UserCodecLaws `{UserCodec} := {
  unmarshal_marshal u : user_valid u -> user_unmarshal (user_marshal u) = Some u;
  decode_valid body u : user_decode body = Some u -> user_valid u;
}.
