(* ===== verification/JsonUser.v ===== *)
(** * JsonUser: encoding/json on the [User] struct, the codec of the handlers

    - [marshal_user]: [json.Marshal(user)], the [structEncoder] of
      encode.go on the three fields of [User] (lines 21-25) with their
      tags [email], [name], [picture]: an opening brace, then per field
      the separator, the quoted name and a colon, the string encoder; a
      closing brace.
    - [marshal_indent_user]: [json.MarshalIndent(user, "", "  ")], the
      compact encoding passed through [appendIndent] (indent.go).
    - [unmarshal_user], [decode_user]: [json.Unmarshal] and
      [Decoder.Decode] into a fresh [var user User]: the scanner's
      grammar ([JsonDecode]), then [decodeState.object] and
      [literalStore] (decode.go) for a struct of three strings.

    Into a [User], a JSON [null] leaves the zero value and is no error;
    a string sets the field whose name matches the key (exactly, or
    else up to case folding, [foldName] of fold.go); [null] leaves a
    field as it was; a bool, number, array or object where a string
    field is expected is an [UnmarshalTypeError], which Go records and
    returns at the end (the answer is an error, whatever was assigned);
    unknown keys are skipped, and of two keys for the same field the
    last one wins.

    The instance [json_codec] is the [UserCodec] the handlers use, and
    [json_codec_laws] discharges the laws of the interface: the decoder
    only produces valid UTF-8 ([decode_user_fields_valid]), and [Unmarshal]
    reads back what [Marshal] wrote for valid UTF-8 fields
    ([unmarshal_marshal_valid]). *)

From S2P Require Import Prelude Utf8 JsonString JsonDecode Codec.

(** ** The fields of [User] *)

Inductive user_field := FEmail | FName | FPic.

#[export] Instance user_field_eq_dec : EqDecision user_field.
Proof. solve_decision. Defined.

(** The JSON names of the fields, from their tags. *)
Definition field_tag (f : user_field) : string :=
  match f with FEmail => "email" | FName => "name" | FPic => "picture" end.

Definition field_get (f : user_field) (u : User) : string :=
  match f with FEmail => Email u | FName => Name u | FPic => Pic u end.

Definition set_field (f : user_field) (v : string) (u : User) : User :=
  match f with
  | FEmail => mk_user v (Name u) (Pic u)
  | FName => mk_user (Email u) v (Pic u)
  | FPic => mk_user (Email u) (Name u) v
  end.

(** The fields in declaration order ([typeFields] keeps it). *)
Definition user_fields : list user_field := [FEmail; FName; FPic].

(** ** Encoding *)

(** [f.nameEscHTML]: the quoted name and the colon. *)
Definition field_name_esc (f : user_field) : string := append_string (field_tag f) +:+ ":".

(** The loop of [structEncoder.encode]: [next] is the byte written before
    the next field. *)
Fixpoint encode_fields (next : ascii) (fs : list user_field) (u : User) : string :=
  match fs with
  | [] => if bool_decide (next = "{"%char) then "{}" else "}"
  | f :: fs' =>
      String next (field_name_esc f +:+ append_string (field_get f u)) +:+
      encode_fields "," fs' u
  end.

(** [json.Marshal(user)]. *)
Definition marshal_user (u : User) : string := encode_fields "{" user_fields u.

(** [appendNewline]: a newline, the prefix, and the indent [depth] times. *)
Fixpoint repeat_string (n : nat) (s : string) : string :=
  match n with O => "" | S n' => s +:+ repeat_string n' s end.

Definition newline_indent (prefix indent : string) (depth : nat) : string :=
  String (chr 10) (prefix +:+ repeat_string depth indent).

Definition is_close (c : ascii) : bool := (ord c =? b_rbrace) || (ord c =? b_rbracket).
Definition is_open (c : ascii) : bool := (ord c =? b_lbrace) || (ord c =? b_lbracket).

(** The loop of [appendIndent] over valid JSON: [in_str] and [esc] are
    the scanner's string states, [need] is [needIndent].  Inside a
    string every byte is [scanContinue] and copied; outside, white space
    is skipped, and punctuation gets its newlines. *)
Fixpoint append_indent_go (prefix indent : string) (in_str esc need : bool) (depth : nat)
  (src : string) : string :=
  match src with
  | EmptyString => ""
  | String c t =>
      if in_str then
        if esc then String c (append_indent_go prefix indent true false need depth t)
        else if ord c =? b_backslash then String c (append_indent_go prefix indent true true need depth t)
        else if ord c =? b_quote then String c (append_indent_go prefix indent false false need depth t)
        else String c (append_indent_go prefix indent true false need depth t)
      else if is_space c then append_indent_go prefix indent false false need depth t
      else
        let '(pre, need1, depth1) :=
          if need && negb (is_close c) then (newline_indent prefix indent (S depth), false, S depth)
          else ("", need, depth) in
        pre +:+
        (if is_open c then String c (append_indent_go prefix indent false false true depth1 t)
         else if ord c =? b_comma then
           String c (newline_indent prefix indent depth1 +:+
                     append_indent_go prefix indent false false need1 depth1 t)
         else if ord c =? b_colon then
           String c (String " " (append_indent_go prefix indent false false need1 depth1 t))
         else if is_close c then
           if need1 then String c (append_indent_go prefix indent false false false depth1 t)
           else newline_indent prefix indent (pred depth1) +:+
                String c (append_indent_go prefix indent false false false (pred depth1) t)
         else if ord c =? b_quote then String c (append_indent_go prefix indent true false need1 depth1 t)
         else String c (append_indent_go prefix indent false false need1 depth1 t))
  end.

Definition append_indent (src prefix indent : string) : string :=
  append_indent_go prefix indent false false false 0 src.

(** [json.MarshalIndent(user, "", "  ")]. *)
Definition marshal_indent_user (u : User) : string := append_indent (marshal_user u) "" "  ".

(** ** Decoding *)

(** [foldRune] on the runes whose fold set holds an ASCII letter: the
    Kelvin sign folds to [K] and the long s to [S]; every other
    non-ASCII rune is kept, and folds to a non-ASCII rune in Go as
    well, so no comparison with an ASCII name changes. *)
Definition fold_rune (r : Z) : Z :=
  if r =? 0x212A then 0x4B else if r =? 0x17F then 0x53 else r.

(** The body of [appendFoldedName]: an ASCII lower-case letter is
    upper-cased, a multi-byte rune folded and re-encoded. *)
Definition fold_step (s : string) : option (string * nat) :=
  match s with
  | EmptyString => None
  | String c _ =>
      let b := ord c in
      if b <? rune_self then
        Some (String (if (97 <=? b) && (b <=? 122) then chr (b - 32) else c) "", 1%nat)
      else let '(r, n) := decode_rune s in Some (encode_rune (fold_rune r), n)
  end.

(** [foldName]. *)
Definition fold_name (k : string) : string := default "" (scan fold_step k).

(** The field of a key: [fields.byExactName], then
    [fields.byFoldedName] (the first field of a folded name). *)
Definition field_of_key (key : string) : option user_field :=
  match list_find (fun f => field_tag f = key) user_fields with
  | Some (_, f) => Some f
  | None =>
      match list_find (fun f => fold_name (field_tag f) = fold_name key) user_fields with
      | Some (_, f) => Some f
      | None => None
      end
  end.

(** [literalStore] into a string field holding [cur]: a string sets it,
    [null] keeps it, anything else is an [UnmarshalTypeError]. *)
Definition literal_store (v : jvalue) (cur : string) : option string :=
  match v with
  | JString raw => unquote_bytes (dq +:+ raw +:+ dq)
  | JNull => Some cur
  | _ => None
  end.

(** [decodeState.object] into a [User]: the members in order. *)
Fixpoint object_into_user (ms : list (string * jvalue)) (u : User) : option User :=
  match ms with
  | [] => Some u
  | (k, v) :: ms' =>
      match unquote_bytes (dq +:+ k +:+ dq) with
      | None => None
      | Some key =>
          match field_of_key key with
          | Some f => literal_store v (field_get f u) ≫= fun x => object_into_user ms' (set_field f x u)
          | None => object_into_user ms' u
          end
      end
  end.

(** [decodeState.value] into a fresh [User]: an object fills it, [null]
    leaves it zero, any other value is a type error. *)
Definition user_of_json (v : jvalue) : option User :=
  match v with
  | JObject ms => object_into_user ms zero_user
  | JNull => Some zero_user
  | _ => None
  end.

(** [json.Unmarshal(data, &user)]. *)
Definition unmarshal_user (s : string) : option User := unmarshal_value s ≫= user_of_json.

(** [json.NewDecoder(body).Decode(&user)]. *)
Definition decode_user (s : string) : option User := decode_value s ≫= user_of_json.

(** No key of the object names a field of [User]. *)
Definition no_field_keys (ms : list (string * jvalue)) : bool :=
  forallb (fun kv => match unquote_bytes (dq +:+ kv.1 +:+ dq) with
                     | Some key => bool_decide (field_of_key key = None)
                     | None => false
                     end) ms.

(** The body of Google's answer to a request without valid credentials. *)
Definition google_error_body : string :=
  "{" +:+ dq +:+ "error" +:+ dq +:+ ":{" +:+ dq +:+ "code" +:+ dq +:+ ":401," +:+
  dq +:+ "status" +:+ dq +:+ ":" +:+ dq +:+ "UNAUTHENTICATED" +:+ dq +:+ "}}".

(** The users whose encoding the decoder reads back: fields of valid
    UTF-8 (an invalid byte is encoded as U+FFFD). *)
Definition user_valid_b (u : User) : bool :=
  utf8_valid (Email u) && utf8_valid (Name u) && utf8_valid (Pic u).

#[export] Instance json_codec : UserCodec := {|
  user_marshal := marshal_user;
  user_marshal_indent := marshal_indent_user;
  user_unmarshal := unmarshal_user;
  user_decode := decode_user;
  user_valid u := user_valid_b u = true;
|}.


(** ** Parsing what the encoder writes *)

Lemma ord_dquote : ord dquote = b_quote.
Proof. reflexivity. Qed.

Lemma append_string_assoc s r : append_string s +:+ r = String dquote (escape_string s +:+ dq +:+ r).
Proof. unfold append_string, dq. by autorewrite with slogin_rw. Qed.

Lemma next_byte_string s r : next_byte (append_string s +:+ r) = Some (dquote, escape_string s +:+ dq +:+ r).
Proof. rewrite append_string_assoc. reflexivity. Qed.

Lemma parse_value_at_string f d s r :
  parse_value_at (S f) d dquote (escape_string s +:+ dq +:+ r) = Parsed (JString (escape_string s)) r.
Proof. cbn [parse_value_at]. rewrite scan_string_escape. reflexivity. Qed.

Lemma parse_members_string f d acc k v c r :
  is_space c = false ->
  parse_members (S (S f)) d acc (append_string k +:+ ":" +:+ append_string v +:+ String c r) =
    if ord c =? b_comma then
      parse_members (S f) d (acc ++ [(escape_string k, JString (escape_string v))]) r
    else if ord c =? b_rbrace then
      Parsed (JObject (acc ++ [(escape_string k, JString (escape_string v))])) r
    else Invalid.
Proof.
  intros Hc. cbn [parse_members]. rewrite next_byte_string, ord_dquote, Z.eqb_refl.
  rewrite scan_string_escape.
  change (next_byte (":" +:+ append_string v +:+ String c r)) with
    (Some (":"%char, append_string v +:+ String c r)).
  change (ord ":"%char =? b_colon) with true. cbv iota beta.
  rewrite next_byte_string, parse_value_at_string.
  unfold next_byte. cbn [skip_space]. rewrite Hc. done.
Qed.

Lemma marshal_user_eq u :
  marshal_user u =
    String "{" (append_string "email" +:+ ":" +:+ append_string (Email u) +:+
    String "," (append_string "name" +:+ ":" +:+ append_string (Name u) +:+
    String "," (append_string "picture" +:+ ":" +:+ append_string (Pic u) +:+ "}"))).
Proof. unfold marshal_user, field_name_esc. cbn [encode_fields user_fields field_get field_tag].
  by autorewrite with slogin_rw. Qed.

Lemma next_byte_cons c t : is_space c = false -> next_byte (String c t) = Some (c, t).
Proof. intros H. unfold next_byte. cbn [skip_space]. by rewrite H. Qed.

Lemma parse_json_marshal u :
  parse_json (marshal_user u) =
    Parsed (JObject [("email", JString (escape_string (Email u)));
                     ("name", JString (escape_string (Name u)));
                     ("picture", JString (escape_string (Pic u)))]) "".
Proof.
  unfold parse_json.
  assert (Hn : (4 <= 2 * String.length (marshal_user u))%nat)
    by (rewrite marshal_user_eq; cbn [String.length]; rewrite append_string_assoc; cbn [String.length]; lia).
  destruct (2 * _)%nat as [|[|[|[|m]]]]; try lia.
  rewrite marshal_user_eq. unfold parse_value. rewrite next_byte_cons by reflexivity.
  cbn [parse_value_at]. change (ord "{" =? b_lbrace) with true.
  change (max_nesting_depth <=? 0) with false. cbv iota beta.
  rewrite next_byte_string, ord_dquote. change (b_quote =? b_rbrace) with false. cbv iota beta.
  rewrite parse_members_string by reflexivity. change (ord "," =? b_comma) with true. cbv iota beta.
  rewrite parse_members_string by reflexivity. change (ord "," =? b_comma) with true. cbv iota beta.
  rewrite parse_members_string by reflexivity. change (ord "}" =? b_comma) with false.
  change (ord "}" =? b_rbrace) with true. cbv iota beta.
  reflexivity.
Qed.

Lemma unmarshal_marshal_valid u :
  user_valid_b u = true -> unmarshal_user (marshal_user u) = Some u.
Proof.
  unfold user_valid_b. intros [[He Hn]%andb_prop Hp]%andb_prop.
  unfold unmarshal_user, unmarshal_value. rewrite parse_json_marshal. cbn -[unquote_bytes].
  change (dq +:+ "email" +:+ dq) with (append_string "email").
  change (dq +:+ "name" +:+ dq) with (append_string "name").
  change (dq +:+ "picture" +:+ dq) with (append_string "picture").
  rewrite !unquote_escaped by reflexivity. cbn -[unquote_bytes].
  change (dq +:+ escape_string (Email u) +:+ dq) with (append_string (Email u)).
  rewrite unquote_escaped by done. cbn -[unquote_bytes].
  change (dq +:+ escape_string (Name u) +:+ dq) with (append_string (Name u)).
  rewrite unquote_escaped by done. cbn -[unquote_bytes].
  change (dq +:+ escape_string (Pic u) +:+ dq) with (append_string (Pic u)).
  rewrite unquote_escaped by done. by destruct u.
Qed.

Lemma set_field_valid f x u :
  utf8_valid x = true -> user_valid_b u = true -> user_valid_b (set_field f x u) = true.
Proof.
  unfold user_valid_b. intros Hx Hu. apply andb_prop in Hu as [Hu Hp]. apply andb_prop in Hu as [He Hn].
  destruct f; simpl; rewrite ?Hx, ?He, ?Hn, ?Hp; done.
Qed.

Lemma field_get_valid f u : user_valid_b u = true -> utf8_valid (field_get f u) = true.
Proof.
  unfold user_valid_b. intros Hu. apply andb_prop in Hu as [Hu Hp]. apply andb_prop in Hu as [He Hn].
  by destruct f.
Qed.

Lemma object_into_user_valid ms u u' :
  user_valid_b u = true -> object_into_user ms u = Some u' -> user_valid_b u' = true.
Proof.
  revert u. induction ms as [|[k v] ms IH]; intros u Hu; cbn [object_into_user]; [by intros [= <-]|].
  destruct (unquote_bytes (dq +:+ k +:+ dq)) as [key|]; [|done].
  destruct (field_of_key key) as [f|]; [|by apply IH].
  destruct (literal_store v (field_get f u)) as [x|] eqn:E; [|done]. cbn [mbind option_bind].
  apply IH. apply set_field_valid; [|done].
  destruct v; simpl in E; try done.
  - injection E as <-. by apply field_get_valid.
  - by apply unquote_output_valid in E.
Qed.

Lemma user_of_json_valid v u : user_of_json v = Some u -> user_valid_b u = true.
Proof.
  destruct v; simpl; try done.
  - by intros [= <-].
  - by apply object_into_user_valid.
Qed.

Lemma decode_user_fields_valid body u : decode_user body = Some u -> user_valid_b u = true.
Proof.
  unfold decode_user. destruct (decode_value body); [|done]. apply user_of_json_valid.
Qed.

Lemma unmarshal_user_valid s u : unmarshal_user s = Some u -> user_valid_b u = true.
Proof.
  unfold unmarshal_user. destruct (unmarshal_value s); [|done]. apply user_of_json_valid.
Qed.

#[export] Instance json_codec_laws : UserCodecLaws.
Proof.
  split.
  - intros u Hu. by apply unmarshal_marshal_valid.
  - intros body u. apply decode_user_fields_valid.
Qed.

(** ** What the indented encoding is made of *)

Section Indent.
Variable p : ascii -> bool.
Variables prefix indent : string.
Hypothesis p_newline : p (chr 10) = true.
Hypothesis p_space : p " "%char = true.
Hypothesis p_prefix : sforall p prefix = true.
Hypothesis p_indent : sforall p indent = true.

Lemma repeat_string_sforall n : sforall p (repeat_string n indent) = true.
Proof. induction n; simpl; [done|]. by rewrite sforall_app, p_indent, IHn. Qed.

Lemma newline_indent_sforall d : sforall p (newline_indent prefix indent d) = true.
Proof. unfold newline_indent. simpl. by rewrite p_newline, sforall_app, p_prefix, repeat_string_sforall. Qed.

(** [appendIndent] adds only newlines, the prefix, the indent and spaces
    to the bytes it copies. *)
Lemma append_indent_go_sforall src i e need d :
  sforall p src = true -> sforall p (append_indent_go prefix indent i e need d src) = true.
Proof.
  revert i e need d. induction src as [|c t IH]; intros i e need d; [done|].
  cbn [sforall]. intros [Hc Ht]%andb_prop. cbn [append_indent_go].
  destruct i; [repeat case_if; simpl; rewrite ?Hc, ?IH; done|].
  destruct (is_space c); [by apply IH|].
  destruct (need && negb (is_close c)); rewrite sforall_app;
    [rewrite newline_indent_sforall|]; cbn [sforall andb];
    repeat (case_if; simpl; rewrite ?sforall_app, ?newline_indent_sforall, ?p_space, ?Hc, ?IH by done);
    simpl; rewrite ?Hc, ?IH, ?p_newline, ?p_prefix, ?p_indent, ?repeat_string_sforall; done.
Qed.
End Indent.

Lemma marshal_user_html_safe u :
  sforall (fun d => negb (html_special d)) (marshal_user u) = true.
Proof.
  rewrite marshal_user_eq.
  repeat first [rewrite sforall_app | rewrite append_string_no_markup | progress cbn [sforall]].
  reflexivity.
Qed.

Lemma marshal_indent_no_markup u :
  sforall (fun d => negb (html_special d)) (marshal_indent_user u) = true.
Proof.
  unfold marshal_indent_user, append_indent.
  apply append_indent_go_sforall; try reflexivity. apply marshal_user_html_safe.
Qed.



Lemma object_into_user_no_fields ms u : no_field_keys ms = true -> object_into_user ms u = Some u.
Proof.
  induction ms as [|[k v] ms IH]; [done|]. cbn [no_field_keys forallb object_into_user].
  intros [Hk Hms]%andb_prop. cbn [fst] in Hk.
  destruct (unquote_bytes (dq +:+ k +:+ dq)); [|done].
  apply bool_decide_eq_true in Hk. rewrite Hk. by apply IH.
Qed.

(** C22: [Decode] accepts the JSON [null], and any object none of whose
    keys names a field of [User], as the zero [User]: an error answer of
    the userinfo endpoint decodes without error into the empty identity. *)
Theorem decode_user_empty_identity body ms :
  decode_value body = Some (JObject ms) -> no_field_keys ms = true ->
  decode_user body = Some zero_user.
Proof.
  intros Hb Hk. unfold decode_user. rewrite Hb. cbn [mbind option_bind user_of_json].
  by apply object_into_user_no_fields.
Qed.


Lemma decode_user_empty_identity_witness :
  decode_user google_error_body = Some zero_user.
Proof.
  apply (decode_user_empty_identity google_error_body
           [("error", JObject [("code", JNumber "401"); ("status", JString "UNAUTHENTICATED")])]);
    vm_compute; reflexivity.
Defined.


(** C19: [json.Unmarshal] reads back the user that [json.Marshal] wrote,
    when its three fields are valid UTF-8. *)
Theorem unmarshal_marshal_user u :
  user_valid_b u = true -> unmarshal_user (marshal_user u) = Some u.
Proof. apply unmarshal_marshal_valid. Qed.

(** C20: Every user [Decoder.Decode] produces has fields of valid UTF-8. *)
Theorem decode_user_valid body u : decode_user body = Some u -> user_valid_b u = true.
Proof. apply decode_user_fields_valid. Qed.

Lemma unmarshal_marshal_user_witness :
  unmarshal_user (marshal_user (mk_user "a@x.com" "A<b>" "")) = Some (mk_user "a@x.com" "A<b>" "").
Proof. apply unmarshal_marshal_user. vm_compute. reflexivity. Defined.

Lemma decode_user_valid_witness : user_valid_b zero_user = true.
Proof. apply (decode_user_valid "null"). vm_compute. reflexivity. Defined.

(** C21: The decoding of Google's answer in [handleCallback] always runs
    to an answer: [Decode] fails exactly when the scanner finds a
    syntax error, or the first value is not an object or [null], or a
    field gets a value of the wrong type; it never fails because the
    parser ran out of fuel. *)
Theorem decode_user_total body :
  decode_user body = None <->
  parse_json body = Invalid \/ exists v rest, parse_json body = Parsed v rest /\ user_of_json v = None.
Proof.
  unfold decode_user, decode_value. pose proof (parse_json_total body) as Ht.
  destruct (parse_json body) as [v rest| |]; simpl; [|naive_solver|done].
  split; [intros H; right; eauto|]. intros [?|(v' & r' & [= <- <-] & Hv)]; done.
Qed.
