(* ===== verification/OAuth.v ===== *)
(** * OAuth: the OAuth2 configuration of [main] and the consent URL

    [main] (lines 55-66) reads [GOOGLE_CLIENT_ID], [GOOGLE_CLIENT_SECRET]
    and [REDIRECT_URL] with [os.Getenv] and builds an [oauth2.Config]
    with the two userinfo scopes and Google's endpoint.  [handleLogin]
    (line 92) asks it for [AuthCodeURL("state-token",
    oauth2.AccessTypeOffline)].

    - [oauth_config], [main_config]: the configuration and its
      construction from the environment.
    - [query_escape], [values_encode]: [url.QueryEscape] and
      [url.Values.Encode] (keys sorted, each [key=value] escaped, joined
      by [&]).
    - [auth_code_url]: golang.org/x/oauth2's [Config.AuthCodeURL].

    The consent URL of a deployment is computed in [Scenario]
    ([login_url_deploy]): it carries the fixed state [state-token], so
    the state cannot tell one login attempt from another, and
    [handleCallback] does not read it ([Session.callback_ignores_state]). *)

From S2P Require Import Prelude.
From stdpp Require Import sorting.
Local Open Scope Z_scope.

Record oauth_config := mk_oauth_config {
  ClientID : string;
  ClientSecret : string;
  RedirectURL : string;
  Scopes : list string;
  AuthURL : string;
  TokenURL : string;
}.

(** [google.Endpoint]. *)
Definition google_auth_url : string := "https://accounts.google.com/o/oauth2/auth".
Definition google_token_url : string := "https://oauth2.googleapis.com/token".

(** [os.Getenv]: the value of the variable, [""] when it is unset. *)
Definition getenv (env : list (string * string)) (k : string) : string :=
  default "" (assoc_first k env).

Definition userinfo_scopes : list string :=
  ["https://www.googleapis.com/auth/userinfo.email";
   "https://www.googleapis.com/auth/userinfo.profile"].

(** Lines 55-66 of [main]. *)
Definition main_config (env : list (string * string)) : oauth_config :=
  mk_oauth_config (getenv env "GOOGLE_CLIENT_ID") (getenv env "GOOGLE_CLIENT_SECRET")
    (getenv env "REDIRECT_URL") userinfo_scopes google_auth_url google_token_url.

(** ** URL encoding *)

Definition upper_hex (d : Z) : ascii :=
  if d <? 10 then chr (48 + d) else chr (55 + d).

(** [shouldEscape(c, encodeQueryComponent)]: everything but letters,
    digits and [-_.~] is escaped. *)
Definition unreserved (c : ascii) : bool :=
  let b := ord c in
  ((48 <=? b) && (b <=? 57)) || ((65 <=? b) && (b <=? 90)) ||
  ((97 <=? b) && (b <=? 122)) || (b =? 45) || (b =? 95) || (b =? 46) || (b =? 126).

(** [url.QueryEscape]: space becomes [+], other escaped bytes [%XX]. *)
Fixpoint query_escape (s : string) : string :=
  match s with
  | EmptyString => ""
  | String c s' =>
      let e :=
        if unreserved c then String c ""
        else if ord c =? 32 then "+"
        else String "%" (String (upper_hex (ord c / 16)) (String (upper_hex (ord c mod 16)) "")) in
      e +:+ query_escape s'
  end.

Definition values := list (string * list string).

(** [v.Set(k, x)]: replace the values of [k]. *)
Definition values_set (k x : string) (v : values) : values :=
  (k, [x]) :: filter (fun kv => kv.1 <> k) v.

Definition string_le (a b : string) : Prop := String.leb a b = true.

#[export] Instance string_le_dec : RelDecision string_le.
Proof. intros a b. unfold string_le. apply _. Defined.

(** [url.Values.Encode]: keys in sorted order, [k=v] pairs joined by [&]. *)
Definition values_encode (v : values) : string :=
  let keys := merge_sort string_le (map fst v) in
  let pairs := concat (map (fun k =>
                 map (fun x => query_escape k +:+ "=" +:+ query_escape x)
                     (default [] (assoc_first k v)))
                 keys) in
  foldr (fun p acc => if String.eqb acc "" then p else p +:+ "&" +:+ acc) "" pairs.

(** [oauth2.AccessTypeOffline] is [SetAuthURLParam("access_type", "offline")]. *)
Definition access_type_offline (v : values) : values := values_set "access_type" "offline" v.

Fixpoint string_join (sep : string) (l : list string) : string :=
  match l with
  | [] => ""
  | [x] => x
  | x :: l' => x +:+ sep +:+ string_join sep l'
  end.

Definition string_contains_byte (c : ascii) (s : string) : bool :=
  negb (sforall (fun d => bool_decide (d <> c)) s).

(** [Config.AuthCodeURL(state, opts...)]. *)
Definition auth_code_url (c : oauth_config) (state : string) (opts : list (values -> values)) : string :=
  let v := [("response_type", ["code"]); ("client_id", [ClientID c])] in
  let v := if String.eqb (RedirectURL c) "" then v else values_set "redirect_uri" (RedirectURL c) v in
  let v := if bool_decide (Scopes c = []) then v else values_set "scope" (string_join " " (Scopes c)) v in
  let v := if String.eqb state "" then v else values_set "state" state v in
  let v := foldl (fun v o => o v) v opts in
  AuthURL c +:+ (if string_contains_byte "?" (AuthURL c) then "&" else "?") +:+ values_encode v.

(** [handleLogin]'s URL. *)
Definition login_url (c : oauth_config) : string :=
  auth_code_url c "state-token" [access_type_offline].
