(* ===== verification/Handlers.v ===== *)
(** * Handlers: [getUser], the four HTTP handlers and the route table

    Each handler is a function of what it reads: the request, the clock
    [now] (Unix nanoseconds; [handleCallback] reads it twice), the
    results of the OAuth2 calls ([oauth_env]), and the store; it returns
    the response and, when it writes the store, the new store.  The
    handlers are written against the [SessionStore] and [UserCodec]
    interfaces (Section [Handlers]), so the theorems of [Session] hold
    for every store and codec that satisfy the laws.

    Correspondence with src/main.go:
    - [session_key], [session_ttl]: ["session:"+id] and [time.Hour]
      (lines 126, 144, 160);
    - [get_user]: [getUser] (154-174), with [resolve_session] its
      lines 160-173;
    - [handle_home]: [handleHome] (78-89);
    - [handle_login]: [handleLogin] (91-94);
    - [handle_callback]: [handleCallback] (96-139), with
      [create_session] its lines 123-126;
    - [handle_logout]: [handleLogout] (141-152), with [destroy_session]
      its line 144;
    - [serve]: the routes registered by [main] (68-72) and
      [http.ServeMux]'s choice among them. *)

From S2P Require Import Prelude Store GoFmt Http Codec OAuth.

(** The answers of Google's endpoints, which the program does not
    compute: [oauthCfg.Exchange] ([None] is an error) and the GET of the
    userinfo URL ([None] is a transport error; otherwise the status code
    and the body). *)
Record oauth_env := mk_oauth_env {
  oa_exchange : string -> option string;
  oa_userinfo : string -> option (Z * string);
}.

Definition session_key (id : string) : string := "session:" +:+ id.

(** [time.Hour] in nanoseconds. *)
Definition session_ttl : Z := 3600 * second.

(** The cookie of the callback (lines 132-136) and of the logout
    (lines 146-150, [time.Unix(0, 0)]). *)
Definition session_cookie (id : string) (now : Z) : cookie :=
  mk_cookie "session" id (now + session_ttl).
Definition logout_cookie : cookie := mk_cookie "session" "" 0.

Definition login_page : string :=
  "<h1>Google Login Demo</h1><a href=" +:+ dq +:+ "/login" +:+ dq +:+ ">Login with Google</a>".

(** The [Fprintf] of line 88: [%s] inserts its argument as it is, [%%]
    is a percent sign. *)
Definition welcome_page (u : User) (data : string) : string :=
  "<h1>Welcome " +:+ Name u +:+ "</h1><img src=" +:+ dq +:+ Pic u +:+ dq +:+
  " style=" +:+ dq +:+ "height:80px;border-radius:50%;" +:+ dq +:+ "><pre>" +:+ data +:+
  "</pre><a href=" +:+ dq +:+ "/logout" +:+ dq +:+ ">Logout</a>".

Section Handlers.
Context {St : Type} `{SessionStore St} `{UserCodec}.

(** Lines 160-173 of [getUser], the spec's [resolve_session]:
    [redis.Nil], any other Redis error, and an undecodable value all
    answer [(User{}, false)]. *)
Definition resolve_session (now : Z) (id : string) (st : St) : User * bool :=
  match store_get now (session_key id) st with
  | GetNil => (zero_user, false)
  | GetErr _ => (zero_user, false)
  | GetOk val =>
      match user_unmarshal val with
      | Some u => (u, true)
      | None => (zero_user, false)
      end
  end.

(** [getUser]: no [session] cookie answers [(User{}, false)]. *)
Definition get_user (now : Z) (r : request) (st : St) : User * bool :=
  match request_cookie r "session" with
  | None => (zero_user, false)
  | Some v => resolve_session now v st
  end.

(** Lines 123-126 of [handleCallback], the spec's [create_session]: the
    id from the clock, the JSON of the user, the SET with a one-hour
    TTL; its error, the id and the new store. *)
Definition create_session (now : Z) (user : User) (st : St) : cmd_err * string * St :=
  let sessionID := fmt_d now in
  let userJSON := user_marshal user in
  let '(err, st') := store_set now (session_key sessionID) userJSON session_ttl st in
  (err, sessionID, st').

(** Line 144 of [handleLogout], the spec's [destroy_session]: the DEL,
    whose error is dropped. *)
Definition destroy_session (now : Z) (id : string) (st : St) : St :=
  (store_del now (session_key id) st).2.

(** [handleHome]. *)
Definition handle_home (now : Z) (r : request) (st : St) : response :=
  let '(u, ok) := get_user now r st in
  let w := header_set "Content-Type" "text/html; charset=utf-8" empty_response in
  if negb ok then write_body login_page w
  else write_body (welcome_page u (user_marshal_indent u)) w.

(** [handleLogin]: a 307 to the consent URL. *)
Definition handle_login (cfg : oauth_config) (r : request) : response :=
  http_redirect r (login_url cfg) 307 empty_response.

(** [handleCallback]: the four early returns with [http.Error], then
    the session id from the clock, the SET with a one-hour TTL, the
    cookie, the 303 to [/].  The userinfo status code is not read.  The
    clock is read twice: [now] for the id (line 123), [now'] for the
    cookie's expiry (line 135). *)
Definition handle_callback (env : oauth_env) (now now' : Z) (r : request) (st : St)
  : response * St :=
  let code := query_get "code" (rq_query r) in
  if String.eqb code "" then (http_error "code not found" 400 empty_response, st)
  else
    match oa_exchange env code with
    | None => (http_error "token exchange failed" 500 empty_response, st)
    | Some token =>
        match oa_userinfo env token with
        | None => (http_error "failed to get user info" 500 empty_response, st)
        | Some (_, body) =>
            match user_decode body with
            | None => (http_error "failed to decode user info" 500 empty_response, st)
            | Some user =>
                match create_session now user st with
                | (Some _, _, st') => (http_error "failed to store session" 500 empty_response, st')
                | (None, sessionID, st') =>
                    (http_redirect r "/" 303
                       (set_cookie (session_cookie sessionID now') empty_response), st')
                end
            end
        end
    end.

(** [handleLogout]: the DEL's error is ignored. *)
Definition handle_logout (now : Z) (r : request) (st : St) : response * St :=
  let st' :=
    match request_cookie r "session" with
    | Some v => destroy_session now v st
    | None => st
    end in
  (http_redirect r "/" 303 (set_cookie logout_cookie empty_response), st').

(** The route table of [main]: [http.ServeMux] sends the exact paths
    [/login], [/callback] and [/logout] to their handlers and every
    other path to the pattern [/].  [now] and [now'] are the clock
    readings of the handler, in order. *)
Definition serve (cfg : oauth_config) (env : oauth_env) (now now' : Z) (r : request) (st : St)
  : response * St :=
  if String.eqb (rq_path r) "/login" then (handle_login cfg r, st)
  else if String.eqb (rq_path r) "/callback" then handle_callback env now now' r st
  else if String.eqb (rq_path r) "/logout" then handle_logout now r st
  else (handle_home now r st, st).

End Handlers.
