(* ===== verification/Session.v ===== *)
(** * Session: the session lifecycle

    The theorems of this file hold for every store satisfying
    [SessionStoreLaws] and every codec satisfying [UserCodecLaws]
    (Section [Lifecycle]); [RedisModel] and the JSON codec are
    instances.

    - The session manager ([create_session], [resolve_session],
      [destroy_session] of [Handlers]): resolve after create gives the
      user back for the whole TTL; resolve after a successful destroy,
      and after the TTL (plus Redis' millisecond), gives nothing; a
      destroy leaves every other session as it was, whether the DEL
      succeeds or not; [resolve_session] answers "absent" and the zero
      user on every error (fail closed).
    - The handlers: a successful callback sets the cookie [session] to
      the printed clock, and a browser that sends it back is recognised
      by [getUser]; a logout whose DEL succeeds ends the session; a
      callback that answers an error has not changed the store; two
      callbacks at the same clock reading give both users the same id,
      and the first user's cookie then resolves to the second user. *)

From S2P Require Import Prelude Store GoFmt Http Codec OAuth Handlers.

(** ** Session ids as cookies *)

Lemma session_key_inj a b : session_key a = session_key b -> a = b.
Proof. apply sapp_inj_l. Qed.

Lemma digit_cookie_safe c :
  is_digit c = true -> valid_cookie_value_byte c = true /\ not_space c = true.
Proof. all_bytes c; vm_compute; intros H; try discriminate H; done. Qed.

Lemma session_name_valid : cookie_name_valid "session" = true.
Proof. reflexivity. Qed.

(** The printed clock is a cookie value that survives the browser. *)
Lemma session_id_cookie_safe now :
  in_int64 now ->
  sforall valid_cookie_value_byte (fmt_d now) = true /\ sforall not_space (fmt_d now) = true.
Proof.
  intros Hn. destruct (fmt_d_bytes now Hn) as [Hd | (ds & -> & Hd)];
    [|simpl]; split;
    try (apply andb_true_intro; split; [done|]);
    eapply sforall_impl; try exact Hd; intros c Hc; apply (digit_cookie_safe c Hc).
Qed.

(** C27: A browser that holds the cookie [session=id], [id] the printed
    clock, sends it back and [Request.Cookie] reads the same id. *)
Theorem session_cookie_roundtrip now m p q :
  in_int64 now ->
  request_cookie (mk_request m p q [cookie_line "session" (fmt_d now)]) "session" = Some (fmt_d now).
Proof.
  intros Hn. destruct (session_id_cookie_safe now Hn) as [Hv Hs].
  by apply request_cookie_single.
Qed.

Section Lifecycle.
Context {St : Type} `{SessionStoreLaws St} `{!UserCodec, !UserCodecLaws}.

(** [getUser] on the request of a browser holding the session cookie. *)
Lemma get_user_session_line t now st m p q :
  in_int64 now ->
  get_user t (mk_request m p q [cookie_line "session" (fmt_d now)]) st =
  resolve_session t (fmt_d now) st.
Proof.
  intros Hn. destruct (session_id_cookie_safe now Hn) as [Hv Hs].
  unfold get_user. by rewrite request_cookie_single by done.
Qed.

Lemma create_session_ok now u st id st' :
  create_session now u st = (None, id, st') ->
  id = fmt_d now /\
  store_set now (session_key id) (user_marshal u) session_ttl st = (None, st').
Proof.
  unfold create_session. destruct (store_set _ _ _ _ _) as [[e|] s] eqn:E;
    intros Hc; invc Hc; done.
Qed.

Lemma session_ttl_ms : 0 < session_ttl /\ session_ttl mod millisecond = 0.
Proof. done. Qed.

(** ** The session manager *)

Lemma create_then_resolve now u st id st' t :
  user_valid u ->
  create_session now u st = (None, id, st') ->
  now <= t <= now + session_ttl ->
  resolve_session t id st' = (u, true).
Proof.
  intros Hu Hc Ht. destruct (create_session_ok _ _ _ _ _ Hc) as [-> Hs].
  unfold resolve_session.
  rewrite (set_get_hit _ _ _ _ _ _ _ Hs (proj1 session_ttl_ms) (proj2 session_ttl_ms) Ht).
  by rewrite unmarshal_marshal.
Qed.

Lemma create_then_expire now u st id st' t :
  create_session now u st = (None, id, st') ->
  now + session_ttl + millisecond <= t ->
  resolve_session t id st' = (zero_user, false).
Proof.
  intros Hc Ht. destruct (create_session_ok _ _ _ _ _ Hc) as [-> Hs].
  unfold resolve_session.
  by rewrite (set_get_expired _ _ _ _ _ _ _ Hs (proj1 session_ttl_ms) (proj2 session_ttl_ms) Ht).
Qed.

Lemma destroy_then_absent now id st st' t :
  store_del now (session_key id) st = (None, st') ->
  destroy_session now id st = st' /\ resolve_session t id st' = (zero_user, false).
Proof.
  intros Hd. unfold destroy_session, resolve_session. rewrite Hd.
  split; [done|]. by rewrite (del_get _ _ _ _ _ Hd).
Qed.

(** C8: A destroy touches no other session, whether its DEL succeeds or
    fails (the error is dropped). *)
Theorem destroy_other now id id' st t :
  id <> id' ->
  resolve_session t id' (destroy_session now id st) = resolve_session t id' st.
Proof.
  intros Hne. unfold destroy_session, resolve_session.
  destruct (store_del now (session_key id) st) as [[e|] st'] eqn:Hd; simpl.
  - by rewrite (del_err_keeps _ _ _ _ _ Hd).
  - rewrite (del_get_other _ _ _ _ _ _ Hd); [done|].
    intros E. by apply Hne, session_key_inj.
Qed.

(** C6: Fail closed: [resolve_session] reports a user only when the store
    answered a value that decodes to that user; in every other case it
    answers "absent" with the zero user, never a default identity. *)
Theorem resolve_fail_closed t id st u ok :
  resolve_session t id st = (u, ok) ->
  (ok = true /\ exists val, store_get t (session_key id) st = GetOk val /\
                            user_unmarshal val = Some u) \/
  (ok = false /\ u = zero_user).
Proof.
  unfold resolve_session.
  destruct (store_get t (session_key id) st) as [val| |e]; intros Hr;
    try (invc Hr; by right).
  destruct (user_unmarshal val) as [u'|] eqn:Hu; invc Hr; [left|by right].
  split; [done|]. by exists val.
Qed.

(** ** The handlers *)

(** What Google's answers to the callback decode to (lines 97-121). *)
Definition callback_user (env : oauth_env) (r : request) : option User :=
  let code := query_get "code" (rq_query r) in
  if String.eqb code "" then None
  else token ← oa_exchange env code; sb ← oa_userinfo env token; user_decode sb.2.

(** The request of a browser that sends back the cookie [c]. *)
Definition browser_request (m p : string) (q : list (string * string)) (c : cookie) : request :=
  mk_request m p q [cookie_line (ck_name c) (ck_value c)].

Lemma http_redirect_status r url code w : rs_status (http_redirect r url code w) = code.
Proof. unfold http_redirect. by repeat case_if. Qed.

Lemma http_redirect_cookies r url code w : rs_cookies (http_redirect r url code w) = rs_cookies w.
Proof. unfold http_redirect. by repeat case_if. Qed.

Lemma http_error_status msg code w : rs_status (http_error msg code w) = code.
Proof. done. Qed.

Lemma callback_cases env now now' r st w st' :
  handle_callback env now now' r st = (w, st') ->
  (rs_status w = 303 /\ exists u, callback_user env r = Some u /\
     create_session now u st = (None, fmt_d now, st') /\
     rs_cookies w = [session_cookie (fmt_d now) now']) \/
  (rs_status w <> 303 /\ rs_cookies w = [] /\ st' = st).
Proof.
  unfold handle_callback, callback_user.
  destruct (String.eqb _ "") eqn:Hc; [intros Hw; invc Hw; by right|].
  destruct (oa_exchange env _) as [token|]; [|intros Hw; invc Hw; by right]. simpl.
  destruct (oa_userinfo env token) as [[status body]|]; [|intros Hw; invc Hw; by right]. simpl.
  destruct (user_decode body) as [u|]; [|intros Hw; invc Hw; by right].
  destruct (create_session now u st) as [[[e|] id] s] eqn:Hcs; intros Hw; invc Hw.
  - right. repeat split; [done|].
    unfold create_session in Hcs.
    destruct (store_set _ _ _ _ _) as [e' s'] eqn:Hs. invc Hcs.
    apply (set_err_keeps _ _ _ _ _ _ _ Hs).
  - left. rewrite http_redirect_status, http_redirect_cookies.
    destruct (create_session_ok _ _ _ _ _ Hcs) as [-> _].
    split; [done|]. by exists u.
Qed.

Lemma login_then_home env now now' r st w st' t m p q :
  in_int64 now ->
  handle_callback env now now' r st = (w, st') ->
  rs_status w = 303 ->
  now <= t <= now + session_ttl ->
  exists u c, callback_user env r = Some u /\ rs_cookies w = [c] /\
              get_user t (browser_request m p q c) st' = (u, true).
Proof.
  intros Hn Hcb Hst Ht.
  destruct (callback_cases _ _ _ _ _ _ _ Hcb) as [(_ & u & Hu & Hcs & Hck) | (Hne & _)];
    [|done].
  exists u, (session_cookie (fmt_d now) now'). split; [done|]. split; [done|].
  unfold browser_request. simpl. rewrite get_user_session_line by done.
  apply (create_then_resolve now u st); [|done|done].
  unfold callback_user in Hu. destruct (String.eqb _ "") ; [done|].
  destruct (oa_exchange _ _); [|done]. simpl in Hu.
  destruct (oa_userinfo _ _); [|done]. simpl in Hu. by eapply decode_valid.
Qed.

(** C13: Logout: when the DEL succeeds, the cookie's session no longer
    resolves, at any later time, and the browser is told to drop the
    cookie. *)
Theorem logout_then_get_user now r st w st' v t r' :
  handle_logout now r st = (w, st') ->
  request_cookie r "session" = Some v ->
  (store_del now (session_key v) st).1 = None ->
  request_cookie r' "session" = Some v ->
  rs_cookies w = [logout_cookie] /\ get_user t r' st' = (zero_user, false).
Proof.
  unfold handle_logout. intros Hw Hr Hd Hr'. rewrite Hr in Hw. invc Hw.
  rewrite http_redirect_cookies. split; [done|].
  unfold get_user. rewrite Hr'.
  destruct (store_del now (session_key v) st) as [e s] eqn:Hdel. simpl in Hd. subst e.
  destruct (destroy_then_absent now v st s t Hdel) as [-> Hres]. exact Hres.
Qed.

(** C17: Two logins at the same clock reading: both browsers get a cookie
    with the same value, and the first user's browser is then recognised
    as the second user. *)
Theorem same_instant_logins_collide env1 env2 now n1 n2 r1 r2 st w1 st1 w2 st2 m p q :
  in_int64 now ->
  handle_callback env1 now n1 r1 st = (w1, st1) -> rs_status w1 = 303 ->
  handle_callback env2 now n2 r2 st1 = (w2, st2) -> rs_status w2 = 303 ->
  exists c1 c2 u2, rs_cookies w1 = [c1] /\ rs_cookies w2 = [c2] /\ ck_value c1 = ck_value c2 /\
                   callback_user env2 r2 = Some u2 /\
                   get_user now (browser_request m p q c1) st2 = (u2, true).
Proof.
  intros Hn Hc1 Hs1 Hc2 Hs2.
  destruct (callback_cases _ _ _ _ _ _ _ Hc1) as [(_ & u1 & Hu1 & Hcs1 & Hck1) | (Hne & _)];
    [|done].
  pose proof (login_then_home env2 now n2 r2 st1 w2 st2 now m p q Hn Hc2 Hs2)
    as (u2 & c2 & Hu2 & Hck2 & Hg); [pose proof session_ttl_ms; lia|].
  destruct (callback_cases _ _ _ _ _ _ _ Hc2) as [(_ & u2' & _ & _ & Hck2') | (Hne & _)];
    [|done].
  rewrite Hck2 in Hck2'. invc Hck2'.
  exists (session_cookie (fmt_d now) n1), (session_cookie (fmt_d now) n2), u2.
  by rewrite Hck1, Hck2.
Qed.

Lemma http_redirect_method r r' url code w :
  rq_method r = rq_method r' -> http_redirect r url code w = http_redirect r' url code w.
Proof. intros E. unfold http_redirect. by rewrite E. Qed.

(** C23: The callback never reads the [state] parameter: two requests with
    the same [code] (and method) get the same answer and the same new
    store, whatever their [state], so a forged callback is as good as
    Google's. *)
Theorem callback_ignores_state env now now' r r' st :
  query_get "code" (rq_query r) = query_get "code" (rq_query r') -> rq_method r = rq_method r' ->
  handle_callback env now now' r st = handle_callback env now now' r' st.
Proof.
  intros Hc Hm. unfold handle_callback. rewrite Hc.
  destruct (String.eqb _ ""); [done|]. destruct (oa_exchange env _); [|done].
  destruct (oa_userinfo env _) as [[]|]; [|done]. destruct (user_decode _); [|done].
  destruct (create_session now _ st) as [[[]] ]; [done|]. by rewrite (http_redirect_method r r').
Qed.

(** C32: [handleLogin] answers every request with a 307 to the same
    consent URL, which depends on the configuration only: the state it
    carries is the constant [state-token]. *)
Theorem login_redirect cfg r :
  rs_status (handle_login cfg r) = 307 /\
  rs_header (handle_login cfg r) !! "Location" = Some [login_url cfg].
Proof.
  unfold handle_login. split; [apply http_redirect_status|].
  unfold http_redirect, header_set, write_header, write_body.
  repeat case_if; simpl; rewrite ?lookup_insert_ne by done; by rewrite lookup_insert_eq.
Qed.

(** C3: Resolve after create: for the whole TTL the id resolves to the
    user that was stored, when the user is one the codec reproduces. *)
Theorem resolve_after_create now u st id st' t :
  user_valid u ->
  create_session now u st = (None, id, st') ->
  now <= t <= now + session_ttl ->
  resolve_session t id st' = (u, true).
Proof. apply create_then_resolve. Qed.

(** C4: Expiry: one millisecond after the TTL the id no longer resolves. *)
Theorem resolve_after_expiry now u st id st' t :
  create_session now u st = (None, id, st') ->
  now + session_ttl + millisecond <= t ->
  resolve_session t id st' = (zero_user, false).
Proof. apply create_then_expire. Qed.

(** C5: Resolve after a destroy whose DEL succeeded: absent, at any time. *)
Theorem resolve_after_destroy now id st st' t :
  store_del now (session_key id) st = (None, st') ->
  destroy_session now id st = st' /\ resolve_session t id st' = (zero_user, false).
Proof. apply destroy_then_absent. Qed.

(** C9: The outcome of a callback, on every branch: either the decoded
    user got a session under the printed clock, the cookie says so and
    the answer is a 303; or the answer is an error, no cookie is set
    and the store is as it was. *)
Theorem callback_outcome env now now' r st w st' :
  handle_callback env now now' r st = (w, st') ->
  (rs_status w = 303 /\ exists u, callback_user env r = Some u /\
     create_session now u st = (None, fmt_d now, st') /\
     rs_cookies w = [session_cookie (fmt_d now) now']) \/
  (rs_status w <> 303 /\ rs_cookies w = [] /\ st' = st).
Proof. apply callback_cases. Qed.

(** C11: Login then home: after a successful callback at [now], a browser
    that sends back the cookie it received is recognised as the user
    Google answered, for the whole TTL of the session. *)
Theorem login_then_get_user env now now' r st w st' t m p q :
  in_int64 now ->
  handle_callback env now now' r st = (w, st') ->
  rs_status w = 303 ->
  now <= t <= now + session_ttl ->
  exists u c, callback_user env r = Some u /\ rs_cookies w = [c] /\
              get_user t (browser_request m p q c) st' = (u, true).
Proof. apply login_then_home. Qed.

End Lifecycle.
