(* ===== verification/SetCookie.v ===== *)
(** * SetCookie: the [Set-Cookie] lines the handlers send

    [http.SetCookie(w, c)] adds the header [Set-Cookie: c.String()]
    when the string is not empty.  [Cookie.String] (net/http
    cookie.go) writes the name, [=], the value through
    [sanitizeCookieValue], and, for the fields the program sets, the
    [Expires] attribute when [validCookieExpires] (the year is at least
    1601), printed by [HttpDate.http_date].  A cookie whose name is not
    a token gives the empty string and no header.

    - [sanitize_or_warn]: the loop that returns the value as it is when
      every byte is valid, and otherwise copies the valid bytes;
    - [sanitize_cookie_value]: that, then double quotes around a value
      holding a space or a comma;
    - [cookie_string], [set_cookie_headers]: [Cookie.String] and the
      [Set-Cookie] values of a response.

    The theorems: a successful callback sends exactly one line,
    [session=<id>; Expires=<date>], whose date is the reference
    calendar's date of the second clock reading plus one hour
    ([callback_set_cookie]); a logout sends
    [session=; Expires=Thu, 01 Jan 1970 00:00:00 GMT], whatever the
    request and the store ([logout_set_cookie]).  Neither line has a
    [Path], [Max-Age], [HttpOnly], [Secure] or [SameSite] attribute. *)

From S2P Require Import Prelude Store GoFmt HttpDate Http Codec OAuth Handlers Session.

(** The bytes of [s] that satisfy [p], in order. *)
Fixpoint sfilter (p : ascii -> bool) (s : string) : string :=
  match s with
  | EmptyString => ""
  | String c t => if p c then String c (sfilter p t) else sfilter p t
  end.

(** [sanitizeOrWarn(fieldName, valid, v)]. *)
Definition sanitize_or_warn (valid : ascii -> bool) (v : string) : string :=
  if sforall valid v then v else sfilter valid v.

Definition space_or_comma (c : ascii) : bool := bool_decide (c = " "%char \/ c = ","%char).

(** [sanitizeCookieValue(v)]. *)
Definition sanitize_cookie_value (v : string) : string :=
  let v := sanitize_or_warn valid_cookie_value_byte v in
  if String.eqb v "" then v
  else if negb (sforall (fun c => negb (space_or_comma c)) v) then dq +:+ v +:+ dq
  else v.

(** [validCookieExpires(t)]: [t.Year() >= 1601]. *)
Definition valid_cookie_expires (t : Z) : bool := 1601 <=? time_year t.

(** [Cookie.String()] for a cookie with a name, a value and [Expires]. *)
Definition cookie_string (c : cookie) : string :=
  if negb (cookie_name_valid (ck_name c)) then ""
  else
    ck_name c +:+ "=" +:+ sanitize_cookie_value (ck_value c) +:+
    (if valid_cookie_expires (ck_expires c) then "; Expires=" +:+ http_date (ck_expires c) else "").

(** The [Set-Cookie] values [http.SetCookie] added to a response. *)
Definition set_cookie_headers (w : response) : list string :=
  filter (fun v => v <> "") (map cookie_string (rs_cookies w)).

(** ** Lemmas *)

(** The fast path of [sanitizeOrWarn] is an optimisation: copying the
    valid bytes of an all-valid value gives the value. *)
Lemma sfilter_all p s : sforall p s = true -> sfilter p s = s.
Proof. induction s as [|c s IH]; [done|]. simpl. intros [-> Hs]%andb_prop. by rewrite IH. Qed.

Lemma sanitize_or_warn_filter valid v : sanitize_or_warn valid v = sfilter valid v.
Proof. unfold sanitize_or_warn. destruct (sforall valid v) eqn:E; [by rewrite sfilter_all|done]. Qed.

(** A value of valid bytes, not empty, without space or comma is
    written as it is. *)
Lemma sanitize_cookie_value_id v :
  sforall valid_cookie_value_byte v = true -> sforall (fun c => negb (space_or_comma c)) v = true ->
  v <> "" -> sanitize_cookie_value v = v.
Proof.
  intros Hv Hs Hne. unfold sanitize_cookie_value, sanitize_or_warn. rewrite Hv, Hs.
  destruct (String.eqb_spec v ""); done.
Qed.

Lemma digit_plain c : is_digit c = true -> negb (space_or_comma c) = true.
Proof. all_bytes c; vm_compute; intros H; try discriminate H; done. Qed.

(** The printed clock is written unquoted. *)
Lemma sanitize_fmt_d v : in_int64 v -> sanitize_cookie_value (fmt_d v) = fmt_d v.
Proof.
  intros Hv. apply sanitize_cookie_value_id.
  - apply fmt_d_sforall; [|done|done]. intros c Hc. by apply digit_cookie_safe.
  - apply fmt_d_sforall; [exact digit_plain|done|done].
  - destruct (fmt_d_bytes v Hv) as [_ | (ds & -> & _)]; [|done].
    unfold fmt_d. destruct (2 ^ 63 <=? v mod 2 ^ 64); [done|]. apply (fmt_digits_nonempty 19).
Qed.

(** The times of an [int64] of nanoseconds, from 1677 to 2262, as
    absolute days. *)
Lemma abs_days_int64 t : in_int64 t -> 612409 <= abs_days t <= 825913.
Proof. unfold in_int64, int64_min, int64_max, abs_days, unix_abs_days, seconds_per_day. lia_dm. Qed.

Lemma year_from_days d y : 0 <= d -> days_before_year y <= d -> y <= (abs_year d).1 \/ y <= 1.
Proof.
  intros Hd Hy. pose proof (abs_year_spec d Hd) as Hs. destruct (abs_year d) as [y' r]. simpl.
  destruct (Z.le_gt_cases y y') as [|Hlt]; [by left|].
  pose proof (days_before_year_mono (y' + 1) y ltac:(lia)).
  rewrite days_before_year_succ in H. lia.
Qed.

Lemma valid_cookie_expires_int64 t : in_int64 t -> valid_cookie_expires t = true.
Proof.
  intros Ht. pose proof (abs_days_int64 t Ht). unfold valid_cookie_expires, time_year.
  assert (E : days_before_year 1601 = 584388) by reflexivity.
  destruct (year_from_days (abs_days t) 1601) as [H1|H1]; [lia|lia| |lia].
  by apply Z.leb_le.
Qed.

(** The cookie of a session, as a [Set-Cookie] value. *)
Lemma session_cookie_string now now' :
  in_int64 now -> in_int64 (now' + session_ttl) ->
  cookie_string (session_cookie (fmt_d now) now') =
    "session=" +:+ fmt_d now +:+ "; Expires=" +:+ http_date (now' + session_ttl).
Proof.
  intros Hn Hn'. unfold cookie_string, session_cookie. simpl ck_name. simpl ck_value. simpl ck_expires.
  rewrite session_name_valid. simpl negb. cbv iota.
  rewrite sanitize_fmt_d, valid_cookie_expires_int64 by done.
  by rewrite <- !sapp_assoc.
Qed.

Section Headers.
Context {St : Type} `{SessionStoreLaws St} `{!UserCodec, !UserCodecLaws}.

Lemma callback_set_cookie_line env now now' r (st : St) w st' :
  in_int64 now -> in_int64 (now' + session_ttl) ->
  handle_callback env now now' r st = (w, st') -> rs_status w = 303 ->
  set_cookie_headers w = ["session=" +:+ fmt_d now +:+ "; Expires=" +:+ http_date (now' + session_ttl)].
Proof.
  intros Hn Hn' Hc Hs.
  destruct (callback_cases env now now' r st w st' Hc) as [(_ & u & _ & _ & Hck) | (Hne & _)]; [|done].
  unfold set_cookie_headers. rewrite Hck. cbn [map]. rewrite session_cookie_string by done.
  rewrite filter_cons_True; [done|]. by destruct (fmt_d now).
Qed.

Lemma logout_set_cookie_line now r (st : St) :
  set_cookie_headers (handle_logout now r st).1 = ["session=; Expires=Thu, 01 Jan 1970 00:00:00 GMT"].
Proof. unfold handle_logout. simpl. unfold set_cookie_headers. rewrite http_redirect_cookies. vm_compute. reflexivity. Qed.

(** ** Theorems *)

(** C10: A successful callback sends exactly one [Set-Cookie] line,
    [session=<id>; Expires=<date>], with the printed first clock
    reading as the id and, as the date, the reference calendar's date
    of the second reading plus one hour: Go's cycle arithmetic of
    [absDate] agrees with the calendar, and the year is always past
    1601, so the attribute is always written. *)
Theorem callback_set_cookie env now now' r (st : St) w st' :
  in_int64 now -> in_int64 (now' + session_ttl) ->
  handle_callback env now now' r st = (w, st') -> rs_status w = 303 ->
  set_cookie_headers w = ["session=" +:+ fmt_d now +:+ "; Expires=" +:+ http_date_ref (now' + session_ttl)].
Proof.
  intros Hn Hn' Hc Hs. rewrite (callback_set_cookie_line env now now' r st w st') by done.
  rewrite http_date_eq_ref; [done|]. pose proof (abs_days_int64 _ Hn'). lia.
Qed.

(** C14: Every logout, with or without a cookie, whatever Redis answers,
    sends the one line [session=; Expires=Thu, 01 Jan 1970 00:00:00 GMT]:
    an empty value with an expiry in the past, which tells the browser
    to drop its cookie. *)
Theorem logout_set_cookie now r (st : St) :
  set_cookie_headers (handle_logout now r st).1 = ["session=; Expires=Thu, 01 Jan 1970 00:00:00 GMT"].
Proof. apply logout_set_cookie_line. Qed.

End Headers.
