(* ===== verification/Server.v ===== *)
(** * Server: the server as a step relation, and the abstract session manager it refines

    The spec describes a session manager: a set of live sessions, each
    an id with its user and its creation time, created by a login,
    destroyed by a logout, expired by the TTL.  [abs_sessions] is that
    state; [refines st A] says that the store [st] answers
    [resolve_session] as [A] prescribes: a session of [A] resolves to
    its user during its TTL and to nothing from one millisecond after
    it, an id that is not in [A] resolves to nothing.

    [reachable] is the server as a step relation: from the empty store,
    any sequence of requests served by [serve] (the route table of
    [main]), with any clock readings and any answers of Google.  The
    abstract state follows each step ([abs_serve]): a callback whose SET
    succeeds adds the session, a logout whose DEL succeeds removes it,
    every other step leaves it.

    The theorem [reachable_refines] is the refinement, by rule
    induction: every reachable store refines its abstract state, so no
    session is ever resurrected and no id that was never issued, or
    was destroyed, ever resolves. *)

From S2P Require Import Prelude Store GoFmt Http Codec OAuth Handlers Session.

(** The live sessions of the spec: id, user, creation time. *)
Abbreviation abs_sessions := (gmap string (User * Z)).

Section Server.
Context {St : Type} `{SessionStoreLaws St} `{!UserCodec, !UserCodecLaws}.

(** [st] answers every resolution as [A] prescribes. *)
Definition refines (st : St) (A : abs_sessions) : Prop :=
  forall id t,
    match A !! id with
    | Some (u, c) =>
        (c <= t <= c + session_ttl -> resolve_session t id st = (u, true)) /\
        (c + session_ttl + millisecond <= t -> resolve_session t id st = (zero_user, false))
    | None => resolve_session t id st = (zero_user, false)
    end.

(** What a request does to the live sessions: a callback whose SET
    succeeds adds the session of the user Google answered, a logout whose
    DEL succeeds removes the cookie's session. *)
Definition abs_serve (env : oauth_env) (now : Z) (r : request) (st : St) (A : abs_sessions)
  : abs_sessions :=
  if String.eqb (rq_path r) "/login" then A
  else if String.eqb (rq_path r) "/callback" then
    match callback_user env r with
    | Some u =>
        match create_session now u st with
        | (None, id, _) => <[id := (u, now)]> A
        | _ => A
        end
    | None => A
    end
  else if String.eqb (rq_path r) "/logout" then
    match request_cookie r "session" with
    | Some v =>
        match (store_del now (session_key v) st).1 with
        | None => delete v A
        | Some _ => A
        end
    | None => A
    end
  else A.

(** The states the server reaches from an empty store. *)
Inductive reachable : St -> abs_sessions -> Prop :=
| reach_init : reachable store_empty ∅
| reach_serve cfg env now now' r st A w st' :
    reachable st A ->
    serve cfg env now now' r st = (w, st') ->
    reachable st' (abs_serve env now r st A).

(** ** The store after each handler *)

Lemma handle_callback_store env now now' r st :
  (handle_callback env now now' r st).2 =
    match callback_user env r with
    | Some u => (create_session now u st).2
    | None => st
    end.
Proof.
  unfold handle_callback, callback_user.
  destruct (String.eqb _ ""); [done|]. destruct (oa_exchange env _); [|done]. simpl.
  destruct (oa_userinfo env _) as [[]|]; [|done]. simpl.
  destruct (user_decode _); [|done]. by destruct (create_session now _ st) as [[[]] ].
Qed.

Lemma handle_logout_store now r st :
  (handle_logout now r st).2 =
    match request_cookie r "session" with
    | Some v => (store_del now (session_key v) st).2
    | None => st
    end.
Proof. unfold handle_logout, destroy_session. by destruct (request_cookie r "session"). Qed.

Lemma callback_user_valid env r u : callback_user env r = Some u -> user_valid u.
Proof.
  unfold callback_user. destruct (String.eqb _ ""); [done|].
  destruct (oa_exchange env _); [|done]. simpl.
  destruct (oa_userinfo env _); [|done]. simpl. apply decode_valid.
Qed.

(** ** The refinement, one operation at a time *)

Lemma refines_empty : refines store_empty ∅.
Proof. unfold refines. intros id t. rewrite lookup_empty. unfold resolve_session. by rewrite get_empty. Qed.

Lemma refines_create st A now u e id st' :
  refines st A -> user_valid u -> create_session now u st = (e, id, st') ->
  refines st' (match e with None => <[id := (u, now)]> A | Some _ => A end).
Proof.
  intros HR Hu Hc. destruct e as [err|].
  - unfold create_session in Hc. destruct (store_set _ _ _ _ _) as [e s] eqn:Hs. invc Hc.
    apply set_err_keeps in Hs as ->. done.
  - intros id' t. destruct (decide (id' = id)) as [->|Hne].
    + rewrite lookup_insert_eq. split.
      * intros Ht. by apply (create_then_resolve now u st id st').
      * intros Ht. by apply (create_then_expire now u st id st').
    + rewrite lookup_insert_ne by done.
      destruct (create_session_ok _ _ _ _ _ Hc) as [-> Hs].
      assert (Hr : forall t, resolve_session t id' st' = resolve_session t id' st).
      { intros t'. unfold resolve_session.
        rewrite (set_get_other _ _ _ _ _ _ _ _ Hs); [done|].
        intros E. by apply Hne, session_key_inj. }
      specialize (HR id' t). destruct (A !! id') as [[u' c]|]; rewrite !Hr; done.
Qed.

Lemma refines_destroy st A now id e st' :
  refines st A -> store_del now (session_key id) st = (e, st') ->
  refines st' (match e with None => delete id A | Some _ => A end).
Proof.
  intros HR Hd. destruct e as [err|].
  - by apply del_err_keeps in Hd as ->.
  - intros id' t. destruct (decide (id' = id)) as [->|Hne].
    + rewrite lookup_delete_eq. unfold resolve_session. by rewrite (del_get _ _ _ _ _ Hd).
    + rewrite lookup_delete_ne by done.
      assert (Hr : forall t, resolve_session t id' st' = resolve_session t id' st).
      { intros t'. unfold resolve_session.
        rewrite (del_get_other _ _ _ _ _ _ Hd); [done|].
        intros E. by apply Hne, session_key_inj. }
      specialize (HR id' t). destruct (A !! id') as [[u' c]|]; rewrite !Hr; done.
Qed.

Lemma refines_serve cfg env now now' r st A w st' :
  refines st A -> serve cfg env now now' r st = (w, st') -> refines st' (abs_serve env now r st A).
Proof.
  intros HR Hs. unfold serve, abs_serve in *.
  destruct (String.eqb (rq_path r) "/login"); [by invc Hs|].
  destruct (String.eqb (rq_path r) "/callback").
  - pose proof (handle_callback_store env now now' r st) as E. rewrite Hs in E. simpl in E. subst st'.
    destruct (callback_user env r) as [u|] eqn:Hu; [|done].
    destruct (create_session now u st) as [[e id] s] eqn:Hc.
    pose proof (refines_create st A now u e id s HR (callback_user_valid env r u Hu) Hc).
    by destruct e.
  - destruct (String.eqb (rq_path r) "/logout"); [|by invc Hs].
    pose proof (handle_logout_store now r st) as E. rewrite Hs in E. simpl in E. subst st'.
    destruct (request_cookie r "session") as [v|]; [|done].
    destruct (store_del now (session_key v) st) as [e s] eqn:Hd.
    pose proof (refines_destroy st A now v e s HR Hd). by destruct e.
Qed.

(** C1: Every state the server reaches refines the abstract session
    manager: a session resolves to its user during its TTL and not
    after it, and an id that was never issued, or whose DEL succeeded,
    never resolves. *)
Theorem reachable_refines st A : reachable st A -> refines st A.
Proof.
  induction 1 as [|cfg env now now' r st A w st' HR IH Hs].
  - apply refines_empty.
  - by apply (refines_serve cfg env now now' r st A w st').
Qed.

End Server.
