(* ===== verification/Browser.v ===== *)
(** * Browser: the cookies as a browser keeps them, and the whole login seen from it

    The program talks to a browser through two headers: the
    [Set-Cookie] lines of its answers ([SetCookie.set_cookie_headers])
    and the [Cookie] line of the requests ([Http.request_cookie]).
    This file models the browser's side for one site, as RFC 6265
    prescribes, to compose the two:

    - [parse_set_cookie]: section 5.2: the name and value before the
      first [;], trimmed; the attributes after it, split at [;], their
      names compared without case; the [Expires] date read by
      [CookieDate.parse_http_date] (Unix seconds), the last valid one
      winning.  Other attributes are ignored: the program sends none.
    - [jar_store], [browser_receive]: section 5.3: a cookie replaces
      the one of the same name (both cookies of the program get the
      default path [/], from the paths [/callback] and [/logout], and
      the same host), and a cookie whose expiry is not after the time
      of receipt is removed and not stored.
    - [browser_request_at]: section 5.4: one [Cookie] line with the
      cookies that have not expired, [name=value] joined by [; ].

    The browser's clock [tb] counts seconds; the server's clocks count
    nanoseconds.  The theorems: the session line of a successful
    callback is read back as the printed id with the expiry of the
    second clock reading plus one hour, in seconds
    ([session_line_parse], through the date round trip); a browser
    that stored it is recognised by [getUser] until that second and
    then sends nothing ([browser_login_session]); after the line of a
    logout the browser sends no session cookie at all, and every
    [getUser] answers "not logged in", whatever the store
    ([browser_logout_forgets]). *)

From S2P Require Import Prelude Store GoFmt HttpDate CookieDate Http Codec OAuth Handlers Session SetCookie Server.

(** ** The browser *)

Definition is_letter (c : ascii) : bool :=
  ((65 <=? ord c) && (ord c <=? 90)) || ((97 <=? ord c) && (ord c <=? 122)).

(** The bytes of a date: letters, digits and the punctuation of the layout. *)
Definition date_byte (c : ascii) : bool :=
  is_letter c || is_digit c || bool_decide (c ∈ String.list_ascii_of_string ", :-").

Definition ascii_lower (c : ascii) : ascii :=
  if (65 <=? ord c) && (ord c <=? 90) then chr (ord c + 32) else c.

Fixpoint str_lower (s : string) : string :=
  match s with EmptyString => "" | String c t => String (ascii_lower c) (str_lower t) end.

(** The attributes after the first [;]: each [name=value] up to the
    next [;], with the name compared without case; the last valid
    [Expires] wins, an unparsable date is ignored. *)
Fixpoint parse_attrs (fuel : nat) (s : string) (exp : option Z) : option Z :=
  match fuel with
  | O => exp
  | S f =>
      let '(av, rest, more) := cut ";" s in
      let '(k, v, _) := cut "=" av in
      let exp :=
        if String.eqb (str_lower (trim_string k)) "expires" then
          match parse_http_date (trim_string v) with Some e => Some e | None => exp end
        else exp in
      if more then parse_attrs f rest exp else exp
  end.

(** A [Set-Cookie] line: name, value and expiry (Unix seconds). *)
Definition parse_set_cookie (line : string) : option (string * string * option Z) :=
  let '(nvp, attrs, has_attrs) := cut ";" line in
  let '(n, v, has_eq) := cut "=" nvp in
  let n := trim_string n in
  if negb has_eq || String.eqb n "" then None
  else Some (n, trim_string v, if has_attrs then parse_attrs (S (String.length attrs)) attrs None else None).

(** The cookies of one site, all with the path [/]: name, value,
    expiry. *)
Definition jar := list (string * string * option Z).

Definition alive (tb : Z) (e : option Z) : bool :=
  match e with None => true | Some x => tb <? x end.

(** Storing a cookie received at [tb] (seconds): it replaces the cookie
    of the same name; one whose expiry is not after [tb] is not kept. *)
Definition jar_store (tb : Z) (c : string * string * option Z) (j : jar) : jar :=
  let '(n, v, e) := c in
  let j := filter (fun x => x.1.1 <> n) j in
  if alive tb e then j ++ [(n, v, e)] else j.

Definition browser_receive (tb : Z) (lines : list string) (j : jar) : jar :=
  foldl (fun j l => match parse_set_cookie l with Some c => jar_store tb c j | None => j end) j lines.

Fixpoint join_cookies (l : list (string * string * option Z)) : string :=
  match l with
  | [] => ""
  | [(n, v, _)] => cookie_line n v
  | (n, v, _) :: l => cookie_line n v +:+ "; " +:+ join_cookies l
  end.

(** The request a browser sends at [tb]: one [Cookie] line with the
    cookies that have not expired, none when there are none. *)
Definition browser_request_at (m p : string) (q : list (string * string)) (tb : Z) (j : jar) : request :=
  match filter (fun x => alive tb x.2 = true) j with
  | [] => mk_request m p q []
  | l => mk_request m p q [join_cookies l]
  end.

(** ** Lemmas *)

Lemma sforall_name (p : ascii -> bool) (l : list string) i :
  Forall (fun s => sforall p s = true) l -> sforall p (default "" (l !! i)) = true.
Proof. intros Hl. destruct (l !! i) eqn:E; [|done]. simpl. exact (Forall_lookup_1 _ _ _ _ Hl E). Qed.

Lemma sforall_concat (p : ascii -> bool) l :
  Forall (fun s => sforall p s = true) l -> sforall p (String.concat "" l) = true.
Proof.
  induction 1 as [|x l Hx Hl IH]; [done|]. destruct l as [|y l]; [done|].
  change (String.concat "" (x :: y :: l)) with (x +:+ "" +:+ String.concat "" (y :: l)).
  by rewrite !sforall_app, Hx, IH.
Qed.

Lemma append_int_bytes (p : ascii -> bool) x w :
  (forall c, is_digit c = true -> p c = true) -> p "-"%char = true -> sforall p (append_int x w) = true.
Proof.
  intros Hd Hm. unfold append_int. rewrite sforall_app. apply andb_true_intro. split.
  { case_if; simpl; [by rewrite Hm|done]. }
  pose proof (Z.abs_nonneg x).
  destruct ((w =? 2) && (Z.abs x <? 100)) eqn:E2.
  { apply andb_prop in E2 as [_ E2%Z.ltb_lt]. simpl.
    rewrite !Hd by (apply is_digit_digit; lia_dm). done. }
  destruct ((w =? 4) && (Z.abs x <? 10000)) eqn:E4.
  { apply andb_prop in E4 as [_ E4%Z.ltb_lt]. simpl.
    rewrite !Hd by (apply is_digit_digit; lia_dm). done. }
  rewrite sforall_app. apply andb_true_intro. split.
  - apply sforall_concat, Forall_forall. intros s Hs. apply list_elem_of_In, repeat_spec in Hs as ->. simpl.
    rewrite Hd; [done|]. by apply (is_digit_digit 0).
  - eapply sforall_impl; [exact Hd|]. by rewrite fmt_digits_bytes.
Qed.

Lemma http_date_shape t : exists wd y m d hh mi ss, http_date t = format_time_fields wd y m d hh mi ss.
Proof.
  unfold http_date. destruct (abs_year (abs_days t)) as [y yd].
  destruct (abs_month_day (is_leap y) yd) as [m d]. eauto 10.
Qed.

Lemma names_letters (l : list string) :
  Forall (fun s => sforall is_letter s = true) l -> Forall (fun s => sforall date_byte s = true) l.
Proof.
  intros H. apply (Forall_impl _ _ _ H). intros s. apply sforall_impl. intros c. unfold date_byte. by intros ->.
Qed.

Lemma day_names_letters : Forall (fun s => sforall is_letter s = true) short_day_names.
Proof. repeat constructor. Qed.
Lemma month_names_letters : Forall (fun s => sforall is_letter s = true) short_month_names.
Proof. repeat constructor. Qed.

Lemma date_byte_digit c : is_digit c = true -> date_byte c = true.
Proof. unfold date_byte. intros ->. by rewrite orb_true_r. Qed.

Lemma http_date_bytes t : sforall date_byte (http_date t) = true.
Proof.
  destruct (http_date_shape t) as (wd & y & m & d & hh & mi & ss & ->).
  unfold format_time_fields. rewrite !sforall_app.
  rewrite !(append_int_bytes date_byte) by (exact date_byte_digit || reflexivity).
  rewrite (sforall_name _ _ _ (names_letters _ day_names_letters)).
  rewrite (sforall_name _ _ _ (names_letters _ month_names_letters)). reflexivity.
Qed.

Lemma letter_not_space c : is_letter c = true -> is_ascii_space c = false.
Proof. all_bytes c; vm_compute; intros H; try discriminate H; done. Qed.

Lemma trim_right_snoc a c : is_ascii_space c = false -> trim_right (a +:+ String c "") = a +:+ String c "".
Proof.
  intros Hc. induction a as [|x a IH]; simpl; [by rewrite Hc|].
  rewrite sapp_cons. simpl. rewrite IH. by destruct a; rewrite ?andb_false_r.
Qed.

Lemma trim_left_letters n x :
  sforall is_letter n = true -> trim_left (n +:+ ", " +:+ x) = n +:+ ", " +:+ x.
Proof.
  destruct n as [|c n]; [done|]. simpl. intros [Hc _]%andb_prop.
  rewrite sapp_cons. simpl. by rewrite letter_not_space.
Qed.

(** The date has no space at either end. *)
Lemma http_date_trim t : trim_string (http_date t) = http_date t.
Proof.
  destruct (http_date_shape t) as (wd & y & m & d & hh & mi & ss & ->).
  unfold trim_string. unfold format_time_fields at 1.
  rewrite trim_left_letters by apply (sforall_name _ _ _ day_names_letters).
  fold (format_time_fields wd y m d hh mi ss).
  assert (E : exists x, format_time_fields wd y m d hh mi ss = x +:+ String "T" "").
  { eexists. unfold format_time_fields. rewrite <- !sapp_assoc.
    change " GMT" with (" GM" +:+ String "T" ""). rewrite <- sapp_assoc. reflexivity. }
  destruct E as [x ->]. by apply trim_right_snoc.
Qed.

Lemma logout_line_parse :
  parse_set_cookie "session=; Expires=Thu, 01 Jan 1970 00:00:00 GMT" = Some ("session", "", Some 0).
Proof. vm_compute. reflexivity. Qed.

Lemma date_byte_not_semi c : date_byte c = true -> bool_decide (c <> ";"%char) = true.
Proof. all_bytes c; vm_compute; intros H; try discriminate H; done. Qed.

Lemma digit_not_semi c : is_digit c = true -> bool_decide (c <> ";"%char) = true.
Proof. all_bytes c; vm_compute; intros H; try discriminate H; done. Qed.

Lemma digit_not_space c : is_digit c = true -> not_space c = true.
Proof. all_bytes c; vm_compute; intros H; try discriminate H; done. Qed.

Lemma parse_attrs_expires t :
  0 <= abs_days t < 3652059 ->
  parse_attrs (S (String.length (" Expires=" +:+ http_date t))) (" Expires=" +:+ http_date t) None =
  Some (t / 1000000000).
Proof.
  intros Ht. cbn [parse_attrs].
  rewrite cut_none.
  2:{ rewrite sforall_app. apply andb_true_intro. split; [reflexivity|].
      exact (sforall_impl _ _ _ date_byte_not_semi (http_date_bytes t)). }
  replace (" Expires=" +:+ http_date t) with (" Expires" +:+ String "=" (http_date t)) by reflexivity.
  rewrite cut_first by reflexivity. cbn -[parse_http_date http_date].
  rewrite http_date_trim, parse_http_date_roundtrip by done. reflexivity.
Qed.

Lemma session_line_parse now t :
  in_int64 now -> 0 <= abs_days t < 3652059 ->
  parse_set_cookie ("session=" +:+ fmt_d now +:+ "; Expires=" +:+ http_date t) =
  Some ("session", fmt_d now, Some (t / 1000000000)).
Proof.
  intros Hn Ht. unfold parse_set_cookie.
  change ("; Expires=" +:+ http_date t) with (String ";" (" Expires=" +:+ http_date t)).
  rewrite <- sapp_assoc. rewrite cut_first.
  2:{ rewrite sforall_app. apply andb_true_intro. split; [reflexivity|].
      apply fmt_d_sforall; [exact digit_not_semi|reflexivity|done]. }
  replace ("session=" +:+ fmt_d now) with ("session" +:+ String "=" (fmt_d now)) by reflexivity.
  rewrite cut_first by reflexivity. cbn -[parse_attrs http_date fmt_d String.length].
  rewrite trim_string_id by (apply fmt_d_sforall; [exact digit_not_space|reflexivity|done]).
  by rewrite parse_attrs_expires.
Qed.

Lemma read_cookies_none m p q : request_cookie (mk_request m p q []) "session" = None.
Proof. reflexivity. Qed.

(** A jar of session cookies only holds nothing else. *)
Lemma filter_session_nil (j : jar) :
  Forall (fun x => x.1.1 = "session") j -> filter (fun x => x.1.1 <> "session") j = [].
Proof. induction 1 as [|x j Hx _ IH]; [done|]. cbn. case_decide as Hd; [by destruct Hd|]. exact IH. Qed.

(** ** Theorems *)

Section Browser.
Context {St : Type} `{SessionStoreLaws St} `{!UserCodec, !UserCodecLaws}.

(** C12: After a successful callback, a browser that stored its
    [Set-Cookie] line at [tb], before the cookie's expiry [E] (the
    second clock reading plus one hour, in seconds), sends the session
    cookie at every [tb' < E] and is recognised by [getUser] as the
    user Google answered during the session's hour; from [E] on it
    sends no cookie and [getUser] answers "not logged in". *)
Theorem browser_login_session env now now' r (st : St) w st' tb :
  in_int64 now -> in_int64 (now' + session_ttl) ->
  handle_callback env now now' r st = (w, st') -> rs_status w = 303 ->
  tb < (now' + session_ttl) / 1000000000 ->
  exists u, callback_user env r = Some u /\
    (forall m p q tb' t, tb' < (now' + session_ttl) / 1000000000 -> now <= t <= now + session_ttl ->
       get_user t (browser_request_at m p q tb' (browser_receive tb (set_cookie_headers w) [])) st' = (u, true)) /\
    (forall m p q tb' t, (now' + session_ttl) / 1000000000 <= tb' ->
       get_user t (browser_request_at m p q tb' (browser_receive tb (set_cookie_headers w) [])) st' =
         (zero_user, false)).
Proof.
  intros Hn Hn' Hc Hs Htb.
  destruct (callback_cases env now now' r st w st' Hc) as [(_ & u & Hu & Hcs & _) | (Hne & _)]; [|done].
  exists u. split; [done|].
  rewrite (callback_set_cookie_line env now now' r st w st') by done.
  pose proof (abs_days_int64 _ Hn').
  unfold browser_receive. cbn [foldl]. rewrite session_line_parse by (done || lia).
  unfold jar_store, alive. cbn [filter list_filter]. destruct (Z.ltb_spec tb ((now' + session_ttl) / 1000000000)); [|lia].
  split.
  - intros m p q tb' t Htb' Ht. unfold browser_request_at. rewrite app_nil_l. cbn [filter list_filter alive snd].
    destruct (Z.ltb_spec tb' ((now' + session_ttl) / 1000000000)); [|lia].
    case_decide; [|done]. cbn -[cookie_line get_user fmt_d]. rewrite get_user_session_line by done.
    exact (create_then_resolve now u st (fmt_d now) st' t (callback_user_valid env r u Hu) Hcs Ht).
  - intros m p q tb' t Htb'. unfold browser_request_at. rewrite app_nil_l. cbn [filter list_filter alive snd].
    destruct (Z.ltb_spec tb' ((now' + session_ttl) / 1000000000)); [lia|].
    case_decide; [done|]. cbn -[get_user]. unfold get_user. by rewrite read_cookies_none.
Qed.

(** C15: A browser whose only cookie is the session (as after a login)
    and that receives the [Set-Cookie] line of any logout drops it: its
    requests carry no cookie and [getUser] answers "not logged in",
    whatever the store holds, even when the DEL of the logout failed. *)
Theorem browser_logout_forgets now r (st : St) (j : jar) tb m p q tb' t (st'' : St) :
  Forall (fun x => x.1.1 = "session") j -> 0 <= tb ->
  get_user t (browser_request_at m p q tb' (browser_receive tb (set_cookie_headers (handle_logout now r st).1) j)) st''
    = (zero_user, false).
Proof.
  intros Hj Htb. rewrite logout_set_cookie_line. unfold browser_receive. cbn [foldl].
  rewrite logout_line_parse. unfold jar_store, alive.
  destruct (Z.ltb_spec tb 0); [lia|].
  rewrite filter_session_nil by done.
  unfold browser_request_at. simpl. unfold get_user. by rewrite read_cookies_none.
Qed.

End Browser.
