(* ===== verification/RedisServer.v ===== *)
(** * RedisServer: the server on Redis and encoding/json

    [Server] proves the refinement for every store and codec that
    satisfy the laws.  This file instantiates the server with the ones
    [main] uses, [RedisModel.redis] (go-redis' [Set], [Get], [Del]) and
    [json_codec], and proves what only the concrete keyspace shows.

    - [redis_wf]: every key of a reachable Redis keyspace is
      [session:] followed by a printed clock reading, holds the JSON of
      a user whose fields are valid UTF-8, and carries the deadline one
      hour after the millisecond of that reading: the server writes no
      other key, never a record without a TTL, never a value that
      [getUser] cannot decode ([reachable_redis_wf], by rule induction
      on [reachable]).
    - [logout_redis_down_keeps_session]: a logout while Redis is down
      clears the browser's cookie and answers the redirect as if it
      had succeeded, but the record stays: once Redis answers again the
      old id still resolves to the user for the rest of its hour
      (lines 142-150 drop the error of [Del]). *)

From S2P Require Import Prelude Store GoFmt Http Codec JsonString JsonDecode JsonUser OAuth Handlers Session Server.
Import RedisModel.

(** A record the callback writes: the key of the printed clock reading
    [now], the JSON of a valid user, the deadline of [EX 3600] set at
    [now]. *)
Definition session_record_ok (k : string) (x : string * option Z) : Prop :=
  exists now u, k = session_key (fmt_d now) /\ user_valid_b u = true /\
                x = (marshal_user u, Some (ms_of now + session_ttl / millisecond)).

Definition redis_wf (r : redis) : Prop := map_Forall session_record_ok (rd_keys r).

(** ** The invariant, one operation at a time *)

Lemma redis_wf_empty : redis_wf redis_empty.
Proof. apply map_Forall_empty. Qed.

Lemma redis_wf_create r now u e id r' :
  redis_wf r -> user_valid_b u = true -> create_session now u r = (e, id, r') -> redis_wf r'.
Proof.
  intros Hw Hu Hc. unfold create_session in Hc.
  destruct (store_set now _ _ _ r) as [[err|] s] eqn:Hs; invc Hc.
  - by rewrite (set_err_keeps _ _ _ _ _ _ _ Hs).
  - rewrite (redis_set_deadline _ _ _ _ _ _ (proj1 session_ttl_ms) (proj2 session_ttl_ms) Hs).
    apply map_Forall_insert_2; [|done]. by exists now, u.
Qed.

Lemma redis_wf_del r now k e r' : redis_wf r -> redis_del now k r = (e, r') -> redis_wf r'.
Proof.
  unfold redis_del. intros Hw. destruct (rd_up r); intros Hd; invc Hd; [|done].
  by apply map_Forall_delete.
Qed.

Lemma redis_wf_serve cfg env now now' req r w r' :
  redis_wf r -> serve cfg env now now' req r = (w, r') -> redis_wf r'.
Proof.
  intros Hw Hs. unfold serve in Hs.
  destruct (String.eqb (rq_path req) "/login"); [by invc Hs|].
  destruct (String.eqb (rq_path req) "/callback").
  - pose proof (handle_callback_store env now now' req r) as E. rewrite Hs in E. simpl in E. subst r'.
    destruct (callback_user env req) as [u|] eqn:Hu; [|done].
    destruct (create_session now u r) as [[e id] s] eqn:Hc. simpl.
    exact (redis_wf_create r now u e id s Hw (callback_user_valid env req u Hu) Hc).
  - destruct (String.eqb (rq_path req) "/logout"); [|by invc Hs].
    pose proof (handle_logout_store now req r) as E. rewrite Hs in E. simpl in E. subst r'.
    destruct (request_cookie req "session") as [v|]; [|done].
    destruct (redis_del now (session_key v) r) as [e s] eqn:Hd. exact (redis_wf_del r now _ e s Hw Hd).
Qed.

(** What [resolve_session] reads from a well-formed keyspace decodes. *)
Lemma redis_wf_get r t k v : redis_wf r -> redis_get t k r = GetOk v -> exists u, unmarshal_user v = Some u.
Proof.
  unfold redis_get, live_entry. intros Hw.
  destruct (rd_up r); [|done]. destruct (rd_keys r !! k) as [[v' e]|] eqn:Hk; [|done].
  case_if; [|done]. intros Hg. invc Hg.
  destruct (Hw k _ Hk) as (now & u & _ & Hu & Hx). invc Hx.
  exists u. by apply unmarshal_marshal_valid.
Qed.

Lemma reachable_wf (r : redis) A : reachable r A -> redis_wf r.
Proof.
  induction 1 as [|cfg env now now' req r A w r' HR IH Hs].
  - apply redis_wf_empty.
  - exact (redis_wf_serve cfg env now now' req r w r' IH Hs).
Qed.

(** ** Theorems *)

(** C2: Every Redis keyspace the server reaches from an empty Redis
    holds only session records: each key is [session:] followed by a
    printed clock reading, its value is the JSON of a user with valid
    UTF-8 fields, and it expires one hour after that reading. *)
Theorem reachable_redis_wf (r : redis) A : reachable r A -> redis_wf r.
Proof. apply reachable_wf. Qed.

(** C7: In a reachable Redis keyspace every value [getUser] reads
    decodes: the branch of [getUser] that answers "not logged in"
    because [json.Unmarshal] failed is never taken. *)
Theorem reachable_get_decodes (r : redis) A t id v :
  reachable r A -> redis_get t (session_key id) r = GetOk v -> exists u, unmarshal_user v = Some u.
Proof. intros HR. apply redis_wf_get. by apply reachable_wf with A. Qed.

(** C16: A logout while Redis is down answers the 303 that clears the
    cookie and keeps the store, and the session survives it: once Redis
    answers again, the old id resolves to the user until the end of its
    hour. *)
Theorem logout_redis_down_keeps_session now u r id r' t req :
  user_valid_b u = true ->
  create_session now u r = (None, id, r') ->
  request_cookie req "session" = Some id ->
  now <= t <= now + session_ttl ->
  rs_cookies (handle_logout t req (mk_redis (rd_keys r') false)).1 = [logout_cookie] /\
  (handle_logout t req (mk_redis (rd_keys r') false)).2 = mk_redis (rd_keys r') false /\
  resolve_session t id (mk_redis (rd_keys (handle_logout t req (mk_redis (rd_keys r') false)).2) true)
    = (u, true).
Proof.
  intros Hu Hc Hq Ht.
  assert (Hd : (handle_logout t req (mk_redis (rd_keys r') false)).2 = mk_redis (rd_keys r') false).
  { rewrite handle_logout_store, Hq. by rewrite redis_down_del. }
  split; [unfold handle_logout; simpl; by rewrite http_redirect_cookies|]. split; [done|].
  rewrite Hd. simpl.
  destruct (create_session_ok _ _ _ _ _ Hc) as [_ Hs].
  destruct (redis_set_ok _ _ _ _ _ _ Hs) as [e ->]. simpl.
  by apply (create_then_resolve now u r id).
Qed.
