(* ===== verification/Pages.v ===== *)
(** * Pages: what [handleHome] writes

    [handleHome] (lines 78-89) writes the login link when [getUser]
    finds no user, and otherwise the welcome page: [fmt.Fprintf] inserts
    [user.Name] and [user.Pic] as they are, and the JSON of
    [json.MarshalIndent] inside a [<pre>] block.

    The theorems: the page of a request without a session is the login
    link ([home_logged_out]); the markup of the welcome page is the
    markup of its template plus the markup in the user's name and
    picture URL, while the JSON block adds none
    ([welcome_page_markup]): a name chosen at Google, such as
    [<script>...], reaches the page as markup. *)

From S2P Require Import Prelude Store Http Codec JsonString JsonUser Handlers.

(** The number of [<], [>] and [&] bytes of a string. *)
Fixpoint markup_count (s : string) : nat :=
  match s with
  | EmptyString => 0
  | String c t => (if html_special c then 1 else 0) + markup_count t
  end.

Lemma markup_count_app a b : markup_count (a +:+ b) = (markup_count a + markup_count b)%nat.
Proof. induction a as [|c a IH]; [done|]. rewrite sapp_cons. simpl. rewrite IH. lia. Qed.

Lemma markup_count_safe s : sforall (fun d => negb (html_special d)) s = true -> markup_count s = 0%nat.
Proof.
  induction s as [|c s IH]; [done|]. simpl. intros [Hc Hs]%andb_prop.
  destruct (html_special c); [done|]. simpl. by apply IH.
Qed.

#[export] Hint Rewrite markup_count_app : slogin_rw.

(** C24: The markup of the welcome page of [u] is the fourteen bytes of
    markup of its template plus the markup in [u]'s name and picture
    URL; the JSON block contributes none. *)
Theorem welcome_page_markup u :
  markup_count (welcome_page u (marshal_indent_user u)) =
    (14 + markup_count (Name u) + markup_count (Pic u))%nat.
Proof.
  unfold welcome_page. autorewrite with slogin_rw.
  rewrite (markup_count_safe (marshal_indent_user u)) by apply marshal_indent_no_markup.
  simpl. lia.
Qed.

Section Home.
Context {St : Type} `{SessionStore St}.

(** C33: A request without a [session] cookie gets the login link, as
    HTML. *)
Theorem home_logged_out now r (st : St) :
  request_cookie r "session" = None ->
  rs_body (handle_home now r st) = login_page /\
  rs_header (handle_home now r st) !! "Content-Type" = Some ["text/html; charset=utf-8"].
Proof.
  intros Hr. unfold handle_home, get_user. rewrite Hr. simpl.
  split; [apply sapp_nil_l|]. by rewrite lookup_insert_eq.
Qed.
End Home.
