(* ===== verification/Scenario.v ===== *)
(** * Scenario: the lifecycle on Redis and encoding/json, at concrete inputs

    The theorems of [Session] are proved for every store and codec that
    satisfy the laws.  This file runs them on the instances the program
    uses, [RedisModel.redis] and [json_codec], at concrete clock
    readings, requests and Google answers: each lemma applies a theorem
    of [Session] at an input where its hypotheses hold, computed by
    [vm_compute].  It also plays the end-to-end scenario of the spec
    (create, resolve, destroy, resolve). *)

From S2P Require Import Prelude Store GoFmt HttpDate Http Codec JsonString JsonUser OAuth Handlers Session SetCookie Server Browser RedisServer Startup Pages.
Import RedisModel.

(** 2023-11-14 22:13:20 UTC, in nanoseconds. *)
Definition now0 : Z := 1700000000000000000.

Definition alice : User := mk_user "a@x.com" "A" "".
Definition bob : User := mk_user "b@x.com" "B" "".

(** A store that is down. *)
Definition redis_down : redis := mk_redis ∅ false.

(** Google's answers: the code [code1] gives the token [tok1], whose
    userinfo is [who]'s JSON. *)
Definition google (who : User) : oauth_env :=
  mk_oauth_env
    (fun c => if String.eqb c "code1" then Some "tok1" else None)
    (fun tok => if String.eqb tok "tok1" then Some (200, marshal_user who) else None).

Definition callback_req : request :=
  mk_request "GET" "/callback" [("state", "state-token"); ("code", "code1")] [].

Definition st_alice : redis := (create_session now0 alice redis_empty).2.

Definition cb_alice : response * redis := handle_callback (google alice) now0 now0 callback_req redis_empty.
Definition cb_bob : response * redis := handle_callback (google bob) now0 (now0 + 1) callback_req cb_alice.2.

(** A callback request with the same code and a state chosen by an
    attacker. *)
Definition forged_req : request :=
  mk_request "GET" "/callback" [("code", "code1"); ("state", "attacker")] [].

(** The environment of the deployment: a client id and a redirect URL. *)
Definition deploy_env : list (string * string) :=
  [("GOOGLE_CLIENT_ID", "cid.apps.googleusercontent.com"); ("GOOGLE_CLIENT_SECRET", "s");
   ("REDIRECT_URL", "http://localhost:8080/callback")].

Definition logout_req : request :=
  mk_request "GET" "/logout" [] [cookie_line "session" (fmt_d now0)].

Lemma resolve_after_create_witness :
  resolve_session (now0 + 30 * second) (fmt_d now0) st_alice = (alice, true).
Proof.
  apply (resolve_after_create now0 alice redis_empty (fmt_d now0) st_alice (now0 + 30 * second));
    [vm_compute; reflexivity | vm_compute; reflexivity | unfold session_ttl, second; lia].
Defined.

Lemma resolve_after_expiry_witness :
  resolve_session (now0 + session_ttl + millisecond) (fmt_d now0) st_alice = (zero_user, false).
Proof.
  apply (resolve_after_expiry now0 alice redis_empty (fmt_d now0) st_alice);
    [vm_compute; reflexivity | lia].
Defined.

Lemma resolve_after_destroy_witness :
  destroy_session now0 (fmt_d now0) st_alice = (store_del now0 (session_key (fmt_d now0)) st_alice).2 /\
  resolve_session (now0 + 1) (fmt_d now0) (store_del now0 (session_key (fmt_d now0)) st_alice).2 =
    (zero_user, false).
Proof. apply resolve_after_destroy. vm_compute. reflexivity. Defined.

Lemma destroy_other_witness :
  resolve_session now0 (fmt_d now0) (destroy_session now0 (fmt_d (now0 + 1)) st_alice) =
  resolve_session now0 (fmt_d now0) st_alice.
Proof. apply destroy_other. vm_compute. discriminate. Defined.

Lemma resolve_fail_closed_witness :
  (false = true /\ exists val, store_get now0 (session_key "1") redis_down = GetOk val /\
                               user_unmarshal val = Some zero_user) \/
  (false = false /\ zero_user = zero_user).
Proof. apply (resolve_fail_closed now0 "1" redis_down). vm_compute. reflexivity. Defined.

Lemma callback_outcome_witness :
  (rs_status cb_alice.1 = 303 /\ exists u, callback_user (google alice) callback_req = Some u /\
     create_session now0 u redis_empty = (None, fmt_d now0, cb_alice.2) /\
     rs_cookies cb_alice.1 = [session_cookie (fmt_d now0) now0]) \/
  (rs_status cb_alice.1 <> 303 /\ rs_cookies cb_alice.1 = [] /\ cb_alice.2 = redis_empty).
Proof. apply callback_outcome. vm_compute. reflexivity. Defined.

Lemma login_then_get_user_witness :
  exists u c, callback_user (google alice) callback_req = Some u /\ rs_cookies cb_alice.1 = [c] /\
              get_user (now0 + session_ttl) (browser_request "GET" "/" [] c) cb_alice.2 = (u, true).
Proof.
  apply (login_then_get_user (google alice) now0 now0 callback_req redis_empty);
    [unfold in_int64, int64_min, int64_max, now0; lia | vm_compute; reflexivity |
     vm_compute; reflexivity | unfold session_ttl, second; lia].
Defined.

Lemma logout_then_get_user_witness :
  rs_cookies (handle_logout now0 logout_req st_alice).1 = [logout_cookie] /\
  get_user (now0 + 1) logout_req (handle_logout now0 logout_req st_alice).2 = (zero_user, false).
Proof.
  apply (logout_then_get_user now0 logout_req st_alice _ _ (fmt_d now0));
    vm_compute; reflexivity.
Defined.

Lemma same_instant_logins_collide_witness :
  exists c1 c2 u2, rs_cookies cb_alice.1 = [c1] /\ rs_cookies cb_bob.1 = [c2] /\
                   ck_value c1 = ck_value c2 /\
                   callback_user (google bob) callback_req = Some u2 /\
                   get_user now0 (browser_request "GET" "/" [] c1) cb_bob.2 = (u2, true).
Proof.
  apply (same_instant_logins_collide (google alice) (google bob) now0 now0 (now0 + 1)
           callback_req callback_req redis_empty cb_alice.1 cb_alice.2 cb_bob.1 cb_bob.2);
    first [unfold in_int64, int64_min, int64_max, now0; lia | vm_compute; reflexivity].
Defined.

(** ** Sessions on Redis *)

(** C28: The TTL window of a session on Redis: after [create_session]
    succeeds at [now], the key [session:id] holds the user's JSON up to
    [now + 1h] and is gone from [now + 1h + 1ms] (go-redis sends the
    hour as [EX 3600], Redis keeps the deadline in milliseconds and
    expires a key when [now > when]). *)
Theorem redis_session_window now u r id r' :
  create_session now u r = (None, id, r') ->
  (forall t', now <= t' <= now + session_ttl ->
     redis_get t' (session_key id) r' = GetOk (marshal_user u)) /\
  (forall t', now + session_ttl + millisecond <= t' -> redis_get t' (session_key id) r' = GetNil).
Proof.
  intros Hc. destruct (create_session_ok _ _ _ _ _ Hc) as [-> Hs].
  split; intros t' Ht.
  - exact (set_get_hit _ _ _ _ _ _ t' Hs (proj1 session_ttl_ms) (proj2 session_ttl_ms) Ht).
  - exact (set_get_expired _ _ _ _ _ _ t' Hs (proj1 session_ttl_ms) (proj2 session_ttl_ms) Ht).
Qed.

Lemma redis_session_window_witness :
  (forall t', now0 <= t' <= now0 + session_ttl ->
     redis_get t' (session_key (fmt_d now0)) st_alice = GetOk (marshal_user alice)) /\
  (forall t', now0 + session_ttl + millisecond <= t' ->
     redis_get t' (session_key (fmt_d now0)) st_alice = GetNil).
Proof. apply (redis_session_window now0 alice redis_empty). vm_compute. reflexivity. Defined.

(** C29: With Redis down, a login fails with the connection error and
    leaves the store as it was, every session resolves to absent, and a
    logout's DEL fails and changes nothing. *)
Theorem redis_down_rejects now u r id t :
  rd_up r = false ->
  create_session now u r = (Some conn_refused, fmt_d now, r) /\
  resolve_session t id r = (zero_user, false) /\
  destroy_session now id r = r.
Proof.
  intros Hr. unfold create_session, resolve_session, destroy_session. simpl.
  unfold redis_get, redis_set, redis_del. by rewrite Hr.
Qed.

Lemma redis_down_rejects_witness :
  create_session now0 alice redis_down = (Some conn_refused, fmt_d now0, redis_down) /\
  resolve_session now0 "1" redis_down = (zero_user, false) /\
  destroy_session now0 "1" redis_down = redis_down.
Proof. apply redis_down_rejects. reflexivity. Defined.


Lemma callback_ignores_state_witness :
  handle_callback (google alice) now0 now0 callback_req redis_empty =
  handle_callback (google alice) now0 now0 forged_req redis_empty.
Proof. apply callback_ignores_state; vm_compute; reflexivity. Defined.

Lemma home_logged_out_witness :
  rs_body (handle_home now0 (mk_request "GET" "/" [] []) redis_empty) = login_page /\
  rs_header (handle_home now0 (mk_request "GET" "/" [] []) redis_empty) !! "Content-Type" =
    Some ["text/html; charset=utf-8"].
Proof. apply home_logged_out. reflexivity. Defined.

(** Alice's login is a step of the server from the empty Redis. *)
Lemma reach_alice : reachable cb_alice.2 (abs_serve (google alice) now0 callback_req redis_empty ∅).
Proof.
  apply (reach_serve (main_config deploy_env) (google alice) now0 now0 callback_req redis_empty ∅
           cb_alice.1 cb_alice.2); [exact (reach_init (St := redis)) | vm_compute; reflexivity].
Qed.

Lemma reachable_refines_witness :
  refines cb_alice.2 (abs_serve (google alice) now0 callback_req redis_empty ∅).
Proof. apply reachable_refines. exact reach_alice. Defined.

Lemma reachable_redis_wf_witness : redis_wf cb_alice.2.
Proof. apply (reachable_redis_wf _ _ reach_alice). Defined.

Lemma reachable_get_decodes_witness :
  exists u, unmarshal_user (marshal_user alice) = Some u.
Proof.
  apply (reachable_get_decodes cb_alice.2 _ now0 (fmt_d now0) _ reach_alice).
  vm_compute. reflexivity.
Defined.

Lemma logout_redis_down_keeps_session_witness :
  rs_cookies (handle_logout now0 logout_req (mk_redis (rd_keys st_alice) false)).1 = [logout_cookie] /\
  (handle_logout now0 logout_req (mk_redis (rd_keys st_alice) false)).2 = mk_redis (rd_keys st_alice) false /\
  resolve_session now0 (fmt_d now0)
    (mk_redis (rd_keys (handle_logout now0 logout_req (mk_redis (rd_keys st_alice) false)).2) true)
    = (alice, true).
Proof.
  apply (logout_redis_down_keeps_session now0 alice redis_empty); [vm_compute; reflexivity ..|unfold session_ttl, second; lia].
Defined.


Lemma session_cookie_roundtrip_witness :
  request_cookie (mk_request "GET" "/" [] [cookie_line "session" (fmt_d now0)]) "session" =
    Some (fmt_d now0).
Proof. apply session_cookie_roundtrip. unfold in_int64, int64_min, int64_max, now0; lia. Defined.

(** A [.env] file that sets the client id twice. *)
Definition dotenv_twice : list (string * string) :=
  [("GOOGLE_CLIENT_ID", "first"); ("GOOGLE_CLIENT_ID", "second")].

Lemma startup_client_id_witness :
  ClientID (main_config (dotenv_load (Some dotenv_twice) [])) = "second".
Proof.
  apply (startup_client_id (Some dotenv_twice) [] redis_empty _ redis_empty).
  reflexivity.
Defined.


Lemma callback_set_cookie_witness :
  set_cookie_headers cb_alice.1 =
    ["session=" +:+ fmt_d now0 +:+ "; Expires=" +:+ http_date_ref (now0 + session_ttl)].
Proof.
  apply (callback_set_cookie (google alice) now0 now0 callback_req redis_empty cb_alice.1 cb_alice.2);
    [unfold in_int64, int64_min, int64_max, now0; lia
    |unfold in_int64, int64_min, int64_max, now0, session_ttl, second; lia
    |vm_compute; reflexivity | vm_compute; reflexivity].
Defined.

(** Alice's cookie expires at 2023-11-14 23:13:20 UTC, one hour after
    her login. *)
Lemma alice_cookie_line :
  set_cookie_headers cb_alice.1 = ["session=1700000000000000000; Expires=Tue, 14 Nov 2023 23:13:20 GMT"].
Proof. vm_compute. reflexivity. Qed.

(** The jar of Alice's browser after it stored the cookie of her login
    at the second of the login. *)
Definition jar_alice : jar := browser_receive (now0 / 1000000000) (set_cookie_headers cb_alice.1) [].

Lemma browser_login_session_witness :
  exists u, callback_user (google alice) callback_req = Some u /\
    (forall m p q tb' t, tb' < (now0 + session_ttl) / 1000000000 -> now0 <= t <= now0 + session_ttl ->
       get_user t (browser_request_at m p q tb' jar_alice) cb_alice.2 = (u, true)) /\
    (forall m p q tb' t, (now0 + session_ttl) / 1000000000 <= tb' ->
       get_user t (browser_request_at m p q tb' jar_alice) cb_alice.2 = (zero_user, false)).
Proof.
  apply (browser_login_session (google alice) now0 now0 callback_req redis_empty cb_alice.1 cb_alice.2);
    [unfold in_int64, int64_min, int64_max, now0; lia
    |unfold in_int64, int64_min, int64_max, now0, session_ttl, second; lia
    |vm_compute; reflexivity | vm_compute; reflexivity | vm_compute; reflexivity].
Defined.

Lemma browser_logout_forgets_witness :
  get_user now0
    (browser_request_at "GET" "/" [] (now0 / 1000000000 + 1)
       (browser_receive (now0 / 1000000000 + 1) (set_cookie_headers (handle_logout now0 logout_req st_alice).1)
          jar_alice)) st_alice = (zero_user, false).
Proof.
  apply browser_logout_forgets; [vm_compute; repeat constructor | vm_compute; discriminate].
Defined.
